(** * Sellola socket server: session authorization and room routing

    A shallow embedding of the socket server's connection middleware
    (server.js, [io.use]) and of its event handlers (socketHandlers.js):
    [waitForDB], [getProductWithShop], [saveMessageNative] and the
    handlers of [join-quotation-room], [join-rfq-room],
    [join-product-room], [send-message], [typing] and [stop-typing].

    Conventions.
    - An id, a room name and an error message are [string]s.  A payload
      field that may be missing is an [option string]; [None] stands for
      [undefined]/[null], and [Some ""] is the one falsy string.
    - Everything the handlers await (the database, the token library, the
      socket adapter) is an oracle of the [World] record: the handlers are
      proved correct for every behaviour of those collaborators.
    - A handler is a computation in the monad [M]: it threads the
      observable effects (events emitted, rooms joined, documents handed
      to [insertOne]) and ends normally, by [return], or by a thrown
      error.  Effects done before a throw stay done, as in JavaScript. *)

From Stdlib Require Import String Ascii List Bool Arith ZArith Lia.
Import ListNotations.
Open Scope string_scope.

(** ** JavaScript values used by the handlers *)

Module JS.

(** [!!v] for a value that is a string or missing. *)
Definition truthy (v : option string) : bool :=
  match v with
  | Some s => negb (s =? "")
  | None => false
  end.

(** [a || b]. *)
Definition or_else (a b : option string) : option string :=
  if truthy a then a else b.

(** [hay.includes(needle)]. *)
Fixpoint includes (needle hay : string) : bool :=
  if String.prefix needle hay then true
  else match hay with
       | EmptyString => false
       | String _ rest => includes needle rest
       end.

(** Drop the first [n] characters. *)
Fixpoint drop (n : nat) (s : string) : string :=
  match n, s with
  | 0, _ => s
  | S _, EmptyString => EmptyString
  | S k, String _ rest => drop k rest
  end.

(** [s.replace(pat, rep)] for a string pattern: only the first
    occurrence is replaced. *)
Fixpoint replace_first (pat rep s : string) : string :=
  if String.prefix pat s then rep ++ drop (String.length pat) s
  else match s with
       | EmptyString => EmptyString
       | String c rest => String c (replace_first pat rep rest)
       end.

(** [[a, b].sort()] on two strings: the default comparison orders by code
    units and the sort is stable, so the pair is swapped only when the
    second is strictly smaller. *)
Definition sort2 (a b : string) : string * string :=
  if String.ltb b a then (b, a) else (a, b).

(** A settled promise: a value or a rejection carrying [error.message]. *)
Inductive result (A : Type) : Type :=
| Ok (a : A)
| Err (message : string).
Arguments Ok {A} a.
Arguments Err {A} message.

(** [Promise.race([p, timer])]: the promise settles first, or the timer does. *)
Inductive raced (A : Type) : Type :=
| Settled (r : result A)
| TimerFirst.
Arguments Settled {A} r.
Arguments TimerFirst {A}.

End JS.
Import JS.

(** ** Readiness gate: [waitForDB] *)

Module Readiness.

(** What one iteration of [waitForDB] observes. *)
Record Probe : Type := {
  readyState : Z;       (* mongoose.connection.readyState *)
  hasDb : bool;         (* mongoose.connection.db is set *)
  pingOk : bool;        (* db.admin().ping() resolves *)
  countOk : bool        (* collection('users').countDocuments resolves *)
}.

Record WaitResult : Type := {
  ready : bool;         (* the value returned *)
  attempts : nat;       (* iterations of the loop body that ran *)
  slept : nat           (* milliseconds spent in setTimeout *)
}.

Definition stateReady (p : Probe) : bool :=
  (readyState p =? 1)%Z && hasDb p.

Definition probeOk (p : Probe) : bool :=
  pingOk p && countOk p.

Definition attemptSucceeds (p : Probe) : bool :=
  stateReady p && probeOk p.

(** The [for] loop, [remaining = maxRetries - i].  The [catch] branch
    sleeps 500 ms and [continue]s; the other miss sleeps [delay]. *)
Fixpoint waitLoop (backend : nat -> Probe) (delay remaining i sleptSoFar : nat)
  : WaitResult :=
  match remaining with
  | 0 => {| ready := false; attempts := i; slept := sleptSoFar |}
  | S k =>
      let p := backend i in
      if stateReady p then
        if probeOk p
        then {| ready := true; attempts := S i; slept := sleptSoFar |}
        else waitLoop backend delay k (S i) (sleptSoFar + 500)
      else waitLoop backend delay k (S i) (sleptSoFar + delay)
  end.

Definition waitForDB (backend : nat -> Probe) (maxRetries delay : nat)
  : WaitResult :=
  waitLoop backend delay maxRetries 0 0.

Definition defaultRetries : nat := 15.
Definition defaultDelay : nat := 1000.

End Readiness.
Import Readiness.

(** ** Identity verifier: the [io.use] middleware *)

Module Auth.

Record Handshake : Type := {
  authToken : option string;        (* socket.handshake.auth.token *)
  authorization : option string     (* socket.handshake.headers.authorization *)
}.

Record Config : Type := {
  JWT_SECRET : option string;       (* module-level JWT_SECRET *)
  envJWT_SECRET : option string     (* process.env.JWT_SECRET *)
}.

Record Decoded : Type := {
  userId : option string;
  role : option string
}.

(** Why [jwt.verify] threw. *)
Inductive VerifyError : Type :=
| Malformed
| Expired
| BadSignature
| OtherFailure (message : string).

(** What the middleware hands to [next]. *)
Inductive Outcome : Type :=
| Accepted (userId role : option string)
| Refused (message : string).

Section Middleware.
(** [jwt.verify(token, secret)], from the jsonwebtoken package. *)
Variable jwtVerify : string -> string -> Decoded + VerifyError.

Definition extractToken (h : Handshake) : option string :=
  or_else (authToken h)
          (option_map (replace_first "Bearer " "") (authorization h)).

Definition authenticate (cfg : Config) (h : Handshake) : Outcome :=
  match extractToken h with
  | Some token =>
      if token =? "" then Refused "Authentication token required"
      else
        match or_else (JWT_SECRET cfg) (envJWT_SECRET cfg) with
        | Some secret =>
            if secret =? "" then Refused "JWT_SECRET not configured"
            else
              match jwtVerify token secret with
              | inl d => Accepted (userId d) (role d)
              | inr _ => Refused "Authentication failed"
              end
        | None => Refused "JWT_SECRET not configured"
        end
  | None => Refused "Authentication token required"
  end.
End Middleware.

End Auth.

(** ** Records read from the database, and the message documents *)

Module Data.

(** An [ObjectId], kept as its hexadecimal text ([toString()]). *)
Definition oid : Type := string.

(** A quotation with [populate('rfq')] applied: [q_rfq] is the id of the
    parent RFQ, or [None] when the reference did not resolve. *)
Record Quotation : Type := {
  quotedBy : string;
  q_rfq : option string
}.

Record RFQ : Type := {
  requestedBy : string
}.

(** [product.shop] as stored: an ObjectId, or something else that
    [new ObjectId(...)] has to parse (a string, or a value it prints). *)
Inductive ShopRef : Type :=
| RefOid (o : oid)
| RefText (s : string).

Record RawProduct : Type := {
  raw_name : option string;
  raw_shop : option ShopRef
}.

Record Shop : Type := {
  shop_id : oid;
  owner : option string      (* shop.owner, printed; None when missing *)
}.

(** What [getProductWithShop] returns: the product with [shop] replaced
    by the shop document, or by nothing. *)
Record Product : Type := {
  name : option string;
  shop : option Shop
}.

(** The argument of [saveMessageNative]. *)
Record MessageData : Type := {
  md_quotation : option string;
  md_rfq : option string;
  md_product : option string;
  md_sender : string;
  md_receiver : string;
  md_message : string;
  md_attachments : list string
}.

(** The document handed to [insertOne]; an absent field is a deleted key. *)
Record MessageDoc : Type := {
  doc_quotation : option oid;
  doc_rfq : option oid;
  doc_product : option oid;
  doc_sender : oid;
  doc_receiver : oid;
  doc_message : string;
  doc_attachments : list string;
  doc_readAt : option nat;
  doc_createdAt : nat;
  doc_v : nat
}.

Record UserProjection : Type := {
  user_id : oid;
  username : option string;
  email : option string;
  profile : option string
}.

(** [savedMessage.sender]: the stored ObjectId, or the user document put
    in its place by the sender lookup. *)
Inductive Sender : Type :=
| SenderRef (o : oid)
| SenderUser (u : UserProjection).

(** The document read back from the collection. *)
Record StoredMessage : Type := {
  st_id : oid;
  st_quotation : option oid;
  st_rfq : option oid;
  st_product : option oid;
  st_sender : option oid;
  st_receiver : oid;
  st_message : option string;
  st_attachments : option (list string);
  st_readAt : option nat;
  st_createdAt : nat
}.

(** [savedMessage] once the sender lookup has run. *)
Record SavedMessage : Type := {
  sv_stored : StoredMessage;
  sv_sender : option Sender
}.

Record FormattedSender : Type := {
  fs_id : string;
  fs_username : option string;
  fs_email : option string;
  fs_profile : option string
}.

(** [formattedMessage], the object both broadcasts carry. *)
Record FormattedMessage : Type := {
  fm_id : string;
  fm_quotation : option string;
  fm_rfq : option string;
  fm_product : option string;
  fm_sender : option FormattedSender;
  fm_receiver : string;
  fm_message : option string;
  fm_attachments : list string;
  fm_readAt : option nat;
  fm_createdAt : nat
}.

(** The payload object of an inbound event: every field is optional. *)
Record EventData : Type := {
  quotationId : option string;
  rfqId : option string;
  productId : option string;
  receiverId : option string;
  receiver : option string;
  message : option string;
  attachments : option (list string);
  room : option string
}.

End Data.
Import Data.

(** ** The collaborators, as oracles *)

Module Env.

Record World : Type := {
  (* what the i-th iteration of waitForDB observes *)
  backend : nat -> Probe;
  (* mongoose.connection.readyState and .db, read after the wait *)
  connState : Z;
  dbHandle : bool;
  (* db.admin().ping() inside saveMessageNative *)
  ping : result unit;
  (* new mongoose.Types.ObjectId(text) *)
  newObjectId : string -> result oid;
  (* new Date() *)
  now : nat;
  (* Quotation.findById(id).populate('rfq') and RFQ.findById(ref) *)
  findQuotation : string -> result (option Quotation);
  findRFQ : option string -> result (option RFQ);
  (* db.collection('products' | 'shops').findOne({ _id }) *)
  findProduct : oid -> result (option RawProduct);
  findShop : oid -> result (option Shop);
  (* the 5 s timer of join-product-room beats getProductWithShop *)
  productTimerFirst : bool;
  (* insertOne(doc) raced with 8 s: the insertedId of the result *)
  insertOne : MessageDoc -> raced (option oid);
  (* findOne({ _id }) on quotationmessages, raced with 5 s; the answer may
     depend on the documents this listener has handed to insertOne *)
  findMessage : list MessageDoc -> oid -> raced (option StoredMessage);
  (* findOne({ _id }, { projection }) on users, raced with 5 s *)
  findUser : oid -> raced (option UserProjection);
  (* io.in(room).fetchSockets(): the number of sockets *)
  fetchSockets : option string -> result nat
}.

End Env.
Import Env.

(** ** Effects and the handler monad *)

Module Eff.

Inductive ThreadKey : Type := KQuotation | KRfq | KProduct.

Inductive Payload : Type :=
| PError (message : string) (details : option string)
| PJoined (room : string) (key : ThreadKey) (id : option string)
| PMessage (message : FormattedMessage)
           (quotationId rfqId productId : option string)
| PTyping (userId : string) (typing : bool).

(** [socket.emit], [io.to(room).emit], [socket.to(room).emit]; a room
    that is [None] is the JavaScript [undefined]. *)
Inductive Target : Type :=
| Socket
| IoTo (room : option string)
| SocketTo (room : string).

Record Emission : Type := {
  target : Target;
  event : string;
  payload : Payload
}.

Record Effects : Type := {
  emitted : list Emission;     (* oldest first *)
  rooms : list string;         (* socket.rooms *)
  inserts : list MessageDoc    (* documents handed to insertOne *)
}.

Inductive outcome (A : Type) : Type :=
| Normal (a : A)
| Returned                     (* a [return;] of the handler *)
| Thrown (message : string).
Arguments Normal {A} a.
Arguments Returned {A}.
Arguments Thrown {A} message.

Definition M (A : Type) : Type := Effects -> outcome A * Effects.

Definition pure {A : Type} (a : A) : M A := fun e => (Normal a, e).

Definition bind {A B : Type} (m : M A) (k : A -> M B) : M B :=
  fun e =>
    match m e with
    | (Normal a, e') => k a e'
    | (Returned, e') => (Returned, e')
    | (Thrown x, e') => (Thrown x, e')
    end.

Definition throw {A : Type} (message : string) : M A :=
  fun e => (Thrown message, e).

Definition finish {A : Type} : M A := fun e => (Returned, e).

Declare Scope handler_scope.
Delimit Scope handler_scope with handler.
Notation "x <- m ;; k" := (bind m (fun x => k))
  (at level 100, m at next level, right associativity) : handler_scope.
Notation "m ;; k" := (bind m (fun _ => k))
  (at level 100, right associativity) : handler_scope.
Open Scope handler_scope.

(** [await p] *)
Definition await {A : Type} (r : result A) : M A :=
  match r with
  | Ok a => pure a
  | Err x => throw x
  end.

(** [await Promise.race([p, timer])] where the timer rejects with [late]. *)
Definition awaitRace {A : Type} (r : raced A) (late : string) : M A :=
  match r with
  | Settled s => await s
  | TimerFirst => throw late
  end.

(** [try { body } catch (error) { handler(error.message) }] *)
Definition try_catch {A : Type} (body : M A) (handler : string -> M A) : M A :=
  fun e =>
    match body e with
    | (Thrown x, e') => handler x e'
    | other => other
    end.

(** [if (c) { m }] *)
Definition when (c : bool) (m : M unit) : M unit :=
  if c then m else pure tt.

Definition emit (t : Target) (ev : string) (p : Payload) : M unit :=
  fun e => (Normal tt,
            {| emitted := emitted e ++ [{| target := t; event := ev; payload := p |}];
               rooms := rooms e;
               inserts := inserts e |}).

Definition emitError (message : string) (details : option string) : M unit :=
  emit Socket "error" (PError message details).

(** [socket.join(room)]: [socket.rooms] is a set. *)
Definition join (room : string) : M unit :=
  fun e => (Normal tt,
            {| emitted := emitted e;
               rooms := if existsb (String.eqb room) (rooms e)
                        then rooms e else rooms e ++ [room];
               inserts := inserts e |}).

(** [socket.leave(room)] *)
Definition leave (room : string) : M unit :=
  fun e => (Normal tt,
            {| emitted := emitted e;
               rooms := filter (fun r => negb (String.eqb room r)) (rooms e);
               inserts := inserts e |}).

Definition recordInsert (d : MessageDoc) : M unit :=
  fun e => (Normal tt,
            {| emitted := emitted e;
               rooms := rooms e;
               inserts := inserts e ++ [d] |}).

Definition inserted : M (list MessageDoc) :=
  fun e => (Normal (inserts e), e).

(** How the call of a listener ends: it completes, or the error escapes
    it (an unhandled rejection or an uncaught exception of the process). *)
Inductive completion : Type :=
| Completed
| Unhandled (message : string).

Definition run (m : M unit) (e : Effects) : completion * Effects :=
  match m e with
  | (Thrown x, e') => (Unhandled x, e')
  | (_, e') => (Completed, e')
  end.

(** A template literal prints a missing value as [undefined]. *)
Definition text (v : option string) : string :=
  match v with
  | Some s => s
  | None => "undefined"
  end.

(** [v === s] for a string [s]. *)
Definition same (v : option string) (s : string) : bool :=
  match v with
  | Some x => x =? s
  | None => false
  end.

(** [v || null] *)
Definition or_null (v : option string) : option string :=
  if truthy v then v else None.

(** [const { ... } = data] throws a TypeError when [data] is missing. *)
Definition destructure (data : option EventData) (first : string) : M EventData :=
  match data with
  | Some d => pure d
  | None => throw ("Cannot destructure property '" ++ first
                   ++ "' of 'data' as it is undefined.")
  end.

End Eff.
Import Eff.

(** ** socketHandlers.js *)

Module Handlers.

(** *** [getProductWithShop] *)

(** [if (product.shop)]: an ObjectId is truthy, a string unless empty. *)
Definition shopRefTruthy (r : ShopRef) : bool :=
  match r with
  | RefOid _ => true
  | RefText s => negb (s =? "")
  end.

(** The inner [try]: any failure leaves [product.shop = null]. *)
Definition fetchShop (w : World) (r : ShopRef) : option Shop :=
  let shopObjectId :=
    match r with
    | RefOid o => Ok o
    | RefText s => newObjectId w s
    end in
  match shopObjectId with
  | Ok sid =>
      match findShop w sid with
      | Ok s => s
      | Err _ => None
      end
  | Err _ => None
  end.

Definition getProductWithShop (w : World) (productId : string)
  : result (option Product) :=
  if negb (dbHandle w) then Err "Database not available"
  else
    match newObjectId w productId with
    | Err _ => Err ("Invalid product ID: " ++ productId)
    | Ok productObjectId =>
        match findProduct w productObjectId with
        | Err x => Err x
        | Ok None => Ok None
        | Ok (Some raw) =>
            Ok (Some {| name := raw_name raw;
                        shop := match raw_shop raw with
                                | Some r => if shopRefTruthy r
                                            then fetchShop w r else None
                                | None => None
                                end |})
        end
    end.

(** [product.shop?.owner] *)
Definition shopOwner (p : Product) : option string :=
  match shop p with
  | Some s => owner s
  | None => None
  end.

(** [product.shop?.owner?.toString() || product.shop?.owner?._id?.toString()].
    The second operand is only looked at when the printed owner is missing
    or empty, and then [owner?._id] is [undefined]. *)
Definition shopOwnerIdJoin (p : Product) : option string :=
  or_else (shopOwner p) None.

(** The same with the third operand of the send path,
    [(owner instanceof ObjectId ? owner.toString() : null)]: an ObjectId
    prints to a non-empty text, so that operand is [null] when reached. *)
Definition shopOwnerIdSend (p : Product) : option string :=
  or_else (or_else (shopOwner p) None) None.

(** *** [saveMessageNative] *)

(** [v ? new ObjectId(v) : undefined] *)
Definition parseRef (w : World) (v : option string) : result (option oid) :=
  match v with
  | Some s => if s =? "" then Ok None
              else match newObjectId w s with
                   | Ok o => Ok (Some o)
                   | Err x => Err x
                   end
  | None => Ok None
  end.

Definition isSome {A : Type} (o : option A) : bool :=
  match o with
  | Some _ => true
  | None => false
  end.

(** The sender lookup, with its own [try]: a failure keeps the id. *)
Definition populateSender (w : World) (sender : option oid) : M (option Sender) :=
  match sender with
  | Some sid =>
      try_catch
        (u <- awaitRace (findUser w sid) "Sender lookup timeout after 5 seconds" ;;
         match u with
         | Some u => pure (Some (SenderUser u))
         | None => pure (Some (SenderRef sid))
         end)
        (fun _ => pure (Some (SenderRef sid)))
  | None => pure None
  end.

Definition saveMessageNative (w : World) (messageData : MessageData)
  : M SavedMessage :=
  when (negb (connState w =? 1)%Z) (throw "Database not connected") ;;
  when (negb (dbHandle w)) (throw "Database not available") ;;
  try_catch
    (await (ping w) ;;
     quotation <- await (parseRef w (md_quotation messageData)) ;;
     rfq <- await (parseRef w (md_rfq messageData)) ;;
     product <- await (parseRef w (md_product messageData)) ;;
     sender <- await (newObjectId w (md_sender messageData)) ;;
     receiver <- await (newObjectId w (md_receiver messageData)) ;;
     let messageDoc :=
       {| doc_quotation := quotation;
          doc_rfq := rfq;
          doc_product := product;
          doc_sender := sender;
          doc_receiver := receiver;
          doc_message := md_message messageData;
          doc_attachments := md_attachments messageData;
          doc_readAt := None;
          doc_createdAt := now w;
          doc_v := 0 |} in
     when (negb (isSome quotation) && negb (isSome rfq) && negb (isSome product))
          (throw "Either quotation, rfq, or product must be provided") ;;
     recordInsert messageDoc ;;
     insertedId <- awaitRace (insertOne w messageDoc)
                             "Insert operation timeout after 8 seconds" ;;
     match insertedId with
     | None => throw "Failed to save message"
     | Some id =>
         written <- inserted ;;
         found <- awaitRace (findMessage w written id)
                            "Find operation timeout after 5 seconds" ;;
         match found with
         | None => throw "Message saved but could not be retrieved"
         | Some stored =>
             sender <- populateSender w (st_sender stored) ;;
             pure {| sv_stored := stored; sv_sender := sender |}
         end
     end)
    (fun x => throw x).

(** *** The room names *)

Definition quotationRoom (quotationId : string) : string :=
  "quotation-" ++ quotationId.

Definition rfqRoom (rfqId : string) : string :=
  "rfq-" ++ rfqId.

(** [`product-${productId}-${userIds[0]}-${userIds[1]}`] with
    [userIds = [socket.userId, receiverId].sort()], in join-product-room. *)
Definition joinProductRoomName (productId userId receiverId : string) : string :=
  let userIds := sort2 userId receiverId in
  "product-" ++ productId ++ "-" ++ fst userIds ++ "-" ++ snd userIds.

(** The same two lines, in the product branch of send-message. *)
Definition sendProductRoomName (productId userId receiver : string) : string :=
  let userIds := sort2 userId receiver in
  "product-" ++ productId ++ "-" ++ fst userIds ++ "-" ++ snd userIds.

(** [`product-${productId}-${receiverId}`], in typing and stop-typing. *)
Definition typingProductRoom (productId receiverId : string) : string :=
  "product-" ++ productId ++ "-" ++ receiverId.

(** [`user-${id}`], joined on connection and used by send-message. *)
Definition userRoom (id : string) : string :=
  "user-" ++ id.

(** *** Pieces shared by the handlers *)

Definition dbReady (w : World) (maxRetries delay : nat) : bool :=
  ready (waitForDB (backend w) maxRetries delay).

Definition notConnected : M unit :=
  emitError "Database not connected. Please try again." None ;; finish.

(** [rfq.requestedBy.toString()], a TypeError when [rfq] is [null]. *)
Definition requestedByOf (rfq : option RFQ) : M string :=
  match rfq with
  | Some r => pure (requestedBy r)
  | None => throw "Cannot read properties of null (reading 'requestedBy')"
  end.

(** [quotation.quotedBy.toString() !== socket.userId &&
     rfq.requestedBy.toString() !== socket.userId]; the right operand is
    evaluated only when the left one holds. *)
Definition notParty (quotation : Quotation) (rfq : option RFQ) (userId : string)
  : M bool :=
  if negb (quotedBy quotation =? userId)
  then (r <- requestedByOf rfq ;; pure (negb (r =? userId)))
  else pure false.

(** [error.message || 'Unknown error'] *)
Definition orUnknown (x : string) : string :=
  if x =? "" then "Unknown error" else x.

(** *** join-quotation-room *)

Definition joinQuotationRoom (w : World) (userId : string)
  (data : option EventData) : M unit :=
  try_catch
    (when (negb (dbReady w defaultRetries defaultDelay)) notConnected ;;
     d <- destructure data "quotationId" ;;
     when (negb (truthy (quotationId d)))
          (emitError "Quotation ID is required" None ;; finish) ;;
     let quotationId := text (quotationId d) in
     quotation <- await (findQuotation w quotationId) ;;
     match quotation with
     | None => emitError "Quotation not found" None ;; finish
     | Some quotation =>
         rfq <- await (findRFQ w (q_rfq quotation)) ;;
         denied <- notParty quotation rfq userId ;;
         when denied (emitError "Access denied" None ;; finish) ;;
         let room := quotationRoom quotationId in
         join room ;;
         emit Socket "joined-room" (PJoined room KQuotation (Some quotationId))
     end)
    (fun x =>
       emitError ("Failed to join quotation room: " ++ orUnknown x) (Some x)).

(** *** join-rfq-room *)

Definition joinRfqRoom (w : World) (userId : string)
  (data : option EventData) : M unit :=
  try_catch
    (when (negb (dbReady w defaultRetries defaultDelay)) notConnected ;;
     d <- destructure data "rfqId" ;;
     when (negb (truthy (rfqId d)))
          (emitError "RFQ ID is required" None ;; finish) ;;
     let rfqId := text (rfqId d) in
     rfq <- await (findRFQ w (Some rfqId)) ;;
     match rfq with
     | None => emitError "RFQ not found" None ;; finish
     | Some rfq =>
         when (negb (requestedBy rfq =? userId))
              (emitError "Access denied" None ;; finish) ;;
         let room := rfqRoom rfqId in
         join room ;;
         emit Socket "joined-room" (PJoined room KRfq (Some rfqId))
     end)
    (fun x =>
       emitError ("Failed to join RFQ room: " ++ orUnknown x) (Some x)).

(** *** join-product-room *)

(** [Promise.race([getProductWithShop(productId), timer])] *)
Definition productQuery (w : World) (productId : string)
  : raced (option Product) :=
  if productTimerFirst w then TimerFirst
  else Settled (getProductWithShop w productId).

Definition joinProductErrorMessage (x : string) : string :=
  if includes "buffering timed out" x
  then "Database connection not ready. Please try again in a moment."
  else if includes "timeout" x
       then "Query timeout. Please try again."
       else "Failed to join room: " ++ x.

Definition joinProductRoom (w : World) (userId : string)
  (data : option EventData) : M unit :=
  try_catch
    (when (negb (dbReady w 15 1000)) notConnected ;;
     when (negb (connState w =? 1)%Z)
          (emitError "Database connection lost. Please try again." None ;; finish) ;;
     d <- destructure data "productId" ;;
     when (negb (truthy (productId d)) || negb (truthy (receiverId d)))
          (emitError "Product ID and receiver ID are required" None ;; finish) ;;
     let productId := text (productId d) in
     let receiverId := text (receiverId d) in
     product <- awaitRace (productQuery w productId)
                          "Product query timeout after 5 seconds" ;;
     match product with
     | None => emitError ("Product not found: " ++ productId) None ;; finish
     | Some product =>
         let shopOwnerId := shopOwnerIdJoin product in
         when (negb (truthy shopOwnerId))
              (emitError "Product shop information not available" None ;; finish) ;;
         let hasAccess :=
           (userId =? receiverId) || same shopOwnerId userId
           || same shopOwnerId receiverId in
         when (negb hasAccess)
              (emitError "Access denied. You do not have permission to join this room."
                         None ;; finish) ;;
         let room := joinProductRoomName productId userId receiverId in
         join room ;;
         emit Socket "joined-room" (PJoined room KProduct (Some productId))
     end)
    (fun x => emitError (joinProductErrorMessage x) (Some x)).

(** *** send-message *)

(** [messageDoc.sender ? { _id: messageDoc.sender._id.toString(), ... } : null].
    When the lookup left the ObjectId in place, [_id] is the getter
    mongoose defines on ObjectId (it returns the id itself) and the
    other three fields are [undefined]. *)
Definition formatSender (s : option Sender) : option FormattedSender :=
  match s with
  | Some (SenderUser u) =>
      Some {| fs_id := user_id u;
              fs_username := username u;
              fs_email := email u;
              fs_profile := profile u |}
  | Some (SenderRef o) =>
      Some {| fs_id := o;
              fs_username := None;
              fs_email := None;
              fs_profile := None |}
  | None => None
  end.

Definition formatMessage (messageDoc : SavedMessage) : FormattedMessage :=
  let stored := sv_stored messageDoc in
  {| fm_id := st_id stored;
     fm_quotation := st_quotation stored;
     fm_rfq := st_rfq stored;
     fm_product := st_product stored;
     fm_sender := formatSender (sv_sender messageDoc);
     fm_receiver := st_receiver stored;
     fm_message := st_message stored;
     fm_attachments := match st_attachments stored with
                       | Some l => l
                       | None => []
                       end;
     fm_readAt := st_readAt stored;
     fm_createdAt := st_createdAt stored |}.

(** The [if (quotationId) ... else if (rfqId) ... else if (productId) ...]
    chain: it checks access and yields [room], which stays [undefined]
    when no branch is taken. *)
Definition sendAccess (w : World) (userId : string) (d : EventData)
  (receiver : string) : M (option string) :=
  if truthy (quotationId d) then
    let quotationId := text (quotationId d) in
    quotation <- await (findQuotation w quotationId) ;;
    match quotation with
    | None => emitError "Quotation not found" None ;; finish
    | Some quotation =>
        rfq <- await (findRFQ w (q_rfq quotation)) ;;
        denied <- notParty quotation rfq userId ;;
        when denied (emitError "Access denied" None ;; finish) ;;
        invalid <-
          (if negb (receiver =? quotedBy quotation)
           then (r <- requestedByOf rfq ;; pure (negb (receiver =? r)))
           else pure false) ;;
        when invalid (emitError "Invalid receiver" None ;; finish) ;;
        pure (Some (quotationRoom quotationId))
    end
  else if truthy (rfqId d) then
    let rfqId := text (rfqId d) in
    rfq <- await (findRFQ w (Some rfqId)) ;;
    match rfq with
    | None => emitError "RFQ not found" None ;; finish
    | Some rfq =>
        when (negb (requestedBy rfq =? userId))
             (emitError "Access denied" None ;; finish) ;;
        pure (Some (rfqRoom rfqId))
    end
  else if truthy (productId d) then
    let productId := text (productId d) in
    product <- await (getProductWithShop w productId) ;;
    match product with
    | None => emitError "Product not found" None ;; finish
    | Some product =>
        let shopOwnerId := shopOwnerIdSend product in
        when (negb (same shopOwnerId receiver) && negb (userId =? receiver))
             (emitError "Access denied" None ;; finish) ;;
        pure (Some (sendProductRoomName productId userId receiver))
    end
  else pure None.

(** The argument [send-message] builds for [saveMessageNative]. *)
Definition draftOf (userId : string) (d : EventData) : MessageData :=
  {| md_quotation := or_null (quotationId d);
     md_rfq := or_null (rfqId d);
     md_product := or_null (productId d);
     md_sender := userId;
     md_receiver := text (receiver d);
     md_message := text (message d);
     md_attachments := match attachments d with
                       | Some l => l
                       | None => []
                       end |}.

(** The object both emissions of [send-message] carry. *)
Definition broadcastPayload (formattedMessage : FormattedMessage) (d : EventData)
  : Payload :=
  PMessage formattedMessage
           (or_null (quotationId d)) (or_null (rfqId d)) (or_null (productId d)).

Definition sendMessage (w : World) (userId : string)
  (data : option EventData) : M unit :=
  try_catch
    (when (negb (dbReady w defaultRetries defaultDelay)) notConnected ;;
     d <- destructure data "quotationId" ;;
     when (negb (truthy (message d)) || negb (truthy (receiver d)))
          (emitError "Message and receiver are required" None ;; finish) ;;
     when (negb (truthy (quotationId d)) && negb (truthy (rfqId d))
           && negb (truthy (productId d)))
          (emitError "Either quotationId, rfqId, or productId is required" None ;;
           finish) ;;
     let receiver := text (receiver d) in
     room <- sendAccess w userId d receiver ;;
     messageDoc <- saveMessageNative w (draftOf userId d) ;;
     let formattedMessage := formatMessage messageDoc in
     await (fetchSockets w room) ;;
     await (fetchSockets w (Some (userRoom receiver))) ;;
     emit (IoTo room) "message-received" (broadcastPayload formattedMessage d) ;;
     emit (IoTo (Some (userRoom receiver))) "new-message"
          (broadcastPayload formattedMessage d))
    (fun x =>
       emitError ("Failed to send message: " ++ orUnknown x) (Some x)).

(** *** leave-room, typing and stop-typing: synchronous listeners
    without a [try] *)

Definition leaveRoom (data : option EventData) : M unit :=
  d <- destructure data "room" ;;
  when (truthy (room d)) (leave (text (room d))).

Definition typing (userId : string) (data : option EventData) : M unit :=
  d <- destructure data "quotationId" ;;
  room <-
    (if truthy (productId d) && truthy (receiverId d)
     then pure (typingProductRoom (text (productId d)) (text (receiverId d)))
     else if truthy (quotationId d)
          then pure (quotationRoom (text (quotationId d)))
          else if truthy (rfqId d)
               then pure (rfqRoom (text (rfqId d)))
               else finish) ;;
  emit (SocketTo room) "user-typing" (PTyping userId true).

Definition stopTyping (userId : string) (data : option EventData) : M unit :=
  d <- destructure data "quotationId" ;;
  room <-
    (if truthy (productId d) && truthy (receiverId d)
     then pure (typingProductRoom (text (productId d)) (text (receiverId d)))
     else if truthy (quotationId d)
          then pure (quotationRoom (text (quotationId d)))
          else if truthy (rfqId d)
               then pure (rfqRoom (text (rfqId d)))
               else finish) ;;
  emit (SocketTo room) "user-typing" (PTyping userId false).

(** *** server.js, [io.on('connection')]: the session joins its own room *)

Definition serverNotReady : M unit :=
  emitError "Server not ready. Please try again." None.

(** [dbConnected] is the flag of server.js and [handlersLoaded] tells
    whether [socketHandlers] is set once [setupSocketHandlers] has run;
    the result tells whether the listeners above were attached. *)
Definition onConnection (dbConnected : bool) (readyState : Z)
  (handlersLoaded : bool) (userId : string) : M bool :=
  join (userRoom userId) ;;
  if dbConnected && (readyState =? 1)%Z
  then if handlersLoaded then pure true
       else (serverNotReady ;; pure false)
  else (serverNotReady ;; pure false).

(** *** [module.exports = (io, socket) => { socket.on(...) ... }] *)

Inductive EventName : Type :=
| JoinQuotationRoom
| JoinRfqRoom
| LeaveRoom
| JoinProductRoom
| SendMessage
| Typing
| StopTyping.

Definition listener (w : World) (userId : string) (name : EventName)
  (data : option EventData) : M unit :=
  match name with
  | JoinQuotationRoom => joinQuotationRoom w userId data
  | JoinRfqRoom => joinRfqRoom w userId data
  | LeaveRoom => leaveRoom data
  | JoinProductRoom => joinProductRoom w userId data
  | SendMessage => sendMessage w userId data
  | Typing => typing userId data
  | StopTyping => stopTyping userId data
  end.

(** One inbound event, with the world as it is when the event arrives. *)
Record Inbound : Type := {
  ev_world : World;
  ev_name : EventName;
  ev_data : option EventData
}.

(** The effects of a session after a sequence of inbound events. *)
Definition sessionAfter (userId : string) (events : list Inbound) (e : Effects)
  : Effects :=
  fold_left
    (fun acc ev =>
       snd (run (listener (ev_world ev) userId (ev_name ev) (ev_data ev)) acc))
    events e.

End Handlers.
Import Handlers.

(** ** server.js: configuration, CORS and the connection listener *)

Module Server.

(** [process.env], as far as server.js reads it. *)
Record Env : Type := {
  env_MONGODB_URI : option string;
  env_JWT_SECRET : option string;
  env_CORS_ORIGIN : option string
}.

(** [require('../Backend/config')]. *)
Record BackendConfig : Type := {
  cfg_MONGODB_URI : option string;
  cfg_JWT_SECRET : option string
}.

(** The module-level [MONGODB_URI] and [JWT_SECRET]. *)
Record Loaded : Type := {
  loadedUri : option string;
  loadedSecret : option string
}.

(** Lines 11-24.  [backendConfig] is [None] when the [require] throws. *)
Definition loadConfig (env : Env) (backendConfig : option BackendConfig)
  : Loaded :=
  if negb (truthy (env_MONGODB_URI env)) || negb (truthy (env_JWT_SECRET env))
  then
    match backendConfig with
    | Some b =>
        {| loadedUri := or_else (env_MONGODB_URI env) (cfg_MONGODB_URI b);
           loadedSecret := or_else (env_JWT_SECRET env) (cfg_JWT_SECRET b) |}
    | None =>
        {| loadedUri := env_MONGODB_URI env;
           loadedSecret := env_JWT_SECRET env |}
    end
  else {| loadedUri := env_MONGODB_URI env;
          loadedSecret := env_JWT_SECRET env |}.

(** What the middleware reads: [JWT_SECRET || process.env.JWT_SECRET]. *)
Definition authConfig (env : Env) (backendConfig : option BackendConfig)
  : Auth.Config :=
  {| Auth.JWT_SECRET := loadedSecret (loadConfig env backendConfig);
     Auth.envJWT_SECRET := env_JWT_SECRET env |}.

(** [s.split(',')]: the pieces between the separators, at least one. *)
Fixpoint split (sep : ascii) (s : string) : list string :=
  match s with
  | EmptyString => [EmptyString]
  | String c rest =>
      if Ascii.eqb c sep then EmptyString :: split sep rest
      else match split sep rest with
           | piece :: pieces => String c piece :: pieces
           | [] => [String c EmptyString]
           end
  end.

(** The white space and line terminators of [String.prototype.trim] among
    the code units below 256: TAB, LF, VT, FF, CR, SP and NBSP. *)
Definition isSpace (c : ascii) : bool :=
  let n := nat_of_ascii c in
  ((9 <=? n)%nat && (n <=? 13)%nat) || (n =? 32)%nat || (n =? 160)%nat.

Fixpoint trimStart (s : string) : string :=
  match s with
  | EmptyString => EmptyString
  | String c rest => if isSpace c then trimStart rest else s
  end.

Fixpoint trimEnd (s : string) : string :=
  match s with
  | EmptyString => EmptyString
  | String c rest =>
      let kept := trimEnd rest in
      if isSpace c && (kept =? "") then EmptyString else String c kept
  end.

(** [o.trim()] *)
Definition trim (s : string) : string := trimEnd (trimStart s).

(** The [origin] option of a CORS configuration: the string ['*'] or an
    array of origins. *)
Inductive CorsSetting : Type :=
| AnyOrigin
| Origins (allowed : list string).

(** Lines 33-37: the setting handed to socket.io. *)
Definition corsOrigins (env : Env) : CorsSetting :=
  if truthy (env_CORS_ORIGIN env)
  then if same (env_CORS_ORIGIN env) "*"
       then AnyOrigin
       else Origins (map trim (split ","%char (text (env_CORS_ORIGIN env))))
  else AnyOrigin.

(** Lines 54-56: the list the HTTP middleware checks. *)
Definition allowedOrigins (env : Env) : list string :=
  if same (env_CORS_ORIGIN env) "*"
  then ["*"]
  else map trim (split ","%char
                   (text (or_else (env_CORS_ORIGIN env) (Some "*")))).

(** [allowedOrigins.includes(x)] *)
Definition listed (x : string) (l : list string) : bool :=
  existsb (String.eqb x) l.

(** Lines 49-69, [corsOptions.origin]: [Ok true] is [callback(null, true)]
    and [Err m] is [callback(new Error(m))]. *)
Definition originCallback (env : Env) (origin : option string) : result bool :=
  if negb (truthy origin) then Ok true
  else
    let allowed := allowedOrigins env in
    if listed "*" allowed then Ok true
    else if listed (text origin) allowed then Ok true
         else Err "Not allowed by CORS".

(** The two module-level variables the connection listener reads and
    writes: the flag [dbConnected] and whether [socketHandlers] is set. *)
Record ServerState : Type := {
  dbConnected : bool;
  socketHandlers : bool
}.

(** Lines 238-243.  The [require] of the handlers is taken to succeed. *)
Definition setupSocketHandlers (readyState : Z) (st : ServerState)
  : ServerState :=
  if negb (socketHandlers st) && (readyState =? 1)%Z
  then {| dbConnected := dbConnected st; socketHandlers := true |}
  else st.

(** The listeners of the mongoose connection (lines 101-119) and the
    health check of lines 192-200. *)
Inductive DbEvent : Type :=
| DbConnectedEvent
| DbErrorEvent
| DbDisconnectedEvent
| DbReconnectedEvent
| HealthCheck (readyState : Z).

Definition onDbEvent (ev : DbEvent) (st : ServerState) : ServerState :=
  {| dbConnected :=
       match ev with
       | DbConnectedEvent => true
       | DbErrorEvent => false
       | DbDisconnectedEvent => false
       | DbReconnectedEvent => true
       | HealthCheck readyState => (readyState =? 1)%Z
       end;
     socketHandlers := socketHandlers st |}.

(** Lines 245-275, [io.on('connection')]: the new state, and whether the
    listeners of socketHandlers.js were attached to the socket. *)
Definition connection (st : ServerState) (readyState : Z) (userId : string)
  : M (ServerState * bool) :=
  join (userRoom userId) ;;
  if dbConnected st && (readyState =? 1)%Z
  then
    let st' := if negb (socketHandlers st)
               then setupSocketHandlers readyState st else st in
    if socketHandlers st'
    then pure (st', true)
    else (serverNotReady ;; pure (st', false))
  else (serverNotReady ;; pure (st, false)).

(** A socket from its connection on: inbound events reach a listener
    only when the listeners were attached. *)
Definition socketLife (st : ServerState) (readyState : Z) (userId : string)
  (events : list Inbound) : Effects :=
  match connection st readyState userId
          {| emitted := []; rooms := []; inserts := [] |} with
  | (Normal (_, true), e) => sessionAfter userId events e
  | (_, e) => e
  end.

End Server.

(** ** Vocabulary of the statements *)

Module Obs.

(** An id without a hyphen, as the 24 hexadecimal digits of an ObjectId. *)
Definition hyphenFree (s : string) : bool :=
  forallb (fun c => negb (Ascii.eqb c "-"%char)) (list_ascii_of_string s).

Fixpoint hyphens (s : string) : nat :=
  match s with
  | EmptyString => 0
  | String c rest => (if Ascii.eqb c "-"%char then 1 else 0) + hyphens rest
  end.

(** The names of the rooms the server ever puts a session in. *)
Definition joinable (room : string) : Prop :=
  (exists id, room = userRoom id)
  \/ (exists id, room = quotationRoom id)
  \/ (exists id, room = rfqRoom id)
  \/ (exists p a b, room = joinProductRoomName p a b).

(** A socket that has just connected: nothing emitted, no room joined
    by the server yet. *)
Definition newSocket : Effects :=
  {| emitted := []; rooms := []; inserts := [] |}.

(** [socket.emit('error', { message, details })] and nothing else. *)
Definition afterError (e : Effects) (message : string) (details : option string)
  : Effects :=
  {| emitted := emitted e ++ [{| target := Socket; event := "error";
                                 payload := PError message details |}];
     rooms := rooms e;
     inserts := inserts e |}.

(** [socket.join(room)] then [socket.emit('joined-room', { room, id })]. *)
Definition afterJoin (e : Effects) (room : string) (key : ThreadKey) (id : string)
  : Effects :=
  {| emitted := emitted e ++ [{| target := Socket; event := "joined-room";
                                 payload := PJoined room key (Some id) |}];
     rooms := if existsb (String.eqb room) (rooms e)
              then rooms e else rooms e ++ [room];
     inserts := inserts e |}.

(** One document handed to [insertOne], then the two broadcasts. *)
Definition afterSend (e : Effects) (doc : MessageDoc) (room : option string)
  (receiver : string) (p : Payload) : Effects :=
  {| emitted := emitted e
                ++ [{| target := IoTo room; event := "message-received";
                       payload := p |};
                    {| target := IoTo (Some (userRoom receiver));
                       event := "new-message"; payload := p |}];
     rooms := rooms e;
     inserts := inserts e ++ [doc] |}.

(** The events emitted since [e]. *)
Definition emittedSince (e e' : Effects) (l : list Emission) : Prop :=
  emitted e' = (emitted e ++ l)%list.

(** One more document handed to [insertOne]. *)
Definition withInsert (e : Effects) (doc : MessageDoc) : Effects :=
  {| emitted := emitted e; rooms := rooms e; inserts := inserts e ++ [doc] |}.

(** The document [saveMessageNative] builds from parsed ids. *)
Definition docOf (w : World) (messageData : MessageData)
  (quotation rfq product : option oid) (sender receiver : oid) : MessageDoc :=
  {| doc_quotation := quotation;
     doc_rfq := rfq;
     doc_product := product;
     doc_sender := sender;
     doc_receiver := receiver;
     doc_message := md_message messageData;
     doc_attachments := md_attachments messageData;
     doc_readAt := None;
     doc_createdAt := now w;
     doc_v := 0 |}.

(** A failure surfaced to the session: one [error] event, sent to the
    socket of the session only; its rooms are as they were. *)
Definition surfaced (e e' : Effects) : Prop :=
  exists message details,
    emitted e' = (emitted e ++ [{| target := Socket; event := "error";
                                   payload := PError message details |}])%list
    /\ rooms e' = rooms e.

(** The listener did what it was asked: a room joined and confirmed, or
    a message stored and broadcast. *)
Definition served (e e' : Effects) : Prop :=
  (exists room key id, e' = afterJoin e room key id)
  \/ (exists doc room receiver p, e' = afterSend e doc room receiver p).

(** How a listener may end for the session to go on: it completes, with
    the failure surfaced or the request served, and the session is still
    in every room it was in. *)
Definition contained (e : Effects) (r : completion * Effects) : Prop :=
  fst r = Completed
  /\ (surfaced e (snd r) \/ served e (snd r))
  /\ incl (rooms e) (rooms (snd r)).

End Obs.
Import Obs.

(** ** Vocabulary of the further statements *)

Module Shape.

(** Among the first [n] attempts: those that found the connection up but
    whose ping or count rejected, and those that found it down. *)
Fixpoint probeMisses (backend : nat -> Probe) (n : nat) : nat :=
  match n with
  | 0 => 0
  | S k => probeMisses backend k
           + (if stateReady (backend k) && negb (probeOk (backend k))
              then 1 else 0)
  end.

Fixpoint stateMisses (backend : nat -> Probe) (n : nat) : nat :=
  match n with
  | 0 => 0
  | S k => stateMisses backend k
           + (if stateReady (backend k) then 0 else 1)
  end.

(** The four shapes an emission of the server takes. *)
Definition wellShaped (x : Emission) : Prop :=
  match target x, payload x with
  | Socket, PError _ _ => event x = "error"
  | Socket, PJoined _ _ _ => event x = "joined-room"
  | IoTo _, PMessage _ _ _ _ =>
      event x = "message-received" \/ event x = "new-message"
  | SocketTo _, PTyping _ _ => event x = "user-typing"
  | _, _ => False
  end.

(** The send-message events of a sequence. *)
Definition sendCount (events : list Inbound) : nat :=
  length (filter (fun ev => match ev_name ev with
                            | SendMessage => true
                            | _ => false
                            end) events).

(** The room send-message broadcasts to: the first id present decides. *)
Definition sendRoomOf (userId receiver : string) (d : EventData)
  : option string :=
  if truthy (quotationId d) then Some (quotationRoom (text (quotationId d)))
  else if truthy (rfqId d) then Some (rfqRoom (text (rfqId d)))
  else if truthy (productId d)
       then Some (joinProductRoomName (text (productId d)) userId receiver)
       else None.

(** A payload with the fields of its arguments and nothing else. *)
Definition payloadOf (quotation rfq product receiverTo receiver message room
                      : option string) : EventData :=
  {| quotationId := quotation; rfqId := rfq; productId := product;
     receiverId := receiverTo; receiver := receiver; message := message;
     attachments := None; room := room |}.

End Shape.
Import Shape.

(** ** A small marketplace, for the worked examples *)

Module Demo.

(** [new ObjectId(text)] on a string: 24 hexadecimal digits, kept here in
    lower case, or a BSON error. *)
Definition isHex (c : ascii) : bool :=
  (Ascii.leb "0" c && Ascii.leb c "9") || (Ascii.leb "a" c && Ascii.leb c "f").

Definition objectId (s : string) : result oid :=
  if (String.length s =? 24)%nat && forallb isHex (list_ascii_of_string s)
  then Ok s
  else Err "input must be a 24 character hex string, 12 byte Uint8Array, or an integer".

(** Users, a quotation, two RFQs, two products, two shops, a message. *)
Definition U1 : string := "a00000000000000000000001".
Definition U2 : string := "a00000000000000000000002".
Definition U3 : string := "a00000000000000000000003".
Definition U7 : string := "a00000000000000000000007".
Definition U9 : string := "a00000000000000000000009".
Definition Q1 : string := "c00000000000000000000001".
Definition R1 : string := "d00000000000000000000001".
Definition R2 : string := "d00000000000000000000002".
Definition P1 : string := "e00000000000000000000001".
Definition P2 : string := "e00000000000000000000002".
Definition S1 : string := "f00000000000000000000001".
Definition S9 : string := "f00000000000000000000009".
Definition M1 : string := "b00000000000000000000001".

Definition readyProbe : Probe :=
  {| readyState := 1; hasDb := true; pingOk := true; countOk := true |}.

(** Connected, but the ping rejects. *)
Definition stalledProbe : Probe :=
  {| readyState := 1; hasDb := true; pingOk := false; countOk := true |}.

(** Still connecting. *)
Definition connectingProbe : Probe :=
  {| readyState := 2; hasDb := false; pingOk := false; countOk := false |}.

(** The collection stores what it is given. *)
Definition storedOf (id : oid) (doc : MessageDoc) : StoredMessage :=
  {| st_id := id;
     st_quotation := doc_quotation doc;
     st_rfq := doc_rfq doc;
     st_product := doc_product doc;
     st_sender := Some (doc_sender doc);
     st_receiver := doc_receiver doc;
     st_message := Some (doc_message doc);
     st_attachments := Some (doc_attachments doc);
     st_readAt := doc_readAt doc;
     st_createdAt := doc_createdAt doc |}.

(** Quotation Q1 is quoted by U1 on RFQ R2, which U2 requested; RFQ R1
    was requested by U1; product P1 belongs to shop S1, owned by U2;
    product P2 names a shop S9 that does not exist. *)
Definition world : World :=
  {| backend := fun _ => readyProbe;
     connState := 1;
     dbHandle := true;
     ping := Ok tt;
     newObjectId := objectId;
     now := 7;
     findQuotation := fun id =>
       if id =? Q1
       then Ok (Some {| quotedBy := U1; q_rfq := Some R2 |})
       else Ok None;
     findRFQ := fun ref =>
       match ref with
       | Some id =>
           if id =? R1 then Ok (Some {| requestedBy := U1 |})
           else if id =? R2 then Ok (Some {| requestedBy := U2 |})
                else Ok None
       | None => Ok None
       end;
     findProduct := fun id =>
       if id =? P1
       then Ok (Some {| raw_name := Some "lamp"; raw_shop := Some (RefOid S1) |})
       else if id =? P2
            then Ok (Some {| raw_name := Some "desk";
                             raw_shop := Some (RefOid S9) |})
            else Ok None;
     findShop := fun id =>
       if id =? S1 then Ok (Some {| shop_id := S1; owner := Some U2 |})
       else Ok None;
     productTimerFirst := false;
     insertOne := fun _ => Settled (Ok (Some M1));
     findMessage := fun written id =>
       match rev written with
       | doc :: _ => Settled (Ok (Some (storedOf id doc)))
       | [] => Settled (Ok None)
       end;
     findUser := fun id =>
       if id =? U1
       then Settled (Ok (Some {| user_id := U1; username := Some "una";
                                 email := None; profile := None |}))
       else Settled (Ok None);
     fetchSockets := fun _ => Ok 1 |}.

(** The same marketplace while the database never becomes ready. *)
Definition stalledWorld : World :=
  {| backend := fun i => if (i =? 0)%nat then stalledProbe else connectingProbe;
     connState := 2;
     dbHandle := false;
     ping := Err "connection closed";
     newObjectId := newObjectId world;
     now := now world;
     findQuotation := findQuotation world;
     findRFQ := findRFQ world;
     findProduct := findProduct world;
     findShop := findShop world;
     productTimerFirst := false;
     insertOne := insertOne world;
     findMessage := findMessage world;
     findUser := findUser world;
     fetchSockets := fetchSockets world |}.

(** The same marketplace with a storage too slow for the timers. *)
Definition slowWorld : World :=
  {| backend := backend world;
     connState := 1;
     dbHandle := true;
     ping := Ok tt;
     newObjectId := newObjectId world;
     now := now world;
     findQuotation := findQuotation world;
     findRFQ := findRFQ world;
     findProduct := findProduct world;
     findShop := findShop world;
     productTimerFirst := true;
     insertOne := fun _ => TimerFirst;
     findMessage := findMessage world;
     findUser := findUser world;
     fetchSockets := fetchSockets world |}.

Definition noData : EventData :=
  {| quotationId := None; rfqId := None; productId := None;
     receiverId := None; receiver := None; message := None;
     attachments := None; room := None |}.

Definition fresh : Effects :=
  {| emitted := []; rooms := []; inserts := [] |}.

(** A session that has only joined its own room. *)
Definition connected (userId : string) : Effects :=
  {| emitted := []; rooms := [userRoom userId]; inserts := [] |}.

(** A toy [jwt.verify]: tokens are [ok:<user>]; the others fail in the
    three ways the library tells apart. *)
Definition verify (token secret : string) : Auth.Decoded + Auth.VerifyError :=
  if String.prefix "ok:" token
  then inl {| Auth.userId := Some (drop 3 token); Auth.role := Some "buyer" |}
  else if String.prefix "old:" token then inr Auth.Expired
       else if String.prefix "forged:" token then inr Auth.BadSignature
            else inr Auth.Malformed.

End Demo.

(** ** Further worlds for the worked examples *)

Module Trial.

(** The marketplace of [Demo] behind an adapter that cannot count. *)
Definition uncounted : World :=
  {| backend := backend Demo.world;
     connState := connState Demo.world;
     dbHandle := dbHandle Demo.world;
     ping := ping Demo.world;
     newObjectId := newObjectId Demo.world;
     now := now Demo.world;
     findQuotation := findQuotation Demo.world;
     findRFQ := findRFQ Demo.world;
     findProduct := findProduct Demo.world;
     findShop := findShop Demo.world;
     productTimerFirst := productTimerFirst Demo.world;
     insertOne := insertOne Demo.world;
     findMessage := findMessage Demo.world;
     findUser := findUser Demo.world;
     fetchSockets := fun _ => Err "adapter closed" |}.

(** Quotation Q1 after its parent RFQ was deleted. *)
Definition orphaned : World :=
  {| backend := backend Demo.world;
     connState := connState Demo.world;
     dbHandle := dbHandle Demo.world;
     ping := ping Demo.world;
     newObjectId := newObjectId Demo.world;
     now := now Demo.world;
     findQuotation := fun id =>
       if id =? Demo.Q1
       then Ok (Some {| quotedBy := Demo.U1; q_rfq := None |})
       else Ok None;
     findRFQ := fun _ => Ok None;
     findProduct := findProduct Demo.world;
     findShop := findShop Demo.world;
     productTimerFirst := productTimerFirst Demo.world;
     insertOne := insertOne Demo.world;
     findMessage := findMessage Demo.world;
     findUser := findUser Demo.world;
     fetchSockets := fetchSockets Demo.world |}.

End Trial.

(** ** Strings: order, prefixes and hyphens *)

Lemma sort2_comm (a b : string) : sort2 a b = sort2 b a.
Proof.
  unfold sort2, String.ltb.
  rewrite (String.compare_antisym a b).
  destruct (String.compare b a) eqn:Hba; simpl; try reflexivity.
  apply String.compare_eq_iff in Hba. now subst.
Qed.

Lemma sort2_sorted (a b : string) :
  String.leb (fst (sort2 a b)) (snd (sort2 a b)) = true.
Proof.
  unfold sort2, String.ltb, String.leb.
  destruct (String.compare b a) eqn:Hba; simpl.
  - rewrite String.compare_antisym, Hba. reflexivity.
  - rewrite Hba. reflexivity.
  - rewrite String.compare_antisym, Hba. reflexivity.
Qed.

Lemma sort2_members (a b : string) :
  sort2 a b = (a, b) \/ sort2 a b = (b, a).
Proof. unfold sort2. destruct (String.ltb b a); auto. Qed.

Lemma append_inv_head (p x y : string) : p ++ x = p ++ y -> x = y.
Proof.
  induction p as [|c p IH]; simpl; intros H.
  - exact H.
  - injection H as H. auto.
Qed.

Lemma hyphenFree_append (x y : string) :
  hyphenFree (x ++ y) = hyphenFree x && hyphenFree y.
Proof.
  unfold hyphenFree.
  induction x as [|c x IH]; simpl.
  - reflexivity.
  - rewrite IH. now rewrite andb_assoc.
Qed.

Lemma hyphen_inside (x y : string) : hyphenFree (x ++ "-" ++ y) = false.
Proof.
  rewrite hyphenFree_append. simpl.
  unfold hyphenFree at 2. simpl. now rewrite andb_false_r.
Qed.

(** ** Readiness gate *)

(** [j] leading misses cost [j] iterations and at most
    [j * max delay 500] ms of sleep. *)
Lemma waitLoop_misses (backend : nat -> Probe) (delay j : nat) :
  forall k i s,
    (forall n, i <= n < i + j -> attemptSucceeds (backend n) = false) ->
    exists s',
      waitLoop backend delay (j + k) i s = waitLoop backend delay k (i + j) s'
      /\ s' <= s + j * Nat.max delay 500.
Proof.
  induction j as [|j IH]; intros k i s Hmiss.
  - exists s. rewrite Nat.add_0_r. simpl. split; [reflexivity | lia].
  - assert (H0 : attemptSucceeds (backend i) = false) by (apply Hmiss; lia).
    unfold attemptSucceeds in H0.
    destruct (IH k (S i) (s + 500)) as [s1 [E1 B1]];
      [intros n Hn; apply Hmiss; lia |].
    destruct (IH k (S i) (s + delay)) as [s2 [E2 B2]];
      [intros n Hn; apply Hmiss; lia |].
    replace (i + S j) with (S i + j) by lia.
    simpl waitLoop.
    destruct (stateReady (backend i)); simpl in H0.
    + rewrite H0. exists s1. split; [exact E1 | lia].
    + exists s2. split; [exact E2 | lia].
Qed.

(** C6. [waitForDB] against a backend whose first [j] attempts miss
    (the state is not connected, or it is and the ping or the count
    rejects) and whose next attempt, if one is left, succeeds: a miss
    never ends the loop early, so the call returns [true] at attempt
    [j + 1] when [j < maxRetries]; and when every one of the
    [maxRetries] attempts misses it returns [false] after exactly
    [maxRetries] attempts and a bounded sleep. *)
Theorem waitForDB_bounded
  (backend : nat -> Probe) (maxRetries delay j : nat) :
  j <= maxRetries ->
  (forall i, i < j -> attemptSucceeds (backend i) = false) ->
  (j < maxRetries -> attemptSucceeds (backend j) = true) ->
  let r := waitForDB backend maxRetries delay in
  ready r = (j <? maxRetries)%nat
  /\ attempts r = Nat.min (S j) maxRetries
  /\ attempts r <= maxRetries
  /\ slept r <= j * Nat.max delay 500.
Proof.
  intros Hj Hmiss Hnext r. subst r. unfold waitForDB.
  destruct (waitLoop_misses backend delay j (maxRetries - j) 0 0) as [s [E B]].
  { intros n Hn. apply Hmiss. lia. }
  replace (j + (maxRetries - j)) with maxRetries in E by lia.
  rewrite E. simpl (0 + j).
  destruct (maxRetries - j) as [|k] eqn:Hk.
  - assert (j = maxRetries) by lia. subst j.
    cbn [waitLoop ready attempts slept].
    rewrite Nat.ltb_irrefl. simpl in B.
    repeat split; [lia | lia | exact B].
  - assert (Hlt : j < maxRetries) by lia.
    specialize (Hnext Hlt). unfold attemptSucceeds in Hnext.
    apply andb_prop in Hnext as [Hs Hp].
    cbn [waitLoop]. rewrite Hs, Hp.
    cbn [ready attempts slept].
    apply Nat.ltb_lt in Hlt as Hb. rewrite Hb. simpl in B.
    repeat split; [lia | lia | exact B].
Qed.

(** ** Identity verifier *)

Section AuthFacts.
Import Auth.
Variable jwtVerify : string -> string -> Decoded + VerifyError.

Lemma authenticate_missing_token (cfg : Config) (h : Handshake) :
  truthy (extractToken h) = false ->
  authenticate jwtVerify cfg h = Refused "Authentication token required".
Proof.
  unfold authenticate, truthy. intros H.
  destruct (extractToken h) as [t|]; [|reflexivity].
  destruct (t =? ""); [reflexivity | discriminate].
Qed.

Lemma authenticate_verified (cfg : Config) (h : Handshake)
  (token secret : string) (d : Decoded) :
  extractToken h = Some token -> token <> "" ->
  or_else (JWT_SECRET cfg) (envJWT_SECRET cfg) = Some secret -> secret <> "" ->
  jwtVerify token secret = inl d ->
  authenticate jwtVerify cfg h = Accepted (userId d) (role d).
Proof.
  intros Ht Hne Hs Hsne Hv. unfold authenticate.
  rewrite Ht, Hs.
  apply String.eqb_neq in Hne, Hsne. now rewrite Hne, Hsne, Hv.
Qed.

(** C7. With a token presented: whatever makes [jwt.verify] throw
    (malformed, expired, bad signature, anything else), two failing
    tokens get the same refusal, [Authentication failed]; and with no
    secret configured the refusal is [JWT_SECRET not configured], a
    different one. *)
Theorem authentication_failure_uniform
  (cfg cfg0 : Config) (h1 h2 : Handshake)
  (t1 t2 secret : string) (e1 e2 : VerifyError) :
  extractToken h1 = Some t1 -> t1 <> "" ->
  extractToken h2 = Some t2 -> t2 <> "" ->
  or_else (JWT_SECRET cfg) (envJWT_SECRET cfg) = Some secret -> secret <> "" ->
  jwtVerify t1 secret = inr e1 ->
  jwtVerify t2 secret = inr e2 ->
  truthy (or_else (JWT_SECRET cfg0) (envJWT_SECRET cfg0)) = false ->
  authenticate jwtVerify cfg h1 = Refused "Authentication failed"
  /\ authenticate jwtVerify cfg h2 = authenticate jwtVerify cfg h1
  /\ authenticate jwtVerify cfg0 h1 = Refused "JWT_SECRET not configured"
  /\ authenticate jwtVerify cfg0 h1 <> authenticate jwtVerify cfg h1.
Proof.
  intros Ht1 Hn1 Ht2 Hn2 Hs Hsn Hv1 Hv2 Hno.
  apply String.eqb_neq in Hn1, Hn2, Hsn.
  assert (A1 : authenticate jwtVerify cfg h1 = Refused "Authentication failed").
  { unfold authenticate. now rewrite Ht1, Hn1, Hs, Hsn, Hv1. }
  assert (A2 : authenticate jwtVerify cfg h2 = Refused "Authentication failed").
  { unfold authenticate. now rewrite Ht2, Hn2, Hs, Hsn, Hv2. }
  assert (A0 : authenticate jwtVerify cfg0 h1 = Refused "JWT_SECRET not configured").
  { unfold authenticate. rewrite Ht1, Hn1.
    unfold truthy in Hno.
    destruct (or_else (JWT_SECRET cfg0) (envJWT_SECRET cfg0)) as [s|];
      [|reflexivity].
    destruct (s =? ""); [reflexivity | discriminate]. }
  repeat split; try assumption.
  - now rewrite A1, A2.
  - rewrite A0, A1. discriminate.
Qed.

End AuthFacts.

(** ** Room names *)

(** C4. The product room name does not depend on which of the two
    participants computes it, in join-product-room and in send-message
    alike; both put the two ids in lexicographic order into
    [product-{p}-{lo}-{hi}]. *)
Theorem product_room_symmetric (p a b : string) :
  joinProductRoomName p a b = joinProductRoomName p b a
  /\ sendProductRoomName p a b = sendProductRoomName p b a
  /\ sendProductRoomName p a b = joinProductRoomName p a b
  /\ exists lo hi,
       joinProductRoomName p a b = "product-" ++ p ++ "-" ++ lo ++ "-" ++ hi
       /\ String.leb lo hi = true
       /\ ((lo = a /\ hi = b) \/ (lo = b /\ hi = a)).
Proof.
  unfold joinProductRoomName, sendProductRoomName.
  rewrite (sort2_comm a b).
  repeat split.
  exists (fst (sort2 b a)), (snd (sort2 b a)).
  split; [reflexivity | split; [apply sort2_sorted |]].
  destruct (sort2_members b a) as [E | E]; rewrite E; simpl; auto.
Qed.

Lemma typing_room_differs (p r a b : string) :
  hyphenFree r = true ->
  typingProductRoom p r <> joinProductRoomName p a b.
Proof.
  unfold typingProductRoom, joinProductRoomName. intros Hr E.
  apply (append_inv_head "product-") in E.
  apply append_inv_head in E.
  apply (append_inv_head "-") in E.
  rewrite E in Hr. rewrite hyphen_inside in Hr. discriminate.
Qed.

(** ** Stepping through a handler *)

Ltac handler_unfold :=
  unfold run, try_catch, when, notConnected, emitError, awaitRace,
    destructure, notParty;
  unfold requestedByOf, await;
  unfold bind, emit, join, leave, recordInsert, inserted, finish, throw, pure.

Lemma truthy_some (s : string) : s <> "" -> truthy (Some s) = true.
Proof. intros H. simpl. apply String.eqb_neq in H. now rewrite H. Qed.

(** ** Joining a quotation or an RFQ room *)

Lemma joinQuotationRoom_resolved
  (w : World) (userId q : string) (d : EventData) (e : Effects)
  (quotation : Quotation) (rfq : RFQ) :
  dbReady w defaultRetries defaultDelay = true ->
  quotationId d = Some q -> q <> "" ->
  findQuotation w q = Ok (Some quotation) ->
  findRFQ w (q_rfq quotation) = Ok (Some rfq) ->
  run (joinQuotationRoom w userId (Some d)) e =
    (Completed,
     if (quotedBy quotation =? userId) || (requestedBy rfq =? userId)
     then afterJoin e (quotationRoom q) KQuotation q
     else afterError e "Access denied" None).
Proof.
  intros Hready Hq Hne Hfq Hfr.
  unfold joinQuotationRoom. handler_unfold.
  rewrite Hready. cbn -[String.eqb append].
  rewrite Hq. cbn -[String.eqb append].
  apply String.eqb_neq in Hne. rewrite Hne. cbn -[String.eqb append].
  rewrite Hfq. cbn -[String.eqb append]. rewrite Hfr.
  destruct (quotedBy quotation =? userId); simpl; [reflexivity |].
  destruct (requestedBy rfq =? userId); reflexivity.
Qed.

Lemma joinRfqRoom_resolved
  (w : World) (userId r : string) (d : EventData) (e : Effects) (rfq : RFQ) :
  dbReady w defaultRetries defaultDelay = true ->
  rfqId d = Some r -> r <> "" ->
  findRFQ w (Some r) = Ok (Some rfq) ->
  run (joinRfqRoom w userId (Some d)) e =
    (Completed,
     if requestedBy rfq =? userId
     then afterJoin e (rfqRoom r) KRfq r
     else afterError e "Access denied" None).
Proof.
  intros Hready Hr Hne Hfr.
  unfold joinRfqRoom. handler_unfold.
  rewrite Hready. cbn -[String.eqb append].
  rewrite Hr. cbn -[String.eqb append].
  apply String.eqb_neq in Hne. rewrite Hne. cbn -[String.eqb append].
  rewrite Hfr. cbn -[String.eqb append].
  destruct (requestedBy rfq =? userId); reflexivity.
Qed.

(** C5. With the quotation and its parent RFQ resolved, the join of a
    quotation room is granted exactly to [quotedBy] and to the RFQ's
    [requestedBy]; with the RFQ resolved, the join of an RFQ room is
    granted exactly to [requestedBy]; every other identity gets the
    [Access denied] error and joins nothing. *)
Theorem join_authorization_matrix
  (w : World) (userId q r : string) (dq dr : EventData) (e : Effects)
  (quotation : Quotation) (parent rfq : RFQ) :
  dbReady w defaultRetries defaultDelay = true ->
  quotationId dq = Some q -> q <> "" ->
  findQuotation w q = Ok (Some quotation) ->
  findRFQ w (q_rfq quotation) = Ok (Some parent) ->
  rfqId dr = Some r -> r <> "" ->
  findRFQ w (Some r) = Ok (Some rfq) ->
  (quotedBy quotation = userId \/ requestedBy parent = userId ->
   run (joinQuotationRoom w userId (Some dq)) e =
     (Completed, afterJoin e (quotationRoom q) KQuotation q))
  /\ (quotedBy quotation <> userId /\ requestedBy parent <> userId ->
      run (joinQuotationRoom w userId (Some dq)) e =
        (Completed, afterError e "Access denied" None))
  /\ (requestedBy rfq = userId ->
      run (joinRfqRoom w userId (Some dr)) e =
        (Completed, afterJoin e (rfqRoom r) KRfq r))
  /\ (requestedBy rfq <> userId ->
      run (joinRfqRoom w userId (Some dr)) e =
        (Completed, afterError e "Access denied" None)).
Proof.
  intros Hready Hq Hqne Hfq Hfp Hr Hrne Hfr.
  rewrite (joinQuotationRoom_resolved w userId q dq e quotation parent)
    by assumption.
  rewrite (joinRfqRoom_resolved w userId r dr e rfq) by assumption.
  repeat split.
  - intros [H | H]; apply String.eqb_eq in H; rewrite H;
      [reflexivity | now rewrite orb_true_r].
  - intros [H1 H2]. apply String.eqb_neq in H1, H2. now rewrite H1, H2.
  - intros H. apply String.eqb_eq in H. now rewrite H.
  - intros H. apply String.eqb_neq in H. now rewrite H.
Qed.

Lemma join_authorization_matrix_witness :
  run (joinQuotationRoom Demo.world Demo.U3
         (Some {| quotationId := Some Demo.Q1; rfqId := None; productId := None;
                  receiverId := None; receiver := None; message := None;
                  attachments := None; room := None |}))
      (Demo.connected Demo.U3)
  = (Completed, afterError (Demo.connected Demo.U3) "Access denied" None).
Proof.
  refine (proj1 (proj2
    (join_authorization_matrix Demo.world Demo.U3 Demo.Q1 Demo.R1
       {| quotationId := Some Demo.Q1; rfqId := None; productId := None;
          receiverId := None; receiver := None; message := None;
          attachments := None; room := None |}
       {| quotationId := None; rfqId := Some Demo.R1; productId := None;
          receiverId := None; receiver := None; message := None;
          attachments := None; room := None |}
       (Demo.connected Demo.U3)
       {| quotedBy := Demo.U1; q_rfq := Some Demo.R2 |}
       {| requestedBy := Demo.U2 |} {| requestedBy := Demo.U1 |}
       _ _ _ _ _ _ _ _)) _);
    try reflexivity; try discriminate.
  split; discriminate.
Defined.

(** ** Joining a product room *)

Lemma joinProductRoom_resolved
  (w : World) (userId p r : string) (d : EventData) (e : Effects)
  (product : Product) :
  dbReady w 15 1000 = true ->
  connState w = 1%Z ->
  productId d = Some p -> p <> "" ->
  receiverId d = Some r -> r <> "" ->
  productQuery w p = Settled (Ok (Some product)) ->
  run (joinProductRoom w userId (Some d)) e =
    (Completed,
     match shopOwnerIdJoin product with
     | Some o =>
         if (userId =? r) || (o =? userId) || (o =? r)
         then afterJoin e (joinProductRoomName p userId r) KProduct p
         else afterError e
                "Access denied. You do not have permission to join this room."
                None
     | None => afterError e "Product shop information not available" None
     end).
Proof.
  intros Hready Hconn Hp Hpne Hr Hrne Hquery.
  apply String.eqb_neq in Hpne, Hrne.
  unfold joinProductRoom. handler_unfold.
  rewrite Hready, Hconn. cbn -[String.eqb append].
  rewrite Hp, Hr. cbn -[String.eqb append].
  rewrite Hpne, Hrne. cbn -[String.eqb append].
  rewrite Hquery. cbn -[String.eqb append].
  unfold shopOwnerIdJoin, or_else, truthy.
  destruct (shopOwner product) as [o|]; [|reflexivity].
  destruct (o =? "") eqn:Ho; cbn -[String.eqb append]; [reflexivity |].
  rewrite Ho. cbn -[String.eqb append].
  destruct ((userId =? r) || (o =? userId) || (o =? r)); reflexivity.
Qed.

(** C1, as the handler has it.  When the owner of the product's shop
    cannot be resolved, join-product-room refuses every identity, the
    declared counterpart included, with the error [Product shop
    information not available]; no room is joined. *)
Theorem joinProductRoom_owner_unresolved
  (w : World) (userId p r : string) (d : EventData) (e : Effects)
  (product : Product) :
  dbReady w 15 1000 = true ->
  connState w = 1%Z ->
  productId d = Some p -> p <> "" ->
  receiverId d = Some r -> r <> "" ->
  productQuery w p = Settled (Ok (Some product)) ->
  truthy (shopOwner product) = false ->
  run (joinProductRoom w userId (Some d)) e =
    (Completed, afterError e "Product shop information not available" None).
Proof.
  intros Hready Hconn Hp Hpne Hr Hrne Hquery Hnone.
  rewrite (joinProductRoom_resolved w userId p r d e product) by assumption.
  unfold shopOwnerIdJoin, or_else. now rewrite Hnone.
Qed.

Lemma joinProductRoom_owner_unresolved_witness :
  run (joinProductRoom Demo.world Demo.U1
         (Some {| quotationId := None; rfqId := None; productId := Some Demo.P2;
                  receiverId := Some Demo.U2; receiver := None; message := None;
                  attachments := None; room := None |}))
      (Demo.connected Demo.U1)
  = (Completed,
     afterError (Demo.connected Demo.U1)
       "Product shop information not available" None).
Proof.
  apply (joinProductRoom_owner_unresolved Demo.world Demo.U1 Demo.P2 Demo.U2 _ _
           {| name := Some "desk"; shop := None |});
    try reflexivity; discriminate.
Defined.

(** C1, as the specification words it, fails: U1 asks to join the room of
    product P2 and names itself as the counterpart; the shop of P2 does
    not resolve, and the request is refused although the identity equals
    the counterpart. *)
Lemma joinProductRoom_counterpart_refused :
  let d := {| quotationId := None; rfqId := None; productId := Some Demo.P2;
              receiverId := Some Demo.U1; receiver := None; message := None;
              attachments := None; room := None |} in
  getProductWithShop Demo.world Demo.P2
    = Ok (Some {| name := Some "desk"; shop := None |})
  /\ receiverId d = Some Demo.U1
  /\ run (joinProductRoom Demo.world Demo.U1 (Some d)) (Demo.connected Demo.U1)
     = (Completed,
        afterError (Demo.connected Demo.U1)
          "Product shop information not available" None)
  /\ rooms (snd (run (joinProductRoom Demo.world Demo.U1 (Some d))
                     (Demo.connected Demo.U1)))
     = [userRoom Demo.U1].
Proof. repeat split. Qed.

(** ** Storing a message *)

(** Case analysis on the innermost undecided test or oracle answer. *)
Ltac crunch :=
  repeat (cbn -[String.eqb Z.eqb append includes];
          match goal with
          | |- context [match ?x with _ => _ end] =>
              lazymatch x with
              | context [match _ with _ => _ end] => fail
              | context [sendAccess] => fail
              | context [saveMessageNative] => fail
              | _ => destruct x eqn:?
              end
          end);
  cbn -[String.eqb Z.eqb append includes].

(** [saveMessageNative] never ends by [return]; it throws with the
    effects untouched, or hands one document to [insertOne] and then
    throws or returns the saved message. *)
Lemma saveMessageNative_cases (w : World) (md : MessageData) (e : Effects) :
  (exists x, saveMessageNative w md e = (Thrown x, e))
  \/ (exists doc x, saveMessageNative w md e = (Thrown x, withInsert e doc))
  \/ (exists doc saved,
        saveMessageNative w md e = (Normal saved, withInsert e doc)).
Proof.
  unfold saveMessageNative, populateSender. handler_unfold.
  crunch; unfold withInsert; eauto 6.
Qed.

Lemma parseRef_falsy (w : World) (v : option string) :
  truthy v = false -> parseRef w v = Ok None.
Proof.
  destruct v as [s|]; simpl; [|reflexivity].
  destruct (s =? ""); [reflexivity | discriminate].
Qed.

Lemma saveMessageNative_no_reference (w : World) (md : MessageData) (e : Effects) :
  truthy (md_quotation md) = false ->
  truthy (md_rfq md) = false ->
  truthy (md_product md) = false ->
  (exists x, saveMessageNative w md e = (Thrown x, e))
  /\ (forall s r,
        connState w = 1%Z -> dbHandle w = true -> ping w = Ok tt ->
        newObjectId w (md_sender md) = Ok s ->
        newObjectId w (md_receiver md) = Ok r ->
        saveMessageNative w md e
        = (Thrown "Either quotation, rfq, or product must be provided", e)).
Proof.
  intros Hq Hr Hp.
  unfold saveMessageNative. handler_unfold.
  rewrite (parseRef_falsy w _ Hq), (parseRef_falsy w _ Hr),
    (parseRef_falsy w _ Hp).
  split.
  - crunch; eauto.
  - intros s r Hc Hd Hping Hs Hrc. now rewrite Hc, Hd, Hping, Hs, Hrc.
Qed.

Lemma saveMessageNative_written (w : World) (md : MessageData) (e : Effects)
  (q r p : option oid) (s rc : oid) :
  connState w = 1%Z -> dbHandle w = true -> ping w = Ok tt ->
  parseRef w (md_quotation md) = Ok q ->
  parseRef w (md_rfq md) = Ok r ->
  parseRef w (md_product md) = Ok p ->
  newObjectId w (md_sender md) = Ok s ->
  newObjectId w (md_receiver md) = Ok rc ->
  isSome q || isSome r || isSome p = true ->
  exists o, saveMessageNative w md e = (o, withInsert e (docOf w md q r p s rc)).
Proof.
  intros Hc Hd Hping Hq Hr Hp Hs Hrc Hone.
  unfold saveMessageNative, populateSender. handler_unfold.
  rewrite Hc, Z.eqb_refl, Hd, Hping, Hq, Hr, Hp, Hs, Hrc.
  replace (negb (isSome q) && negb (isSome r) && negb (isSome p)) with false
    by (destruct q, r, p; simpl in *; congruence).
  unfold withInsert, docOf.
  crunch; eauto.
Qed.

(** C2, as the code has it.  A draft with none of [quotation], [rfq],
    [product] set is rejected by the check [Either quotation, rfq, or
    product must be provided] when the connection and the ids are fine,
    and in any world it ends in a throw with nothing handed to
    [insertOne]; a draft with at least one of them set, be it one, two
    or all three, passes that check and its document is handed to
    [insertOne] with every reference it carries. *)
Theorem saveMessageNative_requires_a_reference
  (w : World) (md0 md1 : MessageData) (e : Effects)
  (q r p : option oid) (s0 rc0 s rc : oid) :
  connState w = 1%Z -> dbHandle w = true -> ping w = Ok tt ->
  truthy (md_quotation md0) = false ->
  truthy (md_rfq md0) = false ->
  truthy (md_product md0) = false ->
  newObjectId w (md_sender md0) = Ok s0 ->
  newObjectId w (md_receiver md0) = Ok rc0 ->
  parseRef w (md_quotation md1) = Ok q ->
  parseRef w (md_rfq md1) = Ok r ->
  parseRef w (md_product md1) = Ok p ->
  newObjectId w (md_sender md1) = Ok s ->
  newObjectId w (md_receiver md1) = Ok rc ->
  isSome q || isSome r || isSome p = true ->
  saveMessageNative w md0 e
    = (Thrown "Either quotation, rfq, or product must be provided", e)
  /\ (forall w0 e0, exists x, saveMessageNative w0 md0 e0 = (Thrown x, e0))
  /\ exists o,
       saveMessageNative w md1 e = (o, withInsert e (docOf w md1 q r p s rc)).
Proof.
  intros Hc Hd Hping Hq0 Hr0 Hp0 Hs0 Hrc0 Hq Hr Hp Hs Hrc Hone.
  split; [| split].
  - now apply (proj2 (saveMessageNative_no_reference w md0 e Hq0 Hr0 Hp0) s0 rc0).
  - intros w0 e0.
    exact (proj1 (saveMessageNative_no_reference w0 md0 e0 Hq0 Hr0 Hp0)).
  - now apply saveMessageNative_written.
Qed.

Lemma saveMessageNative_requires_a_reference_witness :
  saveMessageNative Demo.world
    {| md_quotation := None; md_rfq := None; md_product := None;
       md_sender := Demo.U1; md_receiver := Demo.U2; md_message := "hi";
       md_attachments := [] |} Demo.fresh
  = (Thrown "Either quotation, rfq, or product must be provided", Demo.fresh)
  /\ (forall w0 e0, exists x,
        saveMessageNative w0
          {| md_quotation := None; md_rfq := None; md_product := None;
             md_sender := Demo.U1; md_receiver := Demo.U2; md_message := "hi";
             md_attachments := [] |} e0
        = (Thrown x, e0))
  /\ exists o,
       saveMessageNative Demo.world
         {| md_quotation := None; md_rfq := Some Demo.R1; md_product := None;
            md_sender := Demo.U1; md_receiver := Demo.U2; md_message := "hi";
            md_attachments := [] |} Demo.fresh
       = (o, withInsert Demo.fresh
               (docOf Demo.world
                  {| md_quotation := None; md_rfq := Some Demo.R1;
                     md_product := None; md_sender := Demo.U1;
                     md_receiver := Demo.U2; md_message := "hi";
                     md_attachments := [] |}
                  None (Some Demo.R1) None Demo.U1 Demo.U2)).
Proof.
  apply (saveMessageNative_requires_a_reference Demo.world _ _ Demo.fresh
           None (Some Demo.R1) None Demo.U1 Demo.U2 Demo.U1 Demo.U2); reflexivity.
Defined.

(** C2, as the specification words it, fails: a draft that names both a
    quotation and an RFQ is not rejected; [saveMessageNative] hands a
    document carrying both references to [insertOne] and returns the
    stored message. *)
Lemma saveMessageNative_two_references_stored :
  let md := {| md_quotation := Some Demo.Q1; md_rfq := Some Demo.R1;
               md_product := None; md_sender := Demo.U1; md_receiver := Demo.U2;
               md_message := "hi"; md_attachments := [] |} in
  exists saved doc,
    saveMessageNative Demo.world md Demo.fresh
      = (Normal saved, withInsert Demo.fresh doc)
    /\ doc_quotation doc = Some Demo.Q1
    /\ doc_rfq doc = Some Demo.R1
    /\ st_quotation (sv_stored saved) = Some Demo.Q1
    /\ st_rfq (sv_stored saved) = Some Demo.R1.
Proof. do 2 eexists. repeat split. Qed.

(** ** Sending a message *)

(** The access chain of send-message yields a room with no effect, or
    refuses with one [error] event and [return]s, or throws. *)
Lemma sendAccess_cases (w : World) (userId : string) (d : EventData)
  (receiver : string) (e : Effects) :
  (exists room, sendAccess w userId d receiver e = (Normal room, e))
  \/ (exists message,
        sendAccess w userId d receiver e
        = (Returned, afterError e message None))
  \/ (exists x, sendAccess w userId d receiver e = (Thrown x, e)).
Proof.
  unfold sendAccess. handler_unfold.
  crunch; unfold afterError; eauto.
Qed.

Lemma afterSend_steps (e : Effects) (doc : MessageDoc) (room : option string)
  (receiver : string) (p : Payload) :
  {| emitted := (emitted e
                 ++ [{| target := IoTo room; event := "message-received";
                        payload := p |}])
                ++ [{| target := IoTo (Some (userRoom receiver));
                       event := "new-message"; payload := p |}];
     rooms := rooms e;
     inserts := inserts e ++ [doc] |}
  = afterSend e doc room receiver p.
Proof. unfold afterSend. now rewrite <- app_assoc. Qed.

Lemma sendMessage_delivers
  (w : World) (userId m rcv : string) (d : EventData) (e : Effects)
  (room : option string) (saved : SavedMessage) (doc : MessageDoc)
  (n1 n2 : nat) :
  dbReady w defaultRetries defaultDelay = true ->
  message d = Some m -> m <> "" ->
  receiver d = Some rcv -> rcv <> "" ->
  truthy (quotationId d) || truthy (rfqId d) || truthy (productId d) = true ->
  sendAccess w userId d rcv e = (Normal room, e) ->
  saveMessageNative w (draftOf userId d) e = (Normal saved, withInsert e doc) ->
  fetchSockets w room = Ok n1 ->
  fetchSockets w (Some (userRoom rcv)) = Ok n2 ->
  run (sendMessage w userId (Some d)) e
  = (Completed,
     afterSend e doc room rcv (broadcastPayload (formatMessage saved) d)).
Proof.
  intros Hready Hm Hmne Hr Hrne Hid Hacc Hsave Hf1 Hf2.
  apply String.eqb_neq in Hmne, Hrne.
  unfold sendMessage. handler_unfold.
  rewrite Hready, Hm, Hr. cbn -[String.eqb Z.eqb append].
  rewrite Hmne, Hrne. cbn -[String.eqb Z.eqb append].
  replace (negb (truthy (quotationId d)) && negb (truthy (rfqId d))
           && negb (truthy (productId d))) with false
    by (destruct (truthy (quotationId d)), (truthy (rfqId d)),
          (truthy (productId d)); simpl in *; congruence).
  rewrite Hacc, Hsave. cbn -[String.eqb Z.eqb append].
  rewrite Hf1, Hf2. cbn -[String.eqb Z.eqb append].
  f_equal. apply afterSend_steps.
Qed.

Lemma join_adds (room : string) (e : Effects) :
  In room (rooms (snd (join room e))).
Proof.
  unfold join. simpl.
  destruct (existsb (String.eqb room) (rooms e)) eqn:H.
  - apply existsb_exists in H as [x [Hin Hx]].
    apply String.eqb_eq in Hx. now subst.
  - apply in_or_app. right. now left.
Qed.

(** C8. Once send-message has stored the message (the access chain gave
    [room], [saveMessageNative] returned [saved], and the two socket
    counts used for logging resolved), the listener emits exactly two
    events: [message-received] to the thread's room and [new-message] to
    [user-{receiver}], the room the receiver's sessions join when they
    connect; both carry the one payload built from [saved]. *)
Theorem sendMessage_fans_out
  (w : World) (userId m rcv : string) (d : EventData) (e : Effects)
  (room : option string) (saved : SavedMessage) (doc : MessageDoc)
  (n1 n2 : nat) :
  dbReady w defaultRetries defaultDelay = true ->
  message d = Some m -> m <> "" ->
  receiver d = Some rcv -> rcv <> "" ->
  truthy (quotationId d) || truthy (rfqId d) || truthy (productId d) = true ->
  sendAccess w userId d rcv e = (Normal room, e) ->
  saveMessageNative w (draftOf userId d) e = (Normal saved, withInsert e doc) ->
  fetchSockets w room = Ok n1 ->
  fetchSockets w (Some (userRoom rcv)) = Ok n2 ->
  exists p e',
    run (sendMessage w userId (Some d)) e = (Completed, e')
    /\ p = PMessage (formatMessage saved) (or_null (quotationId d))
             (or_null (rfqId d)) (or_null (productId d))
    /\ emittedSince e e'
         [{| target := IoTo room; event := "message-received"; payload := p |};
          {| target := IoTo (Some (userRoom rcv)); event := "new-message";
             payload := p |}]
    /\ inserts e' = (inserts e ++ [doc])%list
    /\ forall c s h e0,
         In (userRoom rcv) (rooms (snd (onConnection c s h rcv e0))).
Proof.
  intros Hready Hm Hmne Hr Hrne Hid Hacc Hsave Hf1 Hf2.
  exists (broadcastPayload (formatMessage saved) d).
  eexists. split.
  - eapply sendMessage_delivers; eassumption.
  - repeat split.
    intros c s h e0. unfold onConnection, bind.
    pose proof (join_adds (userRoom rcv) e0) as Hin.
    destruct (join (userRoom rcv) e0) as [[[]| |x] e1]; simpl in Hin |- *;
      try exact Hin.
    unfold serverNotReady, emitError, emit, bind, pure.
    destruct (c && (s =? 1)%Z); [destruct h |]; simpl; exact Hin.
Qed.

Lemma sendMessage_fans_out_witness :
  let d := {| quotationId := None; rfqId := Some Demo.R1; productId := None;
              receiverId := None; receiver := Some Demo.U2; message := Some "hi";
              attachments := None; room := None |} in
  exists p e',
    run (sendMessage Demo.world Demo.U1 (Some d)) (Demo.connected Demo.U1)
      = (Completed, e')
    /\ p = PMessage
             (formatMessage
                {| sv_stored :=
                     Demo.storedOf Demo.M1
                       (docOf Demo.world (draftOf Demo.U1 d)
                          None (Some Demo.R1) None Demo.U1 Demo.U2);
                   sv_sender :=
                     Some (SenderUser {| user_id := Demo.U1; username := Some "una";
                                         email := None; profile := None |}) |})
             None (Some Demo.R1) None
    /\ emittedSince (Demo.connected Demo.U1) e'
         [{| target := IoTo (Some (rfqRoom Demo.R1)); event := "message-received";
             payload := p |};
          {| target := IoTo (Some (userRoom Demo.U2)); event := "new-message";
             payload := p |}]
    /\ inserts e'
       = [docOf Demo.world (draftOf Demo.U1 d) None (Some Demo.R1) None Demo.U1 Demo.U2]
    /\ forall c s h e0,
         In (userRoom Demo.U2) (rooms (snd (onConnection c s h Demo.U2 e0))).
Proof.
  intros d.
  apply (sendMessage_fans_out Demo.world Demo.U1 "hi" Demo.U2 d (Demo.connected Demo.U1)
           (Some (rfqRoom Demo.R1)) _ _ 1 1);
    try reflexivity; discriminate.
Defined.

Lemma sendMessage_refused
  (w : World) (userId m rcv message : string) (d : EventData) (e : Effects) :
  dbReady w defaultRetries defaultDelay = true ->
  Data.message d = Some m -> m <> "" ->
  receiver d = Some rcv -> rcv <> "" ->
  truthy (quotationId d) || truthy (rfqId d) || truthy (productId d) = true ->
  sendAccess w userId d rcv e = (Returned, afterError e message None) ->
  run (sendMessage w userId (Some d)) e
  = (Completed, afterError e message None).
Proof.
  intros Hready Hm Hmne Hr Hrne Hid Hacc.
  apply String.eqb_neq in Hmne, Hrne.
  unfold sendMessage. handler_unfold.
  rewrite Hready, Hm, Hr. cbn -[String.eqb Z.eqb append].
  rewrite Hmne, Hrne. cbn -[String.eqb Z.eqb append].
  replace (negb (truthy (quotationId d)) && negb (truthy (rfqId d))
           && negb (truthy (productId d))) with false
    by (destruct (truthy (quotationId d)), (truthy (rfqId d)),
          (truthy (productId d)); simpl in *; congruence).
  now rewrite Hacc.
Qed.

(** C3, as the handler has it.  On a quotation thread, a sender who is a
    party and names a receiver that is neither [quotedBy] nor the RFQ's
    [requestedBy] gets the error [Invalid receiver]; on a product thread,
    a receiver that is neither the resolved shop owner nor the sender
    gets the error [Access denied]; in both cases nothing is handed to
    [insertOne] and nothing is broadcast. *)
Theorem sendMessage_receiver_checked
  (w : World) (userId m rcv q p : string) (dq dp : EventData) (e : Effects)
  (quotation : Quotation) (parent : RFQ) (product : Product) :
  dbReady w defaultRetries defaultDelay = true ->
  message dq = Some m -> message dp = Some m -> m <> "" ->
  receiver dq = Some rcv -> receiver dp = Some rcv -> rcv <> "" ->
  quotationId dq = Some q -> q <> "" ->
  findQuotation w q = Ok (Some quotation) ->
  findRFQ w (q_rfq quotation) = Ok (Some parent) ->
  quotedBy quotation = userId \/ requestedBy parent = userId ->
  rcv <> quotedBy quotation -> rcv <> requestedBy parent ->
  truthy (quotationId dp) = false -> truthy (rfqId dp) = false ->
  productId dp = Some p -> p <> "" ->
  getProductWithShop w p = Ok (Some product) ->
  shopOwnerIdSend product <> Some rcv -> userId <> rcv ->
  run (sendMessage w userId (Some dq)) e
    = (Completed, afterError e "Invalid receiver" None)
  /\ run (sendMessage w userId (Some dp)) e
     = (Completed, afterError e "Access denied" None).
Proof.
  intros Hready Hmq Hmp Hmne Hrq Hrp Hrne Hq Hqne Hfq Hfp Hparty Hn1 Hn2
    Hnq Hnr Hp Hpne Hprod Hown Hself.
  split.
  - apply (sendMessage_refused w userId m rcv); try assumption.
    { now rewrite Hq, (truthy_some q Hqne). }
    unfold sendAccess. rewrite Hq, (truthy_some q Hqne).
    handler_unfold. cbn -[String.eqb Z.eqb append].
    rewrite Hfq. cbn -[String.eqb Z.eqb append].
    rewrite Hfp. cbn -[String.eqb Z.eqb append].
    apply String.eqb_neq in Hn1, Hn2.
    assert (Hpass : (if negb (quotedBy quotation =? userId)
                     then negb (requestedBy parent =? userId) else false)
                    = false).
    { destruct Hparty as [H | H]; apply String.eqb_eq in H; rewrite H;
        [reflexivity | now destruct (quotedBy quotation =? userId)]. }
    destruct (quotedBy quotation =? userId); cbn -[String.eqb Z.eqb append];
      cbn -[String.eqb Z.eqb append] in Hpass;
      [| rewrite Hpass; cbn -[String.eqb Z.eqb append]];
      rewrite Hn1; cbn -[String.eqb Z.eqb append];
      rewrite Hn2; reflexivity.
  - apply (sendMessage_refused w userId m rcv); try assumption.
    { rewrite Hnq, Hnr, Hp, (truthy_some p Hpne). reflexivity. }
    unfold sendAccess. rewrite Hnq, Hnr, Hp, (truthy_some p Hpne).
    handler_unfold. cbn -[String.eqb Z.eqb append].
    rewrite Hprod. cbn -[String.eqb Z.eqb append].
    assert (Ho : same (shopOwnerIdSend product) rcv = false).
    { destruct (shopOwnerIdSend product) as [o|]; simpl; [|reflexivity].
      apply String.eqb_neq. congruence. }
    apply String.eqb_neq in Hself. rewrite Ho, Hself. reflexivity.
Qed.

Lemma sendMessage_receiver_checked_witness :
  run (sendMessage Demo.world Demo.U1
         (Some {| quotationId := Some Demo.Q1; rfqId := None; productId := None;
                  receiverId := None; receiver := Some Demo.U9;
                  message := Some "hi"; attachments := None; room := None |}))
      Demo.fresh
    = (Completed, afterError Demo.fresh "Invalid receiver" None)
  /\ run (sendMessage Demo.world Demo.U1
            (Some {| quotationId := None; rfqId := None; productId := Some Demo.P1;
                     receiverId := None; receiver := Some Demo.U9;
                     message := Some "hi"; attachments := None; room := None |}))
         Demo.fresh
     = (Completed, afterError Demo.fresh "Access denied" None).
Proof.
  apply (sendMessage_receiver_checked Demo.world Demo.U1 "hi" Demo.U9 Demo.Q1 Demo.P1 _ _
           Demo.fresh
           {| quotedBy := Demo.U1; q_rfq := Some Demo.R2 |} {| requestedBy := Demo.U2 |}
           {| name := Some "lamp";
              shop := Some {| shop_id := Demo.S1; owner := Some Demo.U2 |} |});
    try reflexivity; try discriminate.
  left. reflexivity.
Defined.

(** C3, as the specification words it, fails twice.  On RFQ R1, its
    requester U1 names U9, who has no part in the thread, as receiver:
    the message is stored and broadcast, no receiver check is made.  On
    product P1, owned by U2, the sender U1 names U9: the refusal is the
    [Access denied] error, not [Invalid receiver]. *)
Lemma sendMessage_receiver_unchecked :
  let dr := {| quotationId := None; rfqId := Some Demo.R1; productId := None;
               receiverId := None; receiver := Some Demo.U9;
               message := Some "hi"; attachments := None; room := None |} in
  let dp := {| quotationId := None; rfqId := None; productId := Some Demo.P1;
               receiverId := None; receiver := Some Demo.U9;
               message := Some "hi"; attachments := None; room := None |} in
  (exists doc p,
     run (sendMessage Demo.world Demo.U1 (Some dr)) Demo.fresh
       = (Completed, afterSend Demo.fresh doc (Some (rfqRoom Demo.R1)) Demo.U9 p)
     /\ doc_receiver doc = Demo.U9
     /\ doc_rfq doc = Some Demo.R1)
  /\ findRFQ Demo.world (Some Demo.R1) = Ok (Some {| requestedBy := Demo.U1 |})
  /\ run (sendMessage Demo.world Demo.U1 (Some dp)) Demo.fresh
     = (Completed, afterError Demo.fresh "Access denied" None)
  /\ afterError Demo.fresh "Access denied" None
     <> afterError Demo.fresh "Invalid receiver" None.
Proof.
  repeat split.
  - do 2 eexists. repeat split.
  - discriminate.
Qed.

(** ** Failures stay inside the listener *)

Ltac settle :=
  eexists; split; [reflexivity |];
  first [ left; unfold surfaced; cbn -[append];
          do 2 eexists; split; reflexivity
        | match goal with
          | H : existsb (String.eqb ?room) (rooms _) = _ |- _ =>
              right; left; exists room; do 2 eexists;
              unfold afterJoin; rewrite H; reflexivity
          end ].

Lemma joinQuotationRoom_contained (w : World) (userId : string)
  (data : option EventData) (e : Effects) :
  exists e', run (joinQuotationRoom w userId data) e = (Completed, e')
             /\ (surfaced e e' \/ served e e').
Proof.
  unfold joinQuotationRoom. handler_unfold. crunch; settle.
Qed.

Lemma joinRfqRoom_contained (w : World) (userId : string)
  (data : option EventData) (e : Effects) :
  exists e', run (joinRfqRoom w userId data) e = (Completed, e')
             /\ (surfaced e e' \/ served e e').
Proof.
  unfold joinRfqRoom. handler_unfold. crunch; settle.
Qed.

Lemma joinProductRoom_contained (w : World) (userId : string)
  (data : option EventData) (e : Effects) :
  exists e', run (joinProductRoom w userId data) e = (Completed, e')
             /\ (surfaced e e' \/ served e e').
Proof.
  unfold joinProductRoom. handler_unfold. crunch; settle.
Qed.

Lemma sendMessage_contained (w : World) (userId : string)
  (data : option EventData) (e : Effects) :
  exists e', run (sendMessage w userId data) e = (Completed, e')
             /\ (surfaced e e' \/ served e e').
Proof.
  unfold sendMessage. handler_unfold. crunch; try settle.
  all: match goal with
       | |- context [sendAccess ?w ?u ?d ?r ?e] =>
           destruct (sendAccess_cases w u d r e)
             as [[room H] | [[msg H] | [x H]]]; rewrite H
       end; unfold afterError; crunch; try settle.
  all: match goal with
       | |- context [saveMessageNative ?w ?md ?e] =>
           destruct (saveMessageNative_cases w md e)
             as [[x H'] | [[doc [x H']] | [doc [saved H']]]]; rewrite H'
       end; unfold withInsert; crunch; try settle.
  all: eexists; (split; [reflexivity |]);
    right; right; do 4 eexists.
  all: apply afterSend_steps.
Qed.

Lemma contained_of (e : Effects) (r : completion * Effects) :
  (exists e', r = (Completed, e') /\ (surfaced e e' \/ served e e')) ->
  contained e r.
Proof.
  intros [e' [-> H]]. unfold contained. simpl.
  repeat split; [exact H |].
  destruct H as [[m [dt [_ Hr]]] | [[room [key [id ->]]] | [doc [room [rcv [p ->]]]]]].
  - rewrite Hr. apply incl_refl.
  - simpl. destruct (existsb (String.eqb room) (rooms e));
      [apply incl_refl | apply incl_appl, incl_refl].
  - simpl. apply incl_refl.
Qed.

(** Case analysis for the tables below: as [crunch], but a test is
    split into the comparisons it is made of, so that the same
    comparison is decided once for both sides of an equation. *)
Ltac bool_atom x k :=
  lazymatch x with
  | negb ?y => bool_atom y k
  | ?a || _ => bool_atom a k
  | ?a && _ => bool_atom a k
  | _ => k x
  end.

Ltac table_step :=
  cbn -[String.eqb Z.eqb append includes];
  try unfold same;
  cbn -[String.eqb Z.eqb append includes];
  match goal with
  | |- context [match ?x with _ => _ end] =>
      lazymatch x with
      | context [match _ with _ => _ end] => fail
      | context [sendAccess] => fail
      | context [saveMessageNative] => fail
      | _ => bool_atom x ltac:(fun y => destruct y eqn:?)
      end
  end.

Ltac impossible :=
  match goal with
  | H : _ = _ |- _ =>
      cbn -[String.eqb Z.eqb append includes] in H; discriminate H
  end.

Ltac table :=
  repeat table_step; cbn -[String.eqb Z.eqb append includes];
  try reflexivity; try impossible.

Lemma shopOwnerIdJoin_truthy (p : Product) (s : string) :
  shopOwnerIdJoin p = Some s -> truthy (Some s) = true.
Proof.
  unfold shopOwnerIdJoin, or_else.
  destruct (truthy (shopOwner p)) eqn:H; [| discriminate].
  intros E. now rewrite <- E.
Qed.

(** C9. The failures of an inbound event stay inside its listener and
    reach the session as [error] events.

    Nothing escapes: for every world, session and payload, present or
    not, each of the four listeners that touch the database completes,
    with exactly one [error] event to the originating socket and its
    rooms kept, or with the request served.

    Each failure has its event: for a payload [d] the run of each
    listener is given below case by case.  [waitForDB] giving up is
    [Database not connected. Please try again.]; a missing field, a
    record not found, a refused identity and a refused receiver have
    their own messages and no details; an error thrown on the way (a
    lookup that rejects, a timer that fires first, a write that fails, a
    draft without reference) is caught by the listener's [catch] and
    sent with its text as details, behind [Failed to join quotation
    room: ], [Failed to join RFQ room: ] or [Failed to send message: ],
    and through [joinProductErrorMessage] for join-product-room.  No
    case joins a room or broadcasts unless the request is granted.

    The listeners of typing, stop-typing and leave-room have no [try]
    and raise none of these failures: on a payload they complete, with
    the typing notice sent to the room the payload names, or the room
    left, and never an [error]. *)
Theorem failures_contained
  (w : World) (userId : string) (data : option EventData) (d : EventData)
  (e : Effects) :
  (* nothing escapes *)
  contained e (run (joinQuotationRoom w userId data) e)
  /\ contained e (run (joinRfqRoom w userId data) e)
  /\ contained e (run (joinProductRoom w userId data) e)
  /\ contained e (run (sendMessage w userId data) e)
  (* join-quotation-room *)
  /\ (let thrown x :=
        afterError e ("Failed to join quotation room: " ++ orUnknown x)
          (Some x) in
      let quotationId := text (quotationId d) in
      let joined := afterJoin e (quotationRoom quotationId) KQuotation
                      quotationId in
      run (joinQuotationRoom w userId (Some d)) e
      = (Completed,
         if negb (dbReady w defaultRetries defaultDelay)
         then afterError e "Database not connected. Please try again." None
         else if negb (truthy (Data.quotationId d))
         then afterError e "Quotation ID is required" None
         else
           match findQuotation w quotationId with
           | Err x => thrown x
           | Ok None => afterError e "Quotation not found" None
           | Ok (Some quotation) =>
               match findRFQ w (q_rfq quotation) with
               | Err x => thrown x
               | Ok parent =>
                   if quotedBy quotation =? userId then joined
                   else
                     match parent with
                     | None =>
                         thrown
                           "Cannot read properties of null (reading 'requestedBy')"
                     | Some rfq =>
                         if requestedBy rfq =? userId then joined
                         else afterError e "Access denied" None
                     end
               end
           end))
  (* join-rfq-room *)
  /\ (let thrown x :=
        afterError e ("Failed to join RFQ room: " ++ orUnknown x) (Some x) in
      let rfqId := text (rfqId d) in
      run (joinRfqRoom w userId (Some d)) e
      = (Completed,
         if negb (dbReady w defaultRetries defaultDelay)
         then afterError e "Database not connected. Please try again." None
         else if negb (truthy (Data.rfqId d))
         then afterError e "RFQ ID is required" None
         else
           match findRFQ w (Some rfqId) with
           | Err x => thrown x
           | Ok None => afterError e "RFQ not found" None
           | Ok (Some rfq) =>
               if requestedBy rfq =? userId
               then afterJoin e (rfqRoom rfqId) KRfq rfqId
               else afterError e "Access denied" None
           end))
  (* join-product-room *)
  /\ (let thrown x := afterError e (joinProductErrorMessage x) (Some x) in
      let productId := text (productId d) in
      let receiverId := text (receiverId d) in
      run (joinProductRoom w userId (Some d)) e
      = (Completed,
         if negb (dbReady w 15 1000)
         then afterError e "Database not connected. Please try again." None
         else if negb (connState w =? 1)%Z
         then afterError e "Database connection lost. Please try again." None
         else if negb (truthy (Data.productId d))
                 || negb (truthy (Data.receiverId d))
         then afterError e "Product ID and receiver ID are required" None
         else
           match productQuery w productId with
           | TimerFirst => thrown "Product query timeout after 5 seconds"
           | Settled (Err x) => thrown x
           | Settled (Ok None) =>
               afterError e ("Product not found: " ++ productId) None
           | Settled (Ok (Some product)) =>
               match shopOwnerIdJoin product with
               | None =>
                   afterError e "Product shop information not available" None
               | Some owner =>
                   if (userId =? receiverId) || (owner =? userId)
                      || (owner =? receiverId)
                   then afterJoin e
                          (joinProductRoomName productId userId receiverId)
                          KProduct productId
                   else afterError e
                          "Access denied. You do not have permission to join this room."
                          None
               end
           end))
  /\ joinProductErrorMessage "Product query timeout after 5 seconds"
     = "Query timeout. Please try again."
  (* send-message: the listener *)
  /\ (let receiver := text (receiver d) in
      let thrown e' x :=
        afterError e' ("Failed to send message: " ++ orUnknown x) (Some x) in
      run (sendMessage w userId (Some d)) e
      = (Completed,
         if negb (dbReady w defaultRetries defaultDelay)
         then afterError e "Database not connected. Please try again." None
         else if negb (truthy (message d)) || negb (truthy (Data.receiver d))
         then afterError e "Message and receiver are required" None
         else if negb (truthy (quotationId d)) && negb (truthy (rfqId d))
                 && negb (truthy (productId d))
         then afterError e
                "Either quotationId, rfqId, or productId is required" None
         else
           match sendAccess w userId d receiver e with
           | (Returned, refused) => refused
           | (Thrown x, e1) => thrown e1 x
           | (Normal room, e1) =>
               match saveMessageNative w (draftOf userId d) e1 with
               | (Returned, e2) => e2
               | (Thrown x, e2) => thrown e2 x
               | (Normal saved, e2) =>
                   match fetchSockets w room,
                         fetchSockets w (Some (userRoom receiver)) with
                   | Err x, _ => thrown e2 x
                   | Ok _, Err x => thrown e2 x
                   | Ok _, Ok _ =>
                       let p := broadcastPayload (formatMessage saved) d in
                       {| emitted :=
                            emitted e2
                            ++ [{| target := IoTo room;
                                   event := "message-received";
                                   payload := p |};
                                {| target := IoTo (Some (userRoom receiver));
                                   event := "new-message";
                                   payload := p |}];
                          rooms := rooms e2;
                          inserts := inserts e2 |}
                   end
               end
           end))
  (* send-message: the access chain refuses with an event or throws *)
  /\ (forall receiver e0,
        let refuse m := (@Returned (option string), afterError e0 m None) in
        let grant room := (Normal (Some room), e0) in
        let nullRfq :=
          "Cannot read properties of null (reading 'requestedBy')" in
        sendAccess w userId d receiver e0
        = if truthy (quotationId d) then
            match findQuotation w (text (quotationId d)) with
            | Err x => (Thrown x, e0)
            | Ok None => refuse "Quotation not found"
            | Ok (Some quotation) =>
                match findRFQ w (q_rfq quotation) with
                | Err x => (Thrown x, e0)
                | Ok None =>
                    if (quotedBy quotation =? userId)
                       && (receiver =? quotedBy quotation)
                    then grant (quotationRoom (text (quotationId d)))
                    else (Thrown nullRfq, e0)
                | Ok (Some parent) =>
                    if negb ((quotedBy quotation =? userId)
                             || (requestedBy parent =? userId))
                    then refuse "Access denied"
                    else if negb ((receiver =? quotedBy quotation)
                                  || (receiver =? requestedBy parent))
                    then refuse "Invalid receiver"
                    else grant (quotationRoom (text (quotationId d)))
                end
            end
          else if truthy (rfqId d) then
            match findRFQ w (Some (text (rfqId d))) with
            | Err x => (Thrown x, e0)
            | Ok None => refuse "RFQ not found"
            | Ok (Some rfq) =>
                if requestedBy rfq =? userId
                then grant (rfqRoom (text (rfqId d)))
                else refuse "Access denied"
            end
          else if truthy (productId d) then
            match getProductWithShop w (text (productId d)) with
            | Err x => (Thrown x, e0)
            | Ok None => refuse "Product not found"
            | Ok (Some product) =>
                if same (shopOwnerIdSend product) receiver
                   || (userId =? receiver)
                then grant (sendProductRoomName (text (productId d)) userId
                              receiver)
                else refuse "Access denied"
            end
          else (Normal None, e0))
  (* send-message: the store throws, before the write or after it *)
  /\ (forall md e0,
        saveMessageNative w md e0
        = if negb (connState w =? 1)%Z
          then (Thrown "Database not connected", e0)
          else if negb (dbHandle w)
          then (Thrown "Database not available", e0)
          else
            match ping w, parseRef w (md_quotation md),
                  parseRef w (md_rfq md), parseRef w (md_product md),
                  newObjectId w (md_sender md),
                  newObjectId w (md_receiver md) with
            | Ok _, Ok quotation, Ok rfq, Ok product, Ok sender, Ok receiver =>
                if negb (isSome quotation) && negb (isSome rfq)
                   && negb (isSome product)
                then (Thrown "Either quotation, rfq, or product must be provided",
                      e0)
                else
                  let doc := docOf w md quotation rfq product sender receiver in
                  let e1 := withInsert e0 doc in
                  match insertOne w doc with
                  | TimerFirst =>
                      (Thrown "Insert operation timeout after 8 seconds", e1)
                  | Settled (Err x) => (Thrown x, e1)
                  | Settled (Ok None) => (Thrown "Failed to save message", e1)
                  | Settled (Ok (Some id)) =>
                      match findMessage w (inserts e1) id with
                      | TimerFirst =>
                          (Thrown "Find operation timeout after 5 seconds", e1)
                      | Settled (Err x) => (Thrown x, e1)
                      | Settled (Ok None) =>
                          (Thrown "Message saved but could not be retrieved",
                           e1)
                      | Settled (Ok (Some stored)) =>
                          (Normal
                             {| sv_stored := stored;
                                sv_sender :=
                                  match st_sender stored with
                                  | Some sid =>
                                      match findUser w sid with
                                      | Settled (Ok (Some u)) =>
                                          Some (SenderUser u)
                                      | _ => Some (SenderRef sid)
                                      end
                                  | None => None
                                  end |},
                           e1)
                      end
                  end
            | Err x, _, _, _, _, _ => (Thrown x, e0)
            | Ok _, Err x, _, _, _, _ => (Thrown x, e0)
            | Ok _, Ok _, Err x, _, _, _ => (Thrown x, e0)
            | Ok _, Ok _, Ok _, Err x, _, _ => (Thrown x, e0)
            | Ok _, Ok _, Ok _, Ok _, Err x, _ => (Thrown x, e0)
            | Ok _, Ok _, Ok _, Ok _, Ok _, Err x => (Thrown x, e0)
            end)
  (* typing, stop-typing, leave-room *)
  /\ (let typed flag room :=
        {| emitted := emitted e
                      ++ [{| target := SocketTo room; event := "user-typing";
                             payload := PTyping userId flag |}];
           rooms := rooms e;
           inserts := inserts e |} in
      let choice flag :=
        if truthy (productId d) && truthy (receiverId d)
        then typed flag (typingProductRoom (text (productId d))
                           (text (receiverId d)))
        else if truthy (quotationId d)
        then typed flag (quotationRoom (text (quotationId d)))
        else if truthy (rfqId d)
        then typed flag (rfqRoom (text (rfqId d)))
        else e in
      run (typing userId (Some d)) e = (Completed, choice true)
      /\ run (stopTyping userId (Some d)) e = (Completed, choice false)
      /\ run (leaveRoom (Some d)) e
         = (Completed,
            if truthy (room d)
            then {| emitted := emitted e;
                    rooms := filter (fun r => negb (text (room d) =? r))
                               (rooms e);
                    inserts := inserts e |}
            else e)).
Proof.
  split; [apply contained_of, joinQuotationRoom_contained |].
  split; [apply contained_of, joinRfqRoom_contained |].
  split; [apply contained_of, joinProductRoom_contained |].
  split; [apply contained_of, sendMessage_contained |].
  split; [unfold joinQuotationRoom, afterJoin; handler_unfold; now table |].
  split; [unfold joinRfqRoom, afterJoin; handler_unfold; now table |].
  split.
  { unfold joinProductRoom, afterJoin. handler_unfold. table.
    all: match goal with
         | H : shopOwnerIdJoin _ = Some ?s, H' : truthy (Some ?s) = false
           |- _ =>
             rewrite (shopOwnerIdJoin_truthy _ _ H) in H'; discriminate H'
         end. }
  split; [reflexivity |].
  split.
  { unfold sendMessage. handler_unfold. table.
    all: destruct (sendAccess w userId d _ e) as [[room | | x] e1];
      cbn -[String.eqb Z.eqb append includes]; try reflexivity.
    all: destruct (saveMessageNative w (draftOf userId d) e1)
           as [[saved | | x] e2];
      cbn -[String.eqb Z.eqb append includes]; try reflexivity.
    all: table.
    all: now rewrite <- app_assoc. }
  split; [intros receiver e0; unfold sendAccess; handler_unfold; now table |].
  split.
  { intros md e0. unfold saveMessageNative, populateSender, withInsert, docOf.
    handler_unfold. now table. }
  unfold typing, stopTyping, leaveRoom. handler_unfold.
  repeat split; now table.
Qed.

(** ** The rooms of a session *)

Ltac room_case :=
  let room := fresh "room" in
  let Hin := fresh "Hin" in
  intros room Hin; cbn -[String.eqb Z.eqb append includes] in Hin;
  first
    [ left; exact Hin
    | apply in_app_or in Hin; destruct Hin as [Hin | [<- | []]];
      [ left; exact Hin | right; unfold joinable; eauto 10 ] ].

Lemma joinQuotationRoom_rooms (w : World) (userId : string)
  (data : option EventData) (e : Effects) :
  forall room,
    In room (rooms (snd (run (joinQuotationRoom w userId data) e))) ->
    In room (rooms e) \/ joinable room.
Proof.
  unfold joinQuotationRoom. handler_unfold. crunch; room_case.
Qed.

Lemma joinRfqRoom_rooms (w : World) (userId : string)
  (data : option EventData) (e : Effects) :
  forall room,
    In room (rooms (snd (run (joinRfqRoom w userId data) e))) ->
    In room (rooms e) \/ joinable room.
Proof.
  unfold joinRfqRoom. handler_unfold. crunch; room_case.
Qed.

Lemma joinProductRoom_rooms (w : World) (userId : string)
  (data : option EventData) (e : Effects) :
  forall room,
    In room (rooms (snd (run (joinProductRoom w userId data) e))) ->
    In room (rooms e) \/ joinable room.
Proof.
  unfold joinProductRoom. handler_unfold. crunch; room_case.
Qed.

Lemma sendMessage_rooms (w : World) (userId : string)
  (data : option EventData) (e : Effects) :
  rooms (snd (run (sendMessage w userId data) e)) = rooms e.
Proof.
  unfold sendMessage. handler_unfold. crunch; try reflexivity.
  all: match goal with
       | |- context [sendAccess ?w ?u ?d ?r ?e] =>
           destruct (sendAccess_cases w u d r e)
             as [[room H] | [[msg H] | [x H]]]; rewrite H
       end; unfold afterError; crunch; try reflexivity.
  all: match goal with
       | |- context [saveMessageNative ?w ?md ?e] =>
           destruct (saveMessageNative_cases w md e)
             as [[x H'] | [[doc [x H']] | [doc [saved H']]]]; rewrite H'
       end; unfold withInsert; crunch; reflexivity.
Qed.

Lemma leaveRoom_rooms (data : option EventData) (e : Effects) :
  forall room,
    In room (rooms (snd (run (leaveRoom data) e))) -> In room (rooms e).
Proof.
  unfold leaveRoom. handler_unfold. crunch; intros room Hin;
    cbn -[String.eqb] in Hin; try exact Hin.
  apply filter_In in Hin. tauto.
Qed.

Lemma typing_rooms (userId : string) (data : option EventData) (e : Effects) :
  rooms (snd (run (typing userId data) e)) = rooms e
  /\ rooms (snd (run (stopTyping userId data) e)) = rooms e.
Proof.
  unfold typing, stopTyping. handler_unfold. split; crunch; reflexivity.
Qed.

(** No listener puts the session in a room of another kind. *)
Lemma listener_rooms (w : World) (userId : string) (name : EventName)
  (data : option EventData) (e : Effects) :
  forall room,
    In room (rooms (snd (run (listener w userId name data) e))) ->
    In room (rooms e) \/ joinable room.
Proof.
  intros room. destruct name; simpl.
  - apply joinQuotationRoom_rooms.
  - apply joinRfqRoom_rooms.
  - intros H. left. eapply leaveRoom_rooms; eassumption.
  - apply joinProductRoom_rooms.
  - rewrite sendMessage_rooms. auto.
  - rewrite (proj1 (typing_rooms userId data e)). auto.
  - rewrite (proj2 (typing_rooms userId data e)). auto.
Qed.

Lemma sessionAfter_rooms (userId : string) (events : list Inbound) :
  forall e,
    (forall room, In room (rooms e) -> joinable room) ->
    forall room, In room (rooms (sessionAfter userId events e)) -> joinable room.
Proof.
  unfold sessionAfter.
  induction events as [|ev events IH]; intros e He room Hin; simpl in Hin.
  - auto.
  - apply IH in Hin; [exact Hin |].
    intros r Hr. apply listener_rooms in Hr as [Hr | Hr]; auto.
Qed.

Lemma onConnection_rooms (dbConnected : bool) (readyState : Z)
  (handlersLoaded : bool) (userId : string) :
  forall room,
    In room (rooms (snd (onConnection dbConnected readyState handlersLoaded
                           userId newSocket))) ->
    joinable room.
Proof.
  unfold onConnection, serverNotReady. handler_unfold.
  crunch; intros room [<- | []]; unfold joinable; eauto.
Qed.

Lemma hyphens_append (x y : string) :
  hyphens (x ++ y) = hyphens x + hyphens y.
Proof.
  induction x as [|c x IH]; simpl; [reflexivity |].
  rewrite IH. apply Nat.add_assoc.
Qed.

Lemma hyphenFree_hyphens (s : string) : hyphenFree s = true -> hyphens s = 0.
Proof.
  unfold hyphenFree.
  induction s as [|c s IH]; simpl; [reflexivity |].
  intros H. apply andb_prop in H as [Hc Hs].
  destruct (Ascii.eqb c "-"); [discriminate | simpl; auto].
Qed.

(** With hyphen-free ids the typing room of a product thread has two
    hyphens, every product room has three or more, and the other rooms
    start with another word. *)
Lemma typing_room_not_joinable (p r : string) :
  hyphenFree p = true -> hyphenFree r = true ->
  ~ joinable (typingProductRoom p r).
Proof.
  intros Hp Hr [[id H] | [[id H] | [[id H] | [p' [a [b H]]]]]];
    try (unfold typingProductRoom, userRoom, quotationRoom, rfqRoom in H;
         simpl in H; discriminate).
  apply (f_equal hyphens) in H.
  unfold typingProductRoom, joinProductRoomName in H.
  repeat rewrite hyphens_append in H.
  rewrite (hyphenFree_hyphens p Hp), (hyphenFree_hyphens r Hr) in H.
  simpl in H. lia.
Qed.

(** ** Typing indicators *)

Lemma typing_product (userId p r : string) (d : EventData) (e : Effects)
  (flag : bool) :
  productId d = Some p -> p <> "" ->
  receiverId d = Some r -> r <> "" ->
  run ((if flag then typing else stopTyping) userId (Some d)) e
  = (Completed,
     {| emitted := emitted e
                   ++ [{| target := SocketTo (typingProductRoom p r);
                          event := "user-typing";
                          payload := PTyping userId flag |}];
        rooms := rooms e;
        inserts := inserts e |}).
Proof.
  intros Hp Hpne Hr Hrne. apply String.eqb_neq in Hpne, Hrne.
  destruct flag; unfold typing, stopTyping; handler_unfold;
    cbn -[String.eqb append]; rewrite Hp, Hr; cbn -[String.eqb append];
    rewrite Hpne, Hrne; reflexivity.
Qed.

(** C10. For a product thread, typing and stop-typing emit to the room
    [product-{productId}-{receiverId}]; when the receiver id has no
    hyphen, that name is none of the rooms
    [product-{productId}-{lo}-{hi}] that join-product-room joins and
    send-message broadcasts to for this product, whoever the two
    participants are.  When the product id has no hyphen either, no
    session is ever in that room, whatever events it has sent since it
    connected. *)
Theorem typing_room_never_joined
  (userId p r : string) (d : EventData) (e : Effects) :
  productId d = Some p -> p <> "" ->
  receiverId d = Some r -> r <> "" ->
  hyphenFree r = true ->
  (exists e1 e2,
      run (typing userId (Some d)) e = (Completed, e1)
      /\ run (stopTyping userId (Some d)) e = (Completed, e2)
      /\ emittedSince e e1
           [{| target := SocketTo (typingProductRoom p r);
               event := "user-typing"; payload := PTyping userId true |}]
      /\ emittedSince e e2
           [{| target := SocketTo (typingProductRoom p r);
               event := "user-typing"; payload := PTyping userId false |}])
  /\ typingProductRoom p r = "product-" ++ p ++ "-" ++ r
  /\ (forall a b,
        typingProductRoom p r <> joinProductRoomName p a b
        /\ typingProductRoom p r <> sendProductRoomName p a b)
  /\ (hyphenFree p = true ->
      forall who dbConnected readyState handlersLoaded events,
        ~ In (typingProductRoom p r)
             (rooms (sessionAfter who events
                       (snd (onConnection dbConnected readyState
                               handlersLoaded who newSocket))))).
Proof.
  intros Hp Hpne Hr Hrne Hfree.
  split; [| split; [reflexivity | split]].
  - do 2 eexists.
    rewrite (typing_product userId p r d e true Hp Hpne Hr Hrne).
    rewrite (typing_product userId p r d e false Hp Hpne Hr Hrne).
    repeat split.
  - intros a b. split; apply typing_room_differs; exact Hfree.
  - intros Hpfree who c s h events Hin.
    apply (typing_room_not_joinable p r Hpfree Hfree).
    apply (sessionAfter_rooms who events _ (onConnection_rooms c s h who) _ Hin).
Qed.

Lemma typing_room_never_joined_witness :
  let d := {| quotationId := None; rfqId := None; productId := Some Demo.P1;
              receiverId := Some Demo.U2; receiver := None; message := None;
              attachments := None; room := None |} in
  (exists e1 e2,
      run (typing Demo.U1 (Some d)) (Demo.connected Demo.U1) = (Completed, e1)
      /\ run (stopTyping Demo.U1 (Some d)) (Demo.connected Demo.U1) = (Completed, e2)
      /\ emittedSince (Demo.connected Demo.U1) e1
           [{| target := SocketTo ("product-" ++ Demo.P1 ++ "-" ++ Demo.U2);
               event := "user-typing"; payload := PTyping Demo.U1 true |}]
      /\ emittedSince (Demo.connected Demo.U1) e2
           [{| target := SocketTo ("product-" ++ Demo.P1 ++ "-" ++ Demo.U2);
               event := "user-typing"; payload := PTyping Demo.U1 false |}])
  /\ typingProductRoom Demo.P1 Demo.U2 = "product-" ++ Demo.P1 ++ "-" ++ Demo.U2
  /\ (forall a b,
        typingProductRoom Demo.P1 Demo.U2 <> joinProductRoomName Demo.P1 a b
        /\ typingProductRoom Demo.P1 Demo.U2 <> sendProductRoomName Demo.P1 a b)
  /\ (hyphenFree Demo.P1 = true ->
      forall who dbConnected readyState handlersLoaded events,
        ~ In (typingProductRoom Demo.P1 Demo.U2)
             (rooms (sessionAfter who events
                       (snd (onConnection dbConnected readyState
                               handlersLoaded who newSocket))))).
Proof.
  intros d.
  apply (typing_room_never_joined Demo.U1 Demo.P1 Demo.U2 d (Demo.connected Demo.U1));
    try reflexivity; discriminate.
Defined.

(** ** Worked examples *)

(** Three attempts against a backend that is connected but does not
    answer the ping, then still connecting: the ping failure does not
    end the loop, and the third miss does. *)
Lemma waitForDB_bounded_witness :
  let r := waitForDB (backend Demo.stalledWorld) 3 1000 in
  ready r = false /\ attempts r = 3 /\ attempts r <= 3 /\ slept r <= 3000.
Proof.
  apply (waitForDB_bounded (backend Demo.stalledWorld) 3 1000 3).
  - lia.
  - intros i Hi.
    destruct i as [|[|[|i]]]; [reflexivity | reflexivity | reflexivity | lia].
  - intros H. exfalso. apply (Nat.lt_irrefl 3). exact H.
Defined.

(** A ping that fails once is only a miss: the next attempt succeeds. *)
Example waitForDB_recovers :
  waitForDB (fun i => if (i =? 0)%nat then Demo.stalledProbe else Demo.readyProbe)
            15 1000
  = {| ready := true; attempts := 2; slept := 500 |}.
Proof. reflexivity. Qed.

Example waitForDB_default_budget :
  waitForDB (fun _ => Demo.connectingProbe) defaultRetries defaultDelay
  = {| ready := false; attempts := 15; slept := 15 * 1000 |}.
Proof. reflexivity. Qed.

(** An expired token in the auth field and a forged one in the header are
    refused alike; without a secret the refusal is another one. *)
Lemma authentication_failure_uniform_witness :
  let cfg := {| Auth.JWT_SECRET := Some "s3cret"; Auth.envJWT_SECRET := None |} in
  let cfg0 := {| Auth.JWT_SECRET := None; Auth.envJWT_SECRET := Some "" |} in
  let h1 := {| Auth.authToken := Some "old:a00000000000000000000001";
               Auth.authorization := None |} in
  let h2 := {| Auth.authToken := None;
               Auth.authorization := Some "Bearer forged:a00000000000000000000002" |} in
  Auth.authenticate Demo.verify cfg h1 = Auth.Refused "Authentication failed"
  /\ Auth.authenticate Demo.verify cfg h2 = Auth.authenticate Demo.verify cfg h1
  /\ Auth.authenticate Demo.verify cfg0 h1
     = Auth.Refused "JWT_SECRET not configured"
  /\ Auth.authenticate Demo.verify cfg0 h1 <> Auth.authenticate Demo.verify cfg h1.
Proof.
  intros cfg cfg0 h1 h2.
  apply (authentication_failure_uniform Demo.verify cfg cfg0 h1 h2
           "old:a00000000000000000000001" "forged:a00000000000000000000002"
           "s3cret" Auth.Expired Auth.BadSignature);
    try reflexivity; discriminate.
Defined.

Example authenticate_accepts :
  Auth.authenticate Demo.verify
    {| Auth.JWT_SECRET := None; Auth.envJWT_SECRET := Some "s3cret" |}
    {| Auth.authToken := None;
       Auth.authorization := Some "Bearer ok:a00000000000000000000001" |}
  = Auth.Accepted (Some Demo.U1) (Some "buyer").
Proof. reflexivity. Qed.

Example authenticate_bare_scheme :
  Auth.authenticate Demo.verify
    {| Auth.JWT_SECRET := None; Auth.envJWT_SECRET := None |}
    {| Auth.authToken := None; Auth.authorization := Some "Bearer " |}
  = Auth.Refused "Authentication token required".
Proof. reflexivity. Qed.

(** U1, the owner's counterpart, joins the room of product P1 with U2,
    who owns the shop; U2 joining with U1 lands in the same room. *)
Example join_product_both_sides :
  let ask who other :=
    run (joinProductRoom Demo.world who
           (Some {| quotationId := None; rfqId := None; productId := Some Demo.P1;
                    receiverId := Some other; receiver := None;
                    message := None; attachments := None; room := None |}))
        Demo.fresh in
  rooms (snd (ask Demo.U1 Demo.U2))
  = ["product-" ++ Demo.P1 ++ "-" ++ Demo.U1 ++ "-" ++ Demo.U2]
  /\ rooms (snd (ask Demo.U2 Demo.U1))
     = ["product-" ++ Demo.P1 ++ "-" ++ Demo.U1 ++ "-" ++ Demo.U2].
Proof. split; reflexivity. Qed.

(** A stranger naming the owner as counterpart is let in as well: the
    rule only asks that one side of the declared pair be the owner. *)
Example join_product_stranger :
  rooms (snd (run (joinProductRoom Demo.world Demo.U7
                     (Some {| quotationId := None; rfqId := None;
                              productId := Some Demo.P1; receiverId := Some Demo.U2;
                              receiver := None; message := None;
                              attachments := None; room := None |}))
                  Demo.fresh))
  = ["product-" ++ Demo.P1 ++ "-" ++ Demo.U2 ++ "-" ++ Demo.U7].
Proof. reflexivity. Qed.

(** The database never gets ready: one error event, no details. *)
Example send_not_ready :
  run (sendMessage Demo.stalledWorld Demo.U1
         (Some {| quotationId := None; rfqId := Some Demo.R1; productId := None;
                  receiverId := None; receiver := Some Demo.U2;
                  message := Some "hi"; attachments := None; room := None |}))
      Demo.fresh
  = (Completed,
     afterError Demo.fresh "Database not connected. Please try again." None).
Proof. reflexivity. Qed.

(** The insert loses its race: the document was handed over, the sender
    gets the error with its details, nothing is broadcast. *)
Example send_insert_timeout :
  let d := {| quotationId := None; rfqId := Some Demo.R1; productId := None;
              receiverId := None; receiver := Some Demo.U2;
              message := Some "hi"; attachments := None; room := None |} in
  run (sendMessage Demo.slowWorld Demo.U1 (Some d)) Demo.fresh
  = (Completed,
     afterError
       (withInsert Demo.fresh
          (docOf Demo.slowWorld (draftOf Demo.U1 d) None (Some Demo.R1) None Demo.U1 Demo.U2))
       "Failed to send message: Insert operation timeout after 8 seconds"
       (Some "Insert operation timeout after 8 seconds")).
Proof. reflexivity. Qed.

Example join_product_timeout :
  run (joinProductRoom Demo.slowWorld Demo.U1
         (Some {| quotationId := None; rfqId := None; productId := Some Demo.P1;
                  receiverId := Some Demo.U2; receiver := None; message := None;
                  attachments := None; room := None |}))
      Demo.fresh
  = (Completed,
     afterError Demo.fresh "Query timeout. Please try again."
       (Some "Product query timeout after 5 seconds")).
Proof. reflexivity. Qed.

(** A payload that is missing altogether is caught by the listeners that
    have a [try], and escapes the typing listener, which has none. *)
Example missing_payload :
  fst (run (joinRfqRoom Demo.world Demo.U1 None) Demo.fresh) = Completed
  /\ fst (run (typing Demo.U1 None) Demo.fresh)
     = Unhandled "Cannot destructure property 'quotationId' of 'data' as it is undefined.".
Proof. split; reflexivity. Qed.

(** A message that names a quotation and an RFQ goes through the
    quotation branch and is stored with both references. *)
Example send_two_references :
  let d := {| quotationId := Some Demo.Q1; rfqId := Some Demo.R1; productId := None;
              receiverId := None; receiver := Some Demo.U2;
              message := Some "hi"; attachments := None; room := None |} in
  exists doc p,
    run (sendMessage Demo.world Demo.U1 (Some d)) Demo.fresh
      = (Completed, afterSend Demo.fresh doc (Some (quotationRoom Demo.Q1)) Demo.U2 p)
    /\ doc_quotation doc = Some Demo.Q1 /\ doc_rfq doc = Some Demo.R1.
Proof. do 2 eexists. repeat split. Qed.

(** On a product thread the owner cannot answer the buyer: the receiver
    must be the owner or the sender itself. *)
Example send_product_owner_reply :
  run (sendMessage Demo.world Demo.U2
         (Some {| quotationId := None; rfqId := None; productId := Some Demo.P1;
                  receiverId := None; receiver := Some Demo.U1;
                  message := Some "hello"; attachments := None; room := None |}))
      Demo.fresh
  = (Completed, afterError Demo.fresh "Access denied" None).
Proof. reflexivity. Qed.

(** * Further properties of the code *)

(** ** [waitForDB] *)

Lemma waitLoop_ready_iff (backend : nat -> Probe) (delay : nat) :
  forall k i s,
    ready (waitLoop backend delay k i s) = true
    <-> exists m, i <= m < i + k /\ attemptSucceeds (backend m) = true.
Proof.
  induction k as [|k IH]; intros i s; simpl.
  - split; [discriminate | intros [m [Hm _]]; lia].
  - unfold attemptSucceeds in *.
    destruct (stateReady (backend i)) eqn:Hs;
      [destruct (probeOk (backend i)) eqn:Hp |]; simpl.
    + split; [intros _ | reflexivity].
      exists i. rewrite Hs, Hp. split; [lia | reflexivity].
    + rewrite IH. split; intros [m [Hm Hok]].
      * exists m. split; [lia | exact Hok].
      * exists m. split; [| exact Hok].
        destruct (Nat.eq_dec m i) as [-> |]; [| lia].
        rewrite Hs, Hp in Hok. discriminate.
    + rewrite IH. split; intros [m [Hm Hok]].
      * exists m. split; [lia | exact Hok].
      * exists m. split; [| exact Hok].
        destruct (Nat.eq_dec m i) as [-> |]; [| lia].
        rewrite Hs in Hok. discriminate.
Qed.

(** X1. [waitForDB] answers [true] exactly when one of the attempts it
    is allowed finds the connection up and both probes answering; with a
    budget of zero it answers [false] without looking at the backend. *)
Theorem waitForDB_ready_iff (backend : nat -> Probe) (maxRetries delay : nat) :
  (ready (waitForDB backend maxRetries delay) = true
   <-> exists i, i < maxRetries /\ attemptSucceeds (backend i) = true)
  /\ waitForDB backend 0 delay = {| ready := false; attempts := 0; slept := 0 |}.
Proof.
  split; [| reflexivity].
  unfold waitForDB. rewrite waitLoop_ready_iff.
  split; intros [m [Hm Hok]]; exists m; (split; [lia | exact Hok]).
Qed.

Lemma waitLoop_more_retries (backend : nat -> Probe) (delay extra : nat) :
  forall k i s,
    ready (waitLoop backend delay k i s) = true ->
    waitLoop backend delay (k + extra) i s = waitLoop backend delay k i s.
Proof.
  induction k as [|k IH]; intros i s; simpl; [discriminate |].
  destruct (stateReady (backend i)); [destruct (probeOk (backend i)) |];
    auto.
Qed.

(** X2. A larger retry budget never spoils a success: when [waitForDB]
    answers [true] within [maxRetries] attempts, any larger budget gives
    the same answer after the same attempts and the same sleep. *)
Theorem waitForDB_more_retries
  (backend : nat -> Probe) (maxRetries extra delay : nat) :
  ready (waitForDB backend maxRetries delay) = true ->
  waitForDB backend (maxRetries + extra) delay
  = waitForDB backend maxRetries delay.
Proof. apply waitLoop_more_retries. Qed.

Lemma waitForDB_more_retries_witness :
  waitForDB (fun i => if (i =? 0)%nat then Demo.stalledProbe else Demo.readyProbe)
            (2 + 13) 1000
  = waitForDB (fun i => if (i =? 0)%nat then Demo.stalledProbe else Demo.readyProbe)
              2 1000.
Proof.
  apply (waitForDB_more_retries
           (fun i => if (i =? 0)%nat then Demo.stalledProbe else Demo.readyProbe)
           2 13 1000).
  reflexivity.
Defined.

Lemma waitLoop_sleep (backend : nat -> Probe) (delay : nat) :
  forall k i s,
    s = 500 * probeMisses backend i + delay * stateMisses backend i ->
    let r := waitLoop backend delay k i s in
    let misses := if ready r then attempts r - 1 else attempts r in
    slept r = 500 * probeMisses backend misses
              + delay * stateMisses backend misses
    /\ i <= misses <= i + k.
Proof.
  induction k as [|k IH]; intros i s Hs; cbn [waitLoop].
  - cbn [ready attempts slept]. split; [exact Hs | lia].
  - destruct (stateReady (backend i)) eqn:Hst;
      [destruct (probeOk (backend i)) eqn:Hp |].
    + cbn [ready attempts slept]. replace (S i - 1) with i by lia.
      split; [exact Hs | lia].
    + destruct (IH (S i) (s + 500)) as [H1 H2].
      { cbn [probeMisses stateMisses]. rewrite Hst, Hp.
        cbn [andb negb]. lia. }
      split; [exact H1 | lia].
    + destruct (IH (S i) (s + delay)) as [H1 H2].
      { cbn [probeMisses stateMisses]. rewrite Hst.
        cbn [andb negb]. lia. }
      split; [exact H1 | lia].
Qed.

(** X3. The time [waitForDB] spends asleep: 500 ms for every attempt
    whose probe rejected and [delay] ms for every attempt that found the
    connection down, counted over the attempts that missed; nothing is
    slept after the attempt that succeeds. *)
Theorem waitForDB_sleep_accounting
  (backend : nat -> Probe) (maxRetries delay : nat) :
  let r := waitForDB backend maxRetries delay in
  let misses := if ready r then attempts r - 1 else attempts r in
  slept r = 500 * probeMisses backend misses + delay * stateMisses backend misses
  /\ misses <= maxRetries.
Proof.
  unfold waitForDB.
  destruct (waitLoop_sleep backend delay maxRetries 0 0) as [H1 H2];
    [cbn [probeMisses stateMisses]; lia |].
  split; [exact H1 | lia].
Qed.

(** ** [getProductWithShop] *)

(** X4. Once the product is found, [getProductWithShop] returns it
    whatever becomes of the shop.  Without a shop reference, or with an
    empty one, [shop] is null and nothing is looked up; a reference that
    [new ObjectId] refuses leaves [shop] null instead of failing the
    call; otherwise [shop] is what the lookup of the referenced shop, and
    of no other, gives: the shop found, null when there is none, and
    null again when the lookup rejects. *)
Theorem getProductWithShop_shop_nonfatal
  (w : World) (productId : string) (pid : oid) (raw : RawProduct) :
  dbHandle w = true ->
  newObjectId w productId = Ok pid ->
  findProduct w pid = Ok (Some raw) ->
  let returns found :=
    getProductWithShop w productId
    = Ok (Some {| name := raw_name raw; shop := found |}) in
  (raw_shop raw = None \/ raw_shop raw = Some (RefText "") -> returns None)
  /\ (forall t x,
        raw_shop raw = Some (RefText t) -> newObjectId w t = Err x ->
        returns None)
  /\ (forall sid,
        raw_shop raw = Some (RefOid sid)
        \/ (exists t, raw_shop raw = Some (RefText t) /\ t <> ""
                      /\ newObjectId w t = Ok sid) ->
        match findShop w sid with
        | Ok found => returns found
        | Err _ => returns None
        end).
Proof.
  intros Hdb Hid Hfind returns. subst returns.
  unfold getProductWithShop. rewrite Hdb, Hid, Hfind.
  cbn [negb]. unfold fetchShop.
  split; [| split].
  - intros [-> | ->]; reflexivity.
  - intros t x -> Hx. cbn [shopRefTruthy]. rewrite Hx.
    destruct (negb (t =? "")); reflexivity.
  - intros sid [-> | (t & -> & Ht & Hsid)]; cbn [shopRefTruthy].
    + destruct (findShop w sid); reflexivity.
    + apply String.eqb_neq in Ht. rewrite Ht, Hsid. cbn [negb].
      destruct (findShop w sid); reflexivity.
Qed.

Lemma getProductWithShop_shop_nonfatal_witness :
  getProductWithShop Demo.world Demo.P2
  = Ok (Some {| name := Some "desk"; shop := None |})
  /\ getProductWithShop Demo.world Demo.P1
     = Ok (Some {| name := Some "lamp";
                   shop := Some {| shop_id := Demo.S1;
                                   owner := Some Demo.U2 |} |}).
Proof.
  split.
  - exact (proj2 (proj2 (getProductWithShop_shop_nonfatal Demo.world
                           Demo.P2 Demo.P2
                           {| raw_name := Some "desk";
                              raw_shop := Some (RefOid Demo.S9) |}
                           eq_refl eq_refl eq_refl))
             Demo.S9 (or_introl eq_refl)).
  - exact (proj2 (proj2 (getProductWithShop_shop_nonfatal Demo.world
                           Demo.P1 Demo.P1
                           {| raw_name := Some "lamp";
                              raw_shop := Some (RefOid Demo.S1) |}
                           eq_refl eq_refl eq_refl))
             Demo.S1 (or_introl eq_refl)).
Defined.

(** X5. A product id that [new ObjectId] refuses never reaches the
    database: join-product-room and send-message both answer with one
    error event whose details are [Invalid product ID: <id>] (the
    driver's own text is dropped); no room is joined, nothing is
    stored.  The message of join-product-room is that text behind
    [Failed to join room: ] unless the id itself contains [timeout] or
    [buffering timed out]. *)
Theorem invalid_product_id_reported
  (w : World) (userId p r m x : string) (dj ds : EventData) (e : Effects) :
  dbReady w 15 1000 = true ->
  connState w = 1%Z -> dbHandle w = true ->
  productTimerFirst w = false ->
  newObjectId w p = Err x ->
  productId dj = Some p -> productId ds = Some p -> p <> "" ->
  receiverId dj = Some r -> receiver ds = Some r -> r <> "" ->
  message ds = Some m -> m <> "" ->
  truthy (quotationId ds) = false -> truthy (rfqId ds) = false ->
  run (joinProductRoom w userId (Some dj)) e
    = (Completed,
       afterError e (joinProductErrorMessage ("Invalid product ID: " ++ p))
         (Some ("Invalid product ID: " ++ p)))
  /\ (includes "timeout" p = false ->
      includes "buffering timed out" p = false ->
      joinProductErrorMessage ("Invalid product ID: " ++ p)
      = "Failed to join room: Invalid product ID: " ++ p)
  /\ run (sendMessage w userId (Some ds)) e
     = (Completed,
        afterError e ("Failed to send message: Invalid product ID: " ++ p)
          (Some ("Invalid product ID: " ++ p))).
Proof.
  intros Hready Hconn Hdb Htimer Hbad Hpj Hps Hpne Hrj Hrs Hrne Hm Hmne Hq Hrf.
  apply String.eqb_neq in Hpne as Hpe.
  apply String.eqb_neq in Hrne as Hre.
  apply String.eqb_neq in Hmne as Hme.
  assert (Hget : getProductWithShop w p = Err ("Invalid product ID: " ++ p)).
  { unfold getProductWithShop. now rewrite Hdb, Hbad. }
  split; [| split].
  - unfold joinProductRoom, productQuery. handler_unfold.
    rewrite Hready, Hconn. cbn -[String.eqb append includes].
    rewrite Hpj, Hrj. cbn -[String.eqb append includes].
    rewrite Hpe, Hre. cbn -[String.eqb append includes].
    rewrite Htimer, Hget. cbn -[String.eqb append includes].
    reflexivity.
  - intros Ht Hb. unfold joinProductErrorMessage. simpl.
    now rewrite Ht, Hb.
  - unfold sendMessage, sendAccess. handler_unfold.
    change defaultRetries with 15. change defaultDelay with 1000.
    rewrite Hready. cbn -[String.eqb append includes].
    rewrite Hm, Hrs. cbn -[String.eqb append includes].
    rewrite Hme, Hre. cbn -[String.eqb append includes].
    rewrite Hq, Hrf, Hps. cbn -[String.eqb append includes].
    rewrite Hpe. cbn -[String.eqb append includes].
    rewrite Hget. cbn -[String.eqb append includes].
    reflexivity.
Qed.

Lemma invalid_product_id_reported_witness :
  let dj := payloadOf None None (Some "lamp-7") (Some Demo.U2) None None None in
  let ds := payloadOf None None (Some "lamp-7") None (Some Demo.U2) (Some "hi")
              None in
  run (joinProductRoom Demo.world Demo.U1 (Some dj)) Demo.fresh
    = (Completed,
       afterError Demo.fresh
         (joinProductErrorMessage ("Invalid product ID: " ++ "lamp-7"))
         (Some ("Invalid product ID: " ++ "lamp-7")))
  /\ (includes "timeout" "lamp-7" = false ->
      includes "buffering timed out" "lamp-7" = false ->
      joinProductErrorMessage ("Invalid product ID: " ++ "lamp-7")
      = "Failed to join room: Invalid product ID: " ++ "lamp-7")
  /\ run (sendMessage Demo.world Demo.U1 (Some ds)) Demo.fresh
     = (Completed,
        afterError Demo.fresh
          ("Failed to send message: Invalid product ID: " ++ "lamp-7")
          (Some ("Invalid product ID: " ++ "lamp-7"))).
Proof.
  intros dj ds.
  apply (invalid_product_id_reported Demo.world Demo.U1 "lamp-7" Demo.U2 "hi"
           "input must be a 24 character hex string, 12 byte Uint8Array, or an integer"
           dj ds Demo.fresh);
    try reflexivity; discriminate.
Defined.

(** A product id that contains the word is reported as a timeout. *)
Example invalid_product_id_timeout :
  run (joinProductRoom Demo.world Demo.U1
         (Some (payloadOf None None (Some "timeout") (Some Demo.U2) None None
                  None)))
      Demo.fresh
  = (Completed,
     afterError Demo.fresh "Query timeout. Please try again."
       (Some "Invalid product ID: timeout")).
Proof. reflexivity. Qed.

(** ** [saveMessageNative] *)

(** X6. [saveMessageNative] emits nothing and touches no room; it hands
    at most one document to [insertOne]; and it ends by returning the
    saved message or by throwing, never by a silent return. *)
Theorem saveMessageNative_footprint
  (w : World) (md : MessageData) (e : Effects) :
  let r := saveMessageNative w md e in
  emitted (snd r) = emitted e
  /\ rooms (snd r) = rooms e
  /\ (inserts (snd r) = inserts e
      \/ exists doc, inserts (snd r) = (inserts e ++ [doc])%list)
  /\ fst r <> Returned.
Proof.
  destruct (saveMessageNative_cases w md e)
    as [[x H] | [[doc [x H]] | [doc [saved H]]]]; rewrite H; simpl;
    repeat split; eauto; discriminate.
Qed.

(** X7. When the write and the read-back succeed, the sender lookup
    cannot fail the call: the stored message is returned as read, with
    the user document in place of the sender when the lookup found one,
    and with the sender id left as stored when the lookup found nothing,
    rejected or timed out. *)
Theorem saveMessageNative_sender_lookup
  (w : World) (md : MessageData) (e : Effects)
  (q r p : option oid) (s rc id : oid) (stored : StoredMessage) :
  connState w = 1%Z -> dbHandle w = true -> ping w = Ok tt ->
  parseRef w (md_quotation md) = Ok q ->
  parseRef w (md_rfq md) = Ok r ->
  parseRef w (md_product md) = Ok p ->
  newObjectId w (md_sender md) = Ok s ->
  newObjectId w (md_receiver md) = Ok rc ->
  isSome q || isSome r || isSome p = true ->
  insertOne w (docOf w md q r p s rc) = Settled (Ok (Some id)) ->
  findMessage w (inserts e ++ [docOf w md q r p s rc]) id
    = Settled (Ok (Some stored)) ->
  saveMessageNative w md e
  = (Normal
       {| sv_stored := stored;
          sv_sender :=
            match st_sender stored with
            | Some sid =>
                match findUser w sid with
                | Settled (Ok (Some u)) => Some (SenderUser u)
                | _ => Some (SenderRef sid)
                end
            | None => None
            end |},
     withInsert e (docOf w md q r p s rc)).
Proof.
  intros Hc Hd Hping Hq Hr Hp Hs Hrc Hone Hins Hfind.
  unfold saveMessageNative, populateSender. handler_unfold.
  rewrite Hc, Z.eqb_refl, Hd, Hping, Hq, Hr, Hp, Hs, Hrc.
  replace (negb (isSome q) && negb (isSome r) && negb (isSome p)) with false
    by (destruct q, r, p; simpl in *; congruence).
  unfold withInsert, docOf in *.
  cbn -[String.eqb Z.eqb append]. rewrite Hins.
  cbn -[String.eqb Z.eqb append]. rewrite Hfind.
  cbn -[String.eqb Z.eqb append].
  destruct (st_sender stored) as [sid |]; [| reflexivity].
  destruct (findUser w sid) as [[[u |] | x] |]; reflexivity.
Qed.

Lemma saveMessageNative_sender_lookup_witness :
  let md := {| md_quotation := None; md_rfq := Some Demo.R1;
               md_product := None; md_sender := Demo.U2;
               md_receiver := Demo.U1; md_message := "hello";
               md_attachments := [] |} in
  let doc := docOf Demo.world md None (Some Demo.R1) None Demo.U2 Demo.U1 in
  saveMessageNative Demo.world md Demo.fresh
  = (Normal
       {| sv_stored := Demo.storedOf Demo.M1 doc;
          sv_sender :=
            match st_sender (Demo.storedOf Demo.M1 doc) with
            | Some sid =>
                match findUser Demo.world sid with
                | Settled (Ok (Some u)) => Some (SenderUser u)
                | _ => Some (SenderRef sid)
                end
            | None => None
            end |},
     withInsert Demo.fresh doc).
Proof.
  intros md doc.
  apply (saveMessageNative_sender_lookup Demo.world md Demo.fresh
           None (Some Demo.R1) None Demo.U2 Demo.U1 Demo.M1);
    reflexivity.
Defined.

(** X8. An id that [new ObjectId] refuses, be it a reference, the sender
    or the receiver, makes [saveMessageNative] throw before anything is
    handed to [insertOne]. *)
Theorem saveMessageNative_bad_id (w : World) (md : MessageData) (e : Effects)
  (x : string) :
  parseRef w (md_quotation md) = Err x
  \/ parseRef w (md_rfq md) = Err x
  \/ parseRef w (md_product md) = Err x
  \/ newObjectId w (md_sender md) = Err x
  \/ newObjectId w (md_receiver md) = Err x ->
  exists y, saveMessageNative w md e = (Thrown y, e).
Proof.
  intros H.
  unfold saveMessageNative. handler_unfold.
  destruct (negb (connState w =? 1)%Z); [eauto |].
  destruct (negb (dbHandle w)); [eauto |].
  destruct (ping w); [| eauto].
  destruct (parseRef w (md_quotation md)) as [q | x1]; [| eauto].
  destruct (parseRef w (md_rfq md)) as [r | x2]; [| eauto].
  destruct (parseRef w (md_product md)) as [p | x3]; [| eauto].
  destruct (newObjectId w (md_sender md)) as [s | x4]; [| eauto].
  destruct (newObjectId w (md_receiver md)) as [rc | x5]; [| eauto].
  destruct H as [H | [H | [H | [H | H]]]]; discriminate.
Qed.

Lemma saveMessageNative_bad_id_witness :
  exists y,
    saveMessageNative Demo.world
      {| md_quotation := None; md_rfq := Some Demo.R1; md_product := None;
         md_sender := "guest"; md_receiver := Demo.U1; md_message := "hello";
         md_attachments := [] |} Demo.fresh
    = (Thrown y, Demo.fresh).
Proof.
  apply (saveMessageNative_bad_id Demo.world _ Demo.fresh
           "input must be a 24 character hex string, 12 byte Uint8Array, or an integer").
  right. right. right. left. reflexivity.
Defined.

(** ** send-message after the access check *)

Lemma sendMessage_after_access
  (w : World) (userId m rcv : string) (d : EventData) (e : Effects)
  (room : option string) :
  dbReady w defaultRetries defaultDelay = true ->
  message d = Some m -> m <> "" ->
  receiver d = Some rcv -> rcv <> "" ->
  truthy (quotationId d) || truthy (rfqId d) || truthy (productId d) = true ->
  sendAccess w userId d rcv e = (Normal room, e) ->
  run (sendMessage w userId (Some d)) e
  = run (try_catch
           (messageDoc <- saveMessageNative w (draftOf userId d) ;;
            await (fetchSockets w room) ;;
            await (fetchSockets w (Some (userRoom rcv))) ;;
            emit (IoTo room) "message-received"
                 (broadcastPayload (formatMessage messageDoc) d) ;;
            emit (IoTo (Some (userRoom rcv))) "new-message"
                 (broadcastPayload (formatMessage messageDoc) d))
           (fun x =>
              emitError ("Failed to send message: " ++ orUnknown x) (Some x)))
        e.
Proof.
  intros Hready Hm Hmne Hr Hrne Hid Hacc.
  apply String.eqb_neq in Hmne, Hrne.
  unfold sendMessage. handler_unfold.
  rewrite Hready, Hm, Hr. cbn -[String.eqb Z.eqb append].
  rewrite Hmne, Hrne. cbn -[String.eqb Z.eqb append].
  replace (negb (truthy (quotationId d)) && negb (truthy (rfqId d))
           && negb (truthy (productId d))) with false
    by (destruct (truthy (quotationId d)), (truthy (rfqId d)),
          (truthy (productId d)); simpl in *; congruence).
  now rewrite Hacc.
Qed.

(** X9. When [saveMessageNative] throws (the connection dropped, an id
    is malformed, the draft is invalid, the insert or the read-back
    timed out or failed), send-message broadcasts nothing: the sender
    gets one error event, [Failed to send message: <text>] with the text
    as details, and whatever was handed to [insertOne] stays handed. *)
Theorem sendMessage_store_failure
  (w : World) (userId m rcv x : string) (d : EventData) (e e1 : Effects)
  (room : option string) :
  dbReady w defaultRetries defaultDelay = true ->
  message d = Some m -> m <> "" ->
  receiver d = Some rcv -> rcv <> "" ->
  truthy (quotationId d) || truthy (rfqId d) || truthy (productId d) = true ->
  sendAccess w userId d rcv e = (Normal room, e) ->
  saveMessageNative w (draftOf userId d) e = (Thrown x, e1) ->
  run (sendMessage w userId (Some d)) e
  = (Completed,
     afterError e1 ("Failed to send message: " ++ orUnknown x) (Some x)).
Proof.
  intros Hready Hm Hmne Hr Hrne Hid Hacc Hsave.
  rewrite (sendMessage_after_access w userId m rcv d e room) by assumption.
  handler_unfold. now rewrite Hsave.
Qed.

Lemma sendMessage_store_failure_witness :
  let d := payloadOf None (Some Demo.R1) None None (Some Demo.U2) (Some "hi")
             None in
  run (sendMessage Demo.slowWorld Demo.U1 (Some d)) Demo.fresh
  = (Completed,
     afterError
       (withInsert Demo.fresh
          (docOf Demo.slowWorld (draftOf Demo.U1 d) None (Some Demo.R1) None
             Demo.U1 Demo.U2))
       ("Failed to send message: "
        ++ orUnknown "Insert operation timeout after 8 seconds")
       (Some "Insert operation timeout after 8 seconds")).
Proof.
  intros d.
  apply (sendMessage_store_failure Demo.slowWorld Demo.U1 "hi" Demo.U2 _ d
           Demo.fresh _ (Some (rfqRoom Demo.R1)));
    try reflexivity; discriminate.
Defined.

(** X10. The two socket counts that send-message reads for its log sit
    between the write and the broadcast: when one of them rejects, the
    message is already stored, nothing is broadcast, and the sender is
    told that the send failed. *)
Theorem sendMessage_count_failure
  (w : World) (userId m rcv x : string) (d : EventData) (e : Effects)
  (room : option string) (saved : SavedMessage) (doc : MessageDoc) :
  dbReady w defaultRetries defaultDelay = true ->
  message d = Some m -> m <> "" ->
  receiver d = Some rcv -> rcv <> "" ->
  truthy (quotationId d) || truthy (rfqId d) || truthy (productId d) = true ->
  sendAccess w userId d rcv e = (Normal room, e) ->
  saveMessageNative w (draftOf userId d) e = (Normal saved, withInsert e doc) ->
  fetchSockets w room = Err x
  \/ (exists n, fetchSockets w room = Ok n)
     /\ fetchSockets w (Some (userRoom rcv)) = Err x ->
  run (sendMessage w userId (Some d)) e
  = (Completed,
     afterError (withInsert e doc)
       ("Failed to send message: " ++ orUnknown x) (Some x)).
Proof.
  intros Hready Hm Hmne Hr Hrne Hid Hacc Hsave Hcount.
  rewrite (sendMessage_after_access w userId m rcv d e room) by assumption.
  handler_unfold. rewrite Hsave.
  destruct Hcount as [H1 | [[n H1] H2]]; rewrite H1; [reflexivity |].
  now rewrite H2.
Qed.

Lemma sendMessage_count_failure_witness :
  let d := payloadOf None (Some Demo.R1) None None (Some Demo.U2) (Some "hi")
             None in
  let doc := docOf Trial.uncounted (draftOf Demo.U1 d) None (Some Demo.R1) None
               Demo.U1 Demo.U2 in
  run (sendMessage Trial.uncounted Demo.U1 (Some d)) Demo.fresh
  = (Completed,
     afterError (withInsert Demo.fresh doc)
       ("Failed to send message: " ++ orUnknown "adapter closed")
       (Some "adapter closed")).
Proof.
  intros d doc.
  apply (sendMessage_count_failure Trial.uncounted Demo.U1 "hi" Demo.U2
           "adapter closed" d Demo.fresh (Some (rfqRoom Demo.R1))
           {| sv_stored := Demo.storedOf Demo.M1 doc;
              sv_sender :=
                Some (SenderUser {| user_id := Demo.U1; username := Some "una";
                                    email := None; profile := None |}) |}
           doc);
    try reflexivity; try discriminate.
  left. reflexivity.
Defined.

(** ** Who may join and who may send on a product thread *)

(** X11. With the shop owner resolved, join-product-room lets an
    identity in exactly when it is the declared receiver, or it is the
    owner, or the declared receiver is the owner; so naming the owner as
    receiver opens the room to any identity. *)
Theorem joinProductRoom_grant_rule
  (w : World) (userId p r o : string) (d : EventData) (e : Effects)
  (product : Product) :
  dbReady w 15 1000 = true ->
  connState w = 1%Z ->
  productId d = Some p -> p <> "" ->
  receiverId d = Some r -> r <> "" ->
  productQuery w p = Settled (Ok (Some product)) ->
  shopOwnerIdJoin product = Some o ->
  (userId = r \/ o = userId \/ o = r ->
   run (joinProductRoom w userId (Some d)) e
   = (Completed, afterJoin e (joinProductRoomName p userId r) KProduct p))
  /\ (userId <> r /\ o <> userId /\ o <> r ->
      run (joinProductRoom w userId (Some d)) e
      = (Completed,
         afterError e
           "Access denied. You do not have permission to join this room."
           None)).
Proof.
  intros Hready Hconn Hp Hpne Hr Hrne Hquery Howner.
  rewrite (joinProductRoom_resolved w userId p r d e product) by assumption.
  rewrite Howner. split.
  - intros [H | [H | H]]; apply String.eqb_eq in H; rewrite H;
      [reflexivity | now rewrite orb_true_r | now rewrite orb_true_r].
  - intros [H1 [H2 H3]]. apply String.eqb_neq in H1, H2, H3.
    now rewrite H1, H2, H3.
Qed.

Lemma joinProductRoom_grant_rule_witness :
  let d := payloadOf None None (Some Demo.P1) (Some Demo.U2) None None None in
  (Demo.U7 = Demo.U2 \/ Demo.U2 = Demo.U7 \/ Demo.U2 = Demo.U2 ->
   run (joinProductRoom Demo.world Demo.U7 (Some d)) Demo.fresh
   = (Completed,
      afterJoin Demo.fresh (joinProductRoomName Demo.P1 Demo.U7 Demo.U2)
        KProduct Demo.P1))
  /\ (Demo.U7 <> Demo.U2 /\ Demo.U2 <> Demo.U7 /\ Demo.U2 <> Demo.U2 ->
      run (joinProductRoom Demo.world Demo.U7 (Some d)) Demo.fresh
      = (Completed,
         afterError Demo.fresh
           "Access denied. You do not have permission to join this room."
           None)).
Proof.
  intros d.
  apply (joinProductRoom_grant_rule Demo.world Demo.U7 Demo.P1 Demo.U2 Demo.U2
           d Demo.fresh
           {| name := Some "lamp";
              shop := Some {| shop_id := Demo.S1; owner := Some Demo.U2 |} |});
    try reflexivity; discriminate.
Defined.

(** X12. On a product thread send-message accepts a receiver exactly
    when it is the resolved shop owner or the sender itself, whoever the
    sender is; so a message from the owner to anyone else is refused. *)
Theorem sendAccess_product_rule
  (w : World) (userId p rcv : string) (d : EventData) (e : Effects)
  (product : Product) :
  truthy (quotationId d) = false -> truthy (rfqId d) = false ->
  productId d = Some p -> p <> "" ->
  getProductWithShop w p = Ok (Some product) ->
  (shopOwnerIdSend product = Some rcv \/ userId = rcv ->
   sendAccess w userId d rcv e
   = (Normal (Some (sendProductRoomName p userId rcv)), e))
  /\ (shopOwnerIdSend product <> Some rcv /\ userId <> rcv ->
      sendAccess w userId d rcv e
      = (Returned, afterError e "Access denied" None))
  /\ (shopOwnerIdSend product = Some userId -> userId <> rcv ->
      sendAccess w userId d rcv e
      = (Returned, afterError e "Access denied" None)).
Proof.
  intros Hq Hr Hp Hpne Hget.
  assert (Hrun : sendAccess w userId d rcv e
                 = if same (shopOwnerIdSend product) rcv || (userId =? rcv)
                   then (Normal (Some (sendProductRoomName p userId rcv)), e)
                   else (Returned, afterError e "Access denied" None)).
  { unfold sendAccess. rewrite Hq, Hr, Hp, (truthy_some p Hpne).
    handler_unfold. cbn -[String.eqb append]. rewrite Hget.
    cbn -[String.eqb append].
    destruct (same (shopOwnerIdSend product) rcv); cbn -[String.eqb append];
      [reflexivity |].
    destruct (userId =? rcv); reflexivity. }
  rewrite Hrun.
  assert (Hdeny : shopOwnerIdSend product <> Some rcv -> userId <> rcv ->
                  same (shopOwnerIdSend product) rcv || (userId =? rcv) = false).
  { intros H1 H2. apply String.eqb_neq in H2. rewrite H2, orb_false_r.
    destruct (shopOwnerIdSend product) as [o |]; simpl; [| reflexivity].
    apply String.eqb_neq. congruence. }
  repeat split.
  - intros [H | H].
    + rewrite H. simpl. now rewrite String.eqb_refl.
    + apply String.eqb_eq in H. now rewrite H, orb_true_r.
  - intros [H1 H2]. now rewrite Hdeny.
  - intros H1 H2. rewrite Hdeny; [reflexivity | | exact H2].
    rewrite H1. congruence.
Qed.

Lemma sendAccess_product_rule_witness :
  let d := payloadOf None None (Some Demo.P1) None (Some Demo.U1) (Some "hello")
             None in
  let product := {| name := Some "lamp";
                    shop := Some {| shop_id := Demo.S1;
                                    owner := Some Demo.U2 |} |} in
  (shopOwnerIdSend product = Some Demo.U1 \/ Demo.U2 = Demo.U1 ->
   sendAccess Demo.world Demo.U2 d Demo.U1 Demo.fresh
   = (Normal (Some (sendProductRoomName Demo.P1 Demo.U2 Demo.U1)), Demo.fresh))
  /\ (shopOwnerIdSend product <> Some Demo.U1 /\ Demo.U2 <> Demo.U1 ->
      sendAccess Demo.world Demo.U2 d Demo.U1 Demo.fresh
      = (Returned, afterError Demo.fresh "Access denied" None))
  /\ (shopOwnerIdSend product = Some Demo.U2 -> Demo.U2 <> Demo.U1 ->
      sendAccess Demo.world Demo.U2 d Demo.U1 Demo.fresh
      = (Returned, afterError Demo.fresh "Access denied" None)).
Proof.
  intros d product.
  apply (sendAccess_product_rule Demo.world Demo.U2 Demo.P1 Demo.U1 d
           Demo.fresh product);
    try reflexivity; discriminate.
Defined.

(** ** The room a message goes to *)

Lemma sendAccess_grants
  (w : World) (userId rcv : string) (d : EventData) (e e' : Effects)
  (room : option string) :
  sendAccess w userId d rcv e = (Normal room, e') ->
  room = sendRoomOf userId rcv d /\ e' = e.
Proof.
  unfold sendAccess, sendRoomOf. handler_unfold.
  crunch; intros H; try discriminate; injection H as <- <-; split; reflexivity.
Qed.

(** X13. When the access chain of send-message grants, the room is
    decided by the first id present, [quotationId] before [rfqId] before
    [productId]: [quotation-{id}], [rfq-{id}], or the sorted product
    room of sender and receiver; the ids further down the chain play no
    part, and the chain has no effect of its own. *)
Theorem sendAccess_room
  (w : World) (userId rcv : string) (d : EventData) (e e' : Effects)
  (room : option string) :
  sendAccess w userId d rcv e = (Normal room, e') ->
  e' = e
  /\ (forall q, quotationId d = Some q -> q <> "" ->
      room = Some (quotationRoom q))
  /\ (forall r, truthy (quotationId d) = false ->
      rfqId d = Some r -> r <> "" ->
      room = Some (rfqRoom r))
  /\ (forall p, truthy (quotationId d) = false -> truthy (rfqId d) = false ->
      productId d = Some p -> p <> "" ->
      room = Some (joinProductRoomName p userId rcv))
  /\ (truthy (quotationId d) = false -> truthy (rfqId d) = false ->
      truthy (productId d) = false -> room = None).
Proof.
  intros H. apply sendAccess_grants in H as [-> ->].
  unfold sendRoomOf. repeat split.
  - intros q Hq Hne. now rewrite Hq, (truthy_some q Hne).
  - intros r Hq Hr Hne. now rewrite Hq, Hr, (truthy_some r Hne).
  - intros p Hq Hr Hp Hne. now rewrite Hq, Hr, Hp, (truthy_some p Hne).
  - intros Hq Hr Hp. now rewrite Hq, Hr, Hp.
Qed.

Lemma sendAccess_room_witness :
  let d := payloadOf (Some Demo.Q1) (Some Demo.R1) (Some Demo.P1) None
             (Some Demo.U2) (Some "hi") None in
  let room := Some (quotationRoom Demo.Q1) in
  Demo.fresh = Demo.fresh
  /\ (forall q, quotationId d = Some q -> q <> "" ->
      room = Some (quotationRoom q))
  /\ (forall r, truthy (quotationId d) = false ->
      rfqId d = Some r -> r <> "" ->
      room = Some (rfqRoom r))
  /\ (forall p, truthy (quotationId d) = false -> truthy (rfqId d) = false ->
      productId d = Some p -> p <> "" ->
      room = Some (joinProductRoomName p Demo.U1 Demo.U2))
  /\ (truthy (quotationId d) = false -> truthy (rfqId d) = false ->
      truthy (productId d) = false -> room = None).
Proof.
  intros d room.
  apply (sendAccess_room Demo.world Demo.U1 Demo.U2 d Demo.fresh Demo.fresh).
  reflexivity.
Defined.

Lemma joined_emission (e : Effects) (x : Emission) (rs : list string)
  (ins : list MessageDoc) (room : string) (key : ThreadKey) (id : string) :
  {| emitted := emitted e ++ [x]; rooms := rs; inserts := ins |}
  = afterJoin e room key id ->
  x = {| target := Socket; event := "joined-room";
         payload := PJoined room key (Some id) |}.
Proof.
  intros H. apply (f_equal emitted) in H. simpl in H.
  apply app_inv_head in H. now injection H.
Qed.

Lemma joinProductRoom_served_room
  (w : World) (userId : string) (d : EventData) (e : Effects)
  (room : string) (key : ThreadKey) (id : string) :
  run (joinProductRoom w userId (Some d)) e
  = (Completed, afterJoin e room key id) ->
  room = joinProductRoomName (text (productId d)) userId (text (receiverId d))
  /\ truthy (productId d) = true /\ truthy (receiverId d) = true.
Proof.
  unfold joinProductRoom. handler_unfold.
  crunch; intros H; apply (f_equal snd) in H; cbn [snd] in H;
    apply joined_emission in H; try discriminate; injection H as <- _ _.
  all: repeat match goal with
         | Hb : negb _ || negb _ = false |- _ =>
             apply orb_false_elim in Hb as [? ?]
         | Hb : negb _ = false |- _ => apply negb_false_iff in Hb
         end; auto.
Qed.

(** X14. The room join-product-room puts a user in is the room its
    messages go to: when the join of [userId] with counterpart [r] on
    product [p] is confirmed, every send-message that is granted on
    product [p] alone, from [userId] to [r] or from [r] to [userId], is
    broadcast to that very room. *)
Theorem product_join_meets_send
  (w w' : World) (userId sender rcv : string) (dj ds : EventData)
  (e e1 e2 : Effects) (room : string) (key : ThreadKey) (id : string)
  (room' : option string) :
  run (joinProductRoom w userId (Some dj)) e
    = (Completed, afterJoin e room key id) ->
  truthy (quotationId ds) = false -> truthy (rfqId ds) = false ->
  productId ds = productId dj ->
  (sender = userId /\ Some rcv = receiverId dj)
  \/ (rcv = userId /\ Some sender = receiverId dj) ->
  sendAccess w' sender ds rcv e1 = (Normal room', e2) ->
  room' = Some room /\ In room (rooms (afterJoin e room key id)).
Proof.
  intros Hjoin Hq Hr Hp Hpair Hsend.
  apply joinProductRoom_served_room in Hjoin as [Hroom [Htp Htr]].
  apply sendAccess_grants in Hsend as [Hsend _].
  unfold sendRoomOf in Hsend. rewrite Hq, Hr, Hp, Htp in Hsend.
  split.
  - rewrite Hsend, Hroom. f_equal.
    unfold joinProductRoomName.
    destruct Hpair as [[-> Hrc] | [-> Hsd]].
    + rewrite <- Hrc. reflexivity.
    + rewrite <- Hsd. simpl. now rewrite (sort2_comm sender userId).
  - unfold afterJoin. simpl.
    destruct (existsb (String.eqb room) (rooms e)) eqn:Hex.
    + apply existsb_exists in Hex as [x [Hin Hx]].
      apply String.eqb_eq in Hx. now subst x.
    + apply in_or_app. right. now left.
Qed.

Lemma product_join_meets_send_witness :
  let dj := payloadOf None None (Some Demo.P1) (Some Demo.U2) None None None in
  let ds := payloadOf None None (Some Demo.P1) None (Some Demo.U2) (Some "hi")
              None in
  let room := joinProductRoomName Demo.P1 Demo.U1 Demo.U2 in
  Some (sendProductRoomName Demo.P1 Demo.U1 Demo.U2) = Some room
  /\ In room (rooms (afterJoin Demo.fresh room KProduct Demo.P1)).
Proof.
  intros dj ds room.
  apply (product_join_meets_send Demo.world Demo.world Demo.U1 Demo.U1 Demo.U2
           dj ds Demo.fresh Demo.fresh Demo.fresh room KProduct Demo.P1);
    try reflexivity.
  left. split; reflexivity.
Defined.

(** ** The token and the secret *)

Lemma replace_first_absent (pat rep s : string) :
  includes pat s = false -> replace_first pat rep s = s.
Proof.
  induction s as [|c s IH]; cbn [includes replace_first].
  - destruct (String.prefix pat ""); [discriminate | reflexivity].
  - destruct (String.prefix pat (String c s)); [discriminate |].
    intros H. now rewrite IH.
Qed.

Section AuthMore.
Import Auth.
Variable jwtVerify : string -> string -> Decoded + VerifyError.

(** X15. The middleware lets a connection in only on the word of
    [jwt.verify]: the outcome is [Accepted] exactly when a non-empty
    token was presented, a non-empty secret is configured, and
    [jwt.verify] decoded that token with that secret; the identity of
    the session is the decoded one. *)
Theorem authenticate_accepted_iff
  (cfg : Config) (h : Handshake) (uid rl : option string) :
  authenticate jwtVerify cfg h = Accepted uid rl
  <-> exists token secret d,
        extractToken h = Some token /\ token <> ""
        /\ or_else (JWT_SECRET cfg) (envJWT_SECRET cfg) = Some secret
        /\ secret <> ""
        /\ jwtVerify token secret = inl d
        /\ uid = userId d /\ rl = role d.
Proof.
  unfold authenticate. split.
  - destruct (extractToken h) as [token |]; [| discriminate].
    destruct (token =? "") eqn:Ht; [discriminate |].
    destruct (or_else (JWT_SECRET cfg) (envJWT_SECRET cfg)) as [secret |];
      [| discriminate].
    destruct (secret =? "") eqn:Hs; [discriminate |].
    destruct (jwtVerify token secret) as [d | err] eqn:Hv; [| discriminate].
    intros H. injection H as <- <-.
    apply String.eqb_neq in Ht, Hs.
    exists token, secret, d. repeat split; assumption.
  - intros [token [secret [d [Htok [Hne [Hsec [Hsne [Hv [-> ->]]]]]]]]].
    apply String.eqb_neq in Hne, Hsne.
    now rewrite Htok, Hne, Hsec, Hsne, Hv.
Qed.

(** X16. A token travels intact through the Authorization header: with
    no token in the auth field, the header [Bearer <t>] yields [t], and
    a header without the scheme is taken whole as the token; a token in
    the auth field wins over any header. *)
Theorem extractToken_bearer (t a : string) (header : option string) :
  extractToken {| authToken := None; authorization := Some ("Bearer " ++ t) |}
  = Some t
  /\ (includes "Bearer " a = false ->
      extractToken {| authToken := None; authorization := Some a |} = Some a)
  /\ (t <> "" ->
      extractToken {| authToken := Some t; authorization := header |} = Some t).
Proof.
  unfold extractToken, or_else. cbn [authToken authorization truthy option_map].
  split; [| split].
  - destruct t; reflexivity.
  - intros H. now rewrite (replace_first_absent _ _ _ H).
  - intros H. apply String.eqb_neq in H. now rewrite H.
Qed.

End AuthMore.

(** X17. The token is asked for first: without a token, or with an empty
    one, the connection is refused with [Authentication token required]
    whatever the configuration and whatever [jwt.verify] would say, so
    a server without a secret does not reveal it to a caller without a
    token. *)
Theorem token_required_first
  (verify1 verify2 : string -> string -> Auth.Decoded + Auth.VerifyError)
  (cfg1 cfg2 : Auth.Config) (h : Auth.Handshake) :
  truthy (Auth.extractToken h) = false ->
  Auth.authenticate verify1 cfg1 h = Auth.Refused "Authentication token required"
  /\ Auth.authenticate verify2 cfg2 h = Auth.authenticate verify1 cfg1 h.
Proof.
  intros H.
  rewrite (authenticate_missing_token verify1 cfg1 h H).
  rewrite (authenticate_missing_token verify2 cfg2 h H).
  split; reflexivity.
Qed.

Lemma token_required_first_witness :
  let h := {| Auth.authToken := Some ""; Auth.authorization := Some "Bearer " |} in
  let none := {| Auth.JWT_SECRET := None; Auth.envJWT_SECRET := None |} in
  let some := {| Auth.JWT_SECRET := Some "s3cret"; Auth.envJWT_SECRET := None |} in
  Auth.authenticate Demo.verify none h
  = Auth.Refused "Authentication token required"
  /\ Auth.authenticate (fun _ _ => inr Auth.Malformed) some h
     = Auth.authenticate Demo.verify none h.
Proof.
  intros h none some.
  apply (token_required_first Demo.verify (fun _ _ => inr Auth.Malformed)
           none some h).
  reflexivity.
Defined.

Lemma or_else_truthy (a b : option string) (s : string) :
  or_else a b = Some s /\ s <> ""
  <-> (a = Some s /\ s <> "") \/ (truthy a = false /\ b = Some s /\ s <> "").
Proof.
  unfold or_else. destruct (truthy a) eqn:Ha.
  - split; [intros [H Hs]; left; auto |].
    intros [H | [H _]]; [exact H | discriminate].
  - split; [intros [H Hs]; right; auto |].
    intros [[H Hs] | [_ H]]; [| exact H].
    subst a. simpl in Ha. apply String.eqb_neq in Hs.
    rewrite Hs in Ha. discriminate.
Qed.

Lemma loadedSecret_value (env : Server.Env)
  (backendConfig : option Server.BackendConfig) :
  Server.loadedSecret (Server.loadConfig env backendConfig)
  = if truthy (Server.env_JWT_SECRET env) then Server.env_JWT_SECRET env
    else match backendConfig with
         | Some b => Server.cfg_JWT_SECRET b
         | None => Server.env_JWT_SECRET env
         end.
Proof.
  unfold Server.loadConfig, or_else.
  destruct (truthy (Server.env_JWT_SECRET env)) eqn:Hs; simpl.
  - rewrite orb_false_r.
    destruct (negb (truthy (Server.env_MONGODB_URI env)));
      [destruct backendConfig |]; reflexivity.
  - rewrite orb_true_r. destruct backendConfig; reflexivity.
Qed.

(** X18. The secret the middleware ends up with is the one of the
    environment when that is set, else the one of the backend
    configuration when that file loads and sets one, else none; the
    [|| process.env.JWT_SECRET] of the middleware never changes whether
    a secret is configured. *)
Theorem effective_secret
  (env : Server.Env) (backendConfig : option Server.BackendConfig)
  (s : string) :
  let cfg := Server.authConfig env backendConfig in
  (or_else (Auth.JWT_SECRET cfg) (Auth.envJWT_SECRET cfg) = Some s /\ s <> ""
   <-> (Server.env_JWT_SECRET env = Some s /\ s <> "")
       \/ (truthy (Server.env_JWT_SECRET env) = false
           /\ exists b, backendConfig = Some b
                        /\ Server.cfg_JWT_SECRET b = Some s /\ s <> ""))
  /\ truthy (or_else (Auth.JWT_SECRET cfg) (Auth.envJWT_SECRET cfg))
     = truthy (Auth.JWT_SECRET cfg).
Proof.
  unfold Server.authConfig. cbn [Auth.JWT_SECRET Auth.envJWT_SECRET].
  rewrite loadedSecret_value.
  assert (Hnonempty : forall x : string, x <> "" -> truthy (Some x) = true)
    by exact truthy_some.
  destruct (truthy (Server.env_JWT_SECRET env)) eqn:Henv.
  - split.
    + rewrite or_else_truthy. rewrite Henv. split.
      * intros [H | [H _]]; [left; exact H | discriminate].
      * intros [H | [H _]]; [left; exact H | discriminate].
    + unfold or_else. now rewrite Henv.
  - split.
    + rewrite or_else_truthy. split.
      * intros [[H Hs] | [_ [H Hs]]].
        -- destruct backendConfig as [b |].
           ++ right. split; [reflexivity |]. exists b. auto.
           ++ rewrite H in Henv. rewrite (Hnonempty s Hs) in Henv.
              discriminate.
        -- rewrite H in Henv. rewrite (Hnonempty s Hs) in Henv. discriminate.
      * intros [[H Hs] | [_ [b [-> [H Hs]]]]].
        -- rewrite H in Henv. rewrite (Hnonempty s Hs) in Henv. discriminate.
        -- left. auto.
    + unfold or_else.
      destruct backendConfig as [b |].
      * destruct (truthy (Server.cfg_JWT_SECRET b)) eqn:Hb;
          [exact Hb | exact Henv].
      * rewrite Henv. exact Henv.
Qed.

(** ** CORS *)

(** X19. The two places that read [CORS_ORIGIN] agree in one direction:
    whenever socket.io is given the wildcard, the HTTP middleware allows
    every origin, and whenever socket.io is given a list, the HTTP
    middleware checks that same list; a request without an Origin header
    is always allowed. *)
Theorem cors_settings_agree (env : Server.Env) :
  (Server.corsOrigins env = Server.AnyOrigin ->
   forall origin, Server.originCallback env origin = Ok true)
  /\ (forall allowed,
        Server.corsOrigins env = Server.Origins allowed ->
        Server.allowedOrigins env = allowed)
  /\ (forall origin,
        truthy origin = false -> Server.originCallback env origin = Ok true).
Proof.
  unfold Server.corsOrigins, Server.originCallback, Server.allowedOrigins,
    or_else.
  destruct (truthy (Server.env_CORS_ORIGIN env)) eqn:Ht;
    [destruct (same (Server.env_CORS_ORIGIN env) "*") eqn:Hs |].
  - repeat split.
    + intros _ origin. destruct (negb (truthy origin)); reflexivity.
    + discriminate.
    + intros origin ->. reflexivity.
  - repeat split.
    + discriminate.
    + intros allowed H. now injection H.
    + intros origin ->. reflexivity.
  - assert (Hs : same (Server.env_CORS_ORIGIN env) "*" = false).
    { destruct (Server.env_CORS_ORIGIN env) as [s |]; [| reflexivity].
      simpl in *. destruct (s =? "") eqn:Hs; [| discriminate].
      apply String.eqb_eq in Hs. now subst s. }
    rewrite Hs. repeat split.
    + intros _ origin. destruct (negb (truthy origin)); reflexivity.
    + discriminate.
    + intros origin ->. reflexivity.
Qed.

(** The converse fails: a wildcard written with a blank is a list of one
    entry for socket.io and a wildcard for the HTTP middleware. *)
Example cors_blank_wildcard :
  let env := {| Server.env_MONGODB_URI := None; Server.env_JWT_SECRET := None;
                Server.env_CORS_ORIGIN := Some " *" |} in
  Server.corsOrigins env = Server.Origins ["*"]
  /\ Server.originCallback env (Some "https://elsewhere.example") = Ok true.
Proof. split; reflexivity. Qed.

Example cors_list :
  let env := {| Server.env_MONGODB_URI := None; Server.env_JWT_SECRET := None;
                Server.env_CORS_ORIGIN :=
                  Some "http://localhost:3000, https://sellola.example " |} in
  Server.allowedOrigins env
  = ["http://localhost:3000"; "https://sellola.example"]
  /\ Server.originCallback env (Some "https://sellola.example") = Ok true
  /\ Server.originCallback env (Some "https://elsewhere.example")
     = Err "Not allowed by CORS".
Proof. repeat split. Qed.

(** ** The connection listener *)

(** X20. On every connection the socket joins [user-{id}].  The
    listeners of socketHandlers.js are attached exactly when the flag
    [dbConnected] is up and the connection state is 1, and then nothing
    is emitted; otherwise the socket gets [Server not ready] once and the
    server state is untouched.  The branch that warns that the handlers
    are not loaded is never taken. *)
Theorem connection_attaches
  (st : Server.ServerState) (readyState : Z) (userId : string) (e : Effects) :
  exists st' e',
    Server.connection st readyState userId e
    = (Normal (st', Server.dbConnected st && (readyState =? 1)%Z), e')
    /\ In (userRoom userId) (rooms e')
    /\ inserts e' = inserts e
    /\ (Server.dbConnected st && (readyState =? 1)%Z = true ->
        emitted e' = emitted e /\ Server.socketHandlers st' = true
        /\ Server.dbConnected st' = Server.dbConnected st)
    /\ (Server.dbConnected st && (readyState =? 1)%Z = false ->
        e' = afterError (snd (join (userRoom userId) e))
               "Server not ready. Please try again." None
        /\ st' = st).
Proof.
  pose proof (join_adds (userRoom userId) e) as Hin.
  unfold Server.connection, Server.setupSocketHandlers, serverNotReady.
  handler_unfold. cbn -[String.eqb Z.eqb append] in *.
  destruct (Server.dbConnected st && (readyState =? 1)%Z) eqn:Hup.
  - apply andb_prop in Hup as [Hdb Hrs].
    destruct (Server.socketHandlers st) eqn:Hh;
      cbn -[String.eqb Z.eqb append].
    + rewrite Hh. do 2 eexists. split; [reflexivity |].
      repeat split; try assumption; discriminate.
    + rewrite Hrs. cbn -[String.eqb Z.eqb append].
      do 2 eexists. split; [reflexivity |].
      repeat split; try assumption; discriminate.
  - do 2 eexists. split; [reflexivity |].
    repeat split; try assumption; discriminate.
Qed.

(** X21. A socket that connects while the flag is down or the state is
    not 1 stays deaf: whatever it sends afterwards, in whatever worlds,
    nothing more is emitted, no room is joined besides its own and
    nothing is stored.  That is the lot of every socket that connects
    after an [error] or [disconnected] event of the database connection,
    or after a health check that read another state, even when the
    state reads 1 again by the time it connects. *)
Theorem socketLife_deaf
  (st : Server.ServerState) (readyState : Z) (userId : string)
  (events : list Inbound) :
  let deaf :=
    {| emitted := [{| target := Socket; event := "error";
                      payload := PError "Server not ready. Please try again."
                                   None |}];
       rooms := [userRoom userId];
       inserts := [] |} in
  (Server.dbConnected st && (readyState =? 1)%Z = false ->
   Server.socketLife st readyState userId events = deaf)
  /\ Server.socketLife (Server.onDbEvent Server.DbErrorEvent st)
       readyState userId events = deaf
  /\ Server.socketLife (Server.onDbEvent Server.DbDisconnectedEvent st)
       readyState userId events = deaf
  /\ (forall seen, seen <> 1%Z ->
      Server.socketLife (Server.onDbEvent (Server.HealthCheck seen) st)
        readyState userId events = deaf).
Proof.
  intros deaf.
  assert (Hdown : forall st0,
            Server.dbConnected st0 && (readyState =? 1)%Z = false ->
            Server.socketLife st0 readyState userId events = deaf).
  { intros st0 H.
    unfold Server.socketLife, Server.connection, serverNotReady.
    handler_unfold. cbn -[String.eqb Z.eqb append].
    rewrite H. reflexivity. }
  split; [| split; [| split]].
  - apply Hdown.
  - apply Hdown. reflexivity.
  - apply Hdown. reflexivity.
  - intros seen Hseen. apply Hdown. simpl.
    apply Z.eqb_neq in Hseen. now rewrite Hseen.
Qed.

(** ** What a session can make the server do *)

(** Every way send-message can go, closed by [fin]. *)
Ltac send_paths fin :=
  unfold sendMessage; handler_unfold; crunch; try fin;
  try (match goal with
       | |- context [sendAccess ?w ?u ?d ?r ?e] =>
           let H := fresh "Hacc" in
           destruct (sendAccess_cases w u d r e)
             as [[? H] | [[? H] | [? H]]]; rewrite H
       end; unfold afterError; crunch; try fin;
       try (match goal with
            | |- context [saveMessageNative ?w ?md ?e] =>
                let H := fresh "Hsave" in
                destruct (saveMessageNative_cases w md e)
                  as [[? H] | [[? [? H]] | [? [? H]]]]; rewrite H
            end; unfold withInsert; crunch; try fin)).

Ltac emits_fin :=
  cbn -[String.eqb Z.eqb append includes];
  first
    [ exists []; split; [now rewrite app_nil_r |];
      split; [constructor | simpl; lia]
    | eexists [_]; split; [reflexivity |];
      split; [repeat (apply Forall_cons; [cbn; auto |]); apply Forall_nil
             | simpl; lia]
    | rewrite <- app_assoc; eexists [_; _]; split; [reflexivity |];
      split; [repeat (apply Forall_cons; [cbn; auto |]); apply Forall_nil
             | simpl; lia] ].

Lemma listener_emits (w : World) (userId : string) (name : EventName)
  (data : option EventData) (e : Effects) :
  exists l,
    emitted (snd (run (listener w userId name data) e)) = (emitted e ++ l)%list
    /\ Forall wellShaped l /\ length l <= 2.
Proof.
  destruct name; simpl.
  - unfold joinQuotationRoom. handler_unfold. crunch; emits_fin.
  - unfold joinRfqRoom. handler_unfold. crunch; emits_fin.
  - unfold leaveRoom. handler_unfold. crunch; emits_fin.
  - unfold joinProductRoom. handler_unfold. crunch; emits_fin.
  - send_paths emits_fin.
  - unfold typing. handler_unfold. crunch; emits_fin.
  - unfold stopTyping. handler_unfold. crunch; emits_fin.
Qed.

(** X22. Whatever a session sends, in whatever worlds: the server's
    emissions only accumulate, at most two per inbound event, and each
    has one of four shapes: [error] or [joined-room] to the session's
    own socket, [message-received] or [new-message] to a room,
    [user-typing] to a room without the sender.  In particular no
    error is ever broadcast. *)
Theorem session_emissions (userId : string) (events : list Inbound) :
  forall e,
    exists l,
      emitted (sessionAfter userId events e) = (emitted e ++ l)%list
      /\ Forall wellShaped l
      /\ length l <= 2 * length events.
Proof.
  unfold sessionAfter.
  induction events as [|ev events IH]; intros e; simpl fold_left.
  - exists []. split; [now rewrite app_nil_r | split; [constructor | simpl; lia]].
  - destruct (listener_emits (ev_world ev) userId (ev_name ev) (ev_data ev) e)
      as [l1 [E1 [W1 L1]]].
    destruct (IH (snd (run (listener (ev_world ev) userId (ev_name ev)
                              (ev_data ev)) e)))
      as [l2 [E2 [W2 L2]]].
    exists (l1 ++ l2)%list. split; [| split].
    + rewrite E2, E1. now rewrite app_assoc.
    + apply Forall_app. split; assumption.
    + rewrite length_app. simpl length. lia.
Qed.

Ltac inserts_fin :=
  cbn -[String.eqb Z.eqb append includes];
  first [ left; reflexivity | right; eexists; reflexivity ].

Lemma sendMessage_inserts (w : World) (userId : string)
  (data : option EventData) (e : Effects) :
  inserts (snd (run (sendMessage w userId data) e)) = inserts e
  \/ exists doc,
       inserts (snd (run (sendMessage w userId data) e))
       = (inserts e ++ [doc])%list.
Proof. send_paths inserts_fin. Qed.

Lemma listener_inserts (w : World) (userId : string) (name : EventName)
  (data : option EventData) (e : Effects) :
  exists docs,
    inserts (snd (run (listener w userId name data) e))
    = (inserts e ++ docs)%list
    /\ length docs <= match name with SendMessage => 1 | _ => 0 end.
Proof.
  assert (Hsame : forall e', inserts e' = inserts e ->
            exists docs, inserts e' = (inserts e ++ docs)%list
                         /\ length docs <= 0).
  { intros e' ->. exists []. split; [now rewrite app_nil_r | simpl; lia]. }
  destruct name; simpl.
  - apply Hsame.
    unfold joinQuotationRoom. handler_unfold. crunch; reflexivity.
  - apply Hsame. unfold joinRfqRoom. handler_unfold. crunch; reflexivity.
  - apply Hsame. unfold leaveRoom. handler_unfold. crunch; reflexivity.
  - apply Hsame. unfold joinProductRoom. handler_unfold. crunch; reflexivity.
  - destruct (sendMessage_inserts w userId data e) as [H | [doc H]]; rewrite H.
    + exists []. split; [now rewrite app_nil_r | simpl; lia].
    + exists [doc]. split; [reflexivity | simpl; lia].
  - apply Hsame. unfold typing. handler_unfold. crunch; reflexivity.
  - apply Hsame. unfold stopTyping. handler_unfold. crunch; reflexivity.
Qed.

(** X23. Only send-message writes, and one document at most each time:
    over any sequence of inbound events the documents handed to
    [insertOne] only accumulate, and there are no more of them than
    send-message events in the sequence. *)
Theorem session_inserts (userId : string) (events : list Inbound) :
  forall e,
    exists docs,
      inserts (sessionAfter userId events e) = (inserts e ++ docs)%list
      /\ length docs <= sendCount events.
Proof.
  unfold sessionAfter, sendCount.
  induction events as [|ev events IH]; intros e; simpl fold_left.
  - exists []. split; [now rewrite app_nil_r | simpl; lia].
  - destruct (listener_inserts (ev_world ev) userId (ev_name ev) (ev_data ev) e)
      as [d1 [E1 L1]].
    destruct (IH (snd (run (listener (ev_world ev) userId (ev_name ev)
                              (ev_data ev)) e)))
      as [d2 [E2 L2]].
    exists (d1 ++ d2)%list. split.
    + rewrite E2, E1. now rewrite app_assoc.
    + rewrite length_app. simpl filter.
      destruct (ev_name ev); simpl length in *; lia.
Qed.

(** ** Edge cases of the listeners *)

(** X24. Readiness comes first: when [waitForDB] gives up, each of the
    four listeners that use the database answers [Database not
    connected. Please try again.] and does nothing else, whatever the
    payload, even a missing one. *)
Theorem not_ready_first
  (w : World) (userId : string) (data : option EventData) (e : Effects) :
  dbReady w 15 1000 = false ->
  let refused :=
    (Completed, afterError e "Database not connected. Please try again." None) in
  run (joinQuotationRoom w userId data) e = refused
  /\ run (joinRfqRoom w userId data) e = refused
  /\ run (joinProductRoom w userId data) e = refused
  /\ run (sendMessage w userId data) e = refused.
Proof.
  intros Hdown refused. subst refused.
  unfold joinQuotationRoom, joinRfqRoom, joinProductRoom, sendMessage.
  change defaultRetries with 15. change defaultDelay with 1000.
  handler_unfold. rewrite Hdown. repeat split.
Qed.

Lemma not_ready_first_witness :
  let refused :=
    (Completed,
     afterError Demo.fresh "Database not connected. Please try again." None) in
  run (joinQuotationRoom Demo.stalledWorld Demo.U1 None) Demo.fresh = refused
  /\ run (joinRfqRoom Demo.stalledWorld Demo.U1 None) Demo.fresh = refused
  /\ run (joinProductRoom Demo.stalledWorld Demo.U1 None) Demo.fresh = refused
  /\ run (sendMessage Demo.stalledWorld Demo.U1 None) Demo.fresh = refused.
Proof.
  apply (not_ready_first Demo.stalledWorld Demo.U1 None Demo.fresh).
  reflexivity.
Defined.

(** X25. An event that arrives without a payload: the three listeners
    that have no [try] (typing, stop-typing, leave-room) let the
    TypeError of the destructuring escape, with nothing emitted; the
    four that have one turn it into a single error event carrying its
    text as details. *)
Theorem missing_payload_paths (w : World) (userId : string) (e : Effects) :
  dbReady w 15 1000 = true ->
  connState w = 1%Z ->
  (exists x, run (typing userId None) e = (Unhandled x, e))
  /\ (exists x, run (stopTyping userId None) e = (Unhandled x, e))
  /\ (exists x, run (leaveRoom None) e = (Unhandled x, e))
  /\ (exists x,
        run (joinQuotationRoom w userId None) e
        = (Completed,
           afterError e ("Failed to join quotation room: " ++ orUnknown x)
             (Some x)))
  /\ (exists x,
        run (joinRfqRoom w userId None) e
        = (Completed,
           afterError e ("Failed to join RFQ room: " ++ orUnknown x) (Some x)))
  /\ (exists x,
        run (joinProductRoom w userId None) e
        = (Completed, afterError e (joinProductErrorMessage x) (Some x)))
  /\ (exists x,
        run (sendMessage w userId None) e
        = (Completed,
           afterError e ("Failed to send message: " ++ orUnknown x) (Some x))).
Proof.
  intros Hready Hconn.
  unfold typing, stopTyping, leaveRoom, joinQuotationRoom, joinRfqRoom,
    joinProductRoom, sendMessage.
  change defaultRetries with 15. change defaultDelay with 1000.
  handler_unfold. rewrite Hready, Hconn.
  repeat split; eexists; reflexivity.
Qed.

Lemma missing_payload_paths_witness :
  (exists x, run (typing Demo.U1 None) Demo.fresh = (Unhandled x, Demo.fresh))
  /\ (exists x,
        run (stopTyping Demo.U1 None) Demo.fresh = (Unhandled x, Demo.fresh))
  /\ (exists x, run (leaveRoom None) Demo.fresh = (Unhandled x, Demo.fresh))
  /\ (exists x,
        run (joinQuotationRoom Demo.world Demo.U1 None) Demo.fresh
        = (Completed,
           afterError Demo.fresh
             ("Failed to join quotation room: " ++ orUnknown x) (Some x)))
  /\ (exists x,
        run (joinRfqRoom Demo.world Demo.U1 None) Demo.fresh
        = (Completed,
           afterError Demo.fresh ("Failed to join RFQ room: " ++ orUnknown x)
             (Some x)))
  /\ (exists x,
        run (joinProductRoom Demo.world Demo.U1 None) Demo.fresh
        = (Completed,
           afterError Demo.fresh (joinProductErrorMessage x) (Some x)))
  /\ (exists x,
        run (sendMessage Demo.world Demo.U1 None) Demo.fresh
        = (Completed,
           afterError Demo.fresh ("Failed to send message: " ++ orUnknown x)
             (Some x))).
Proof.
  apply (missing_payload_paths Demo.world Demo.U1 Demo.fresh); reflexivity.
Defined.

(** X26. leave-room takes the session out of the room it names and of
    no other, emits nothing and asks nothing: any room can be left, the
    session's own [user-{id}] included; without a room name nothing
    happens. *)
Theorem leaveRoom_effect (d : EventData) (e : Effects) (r : string) :
  (room d = Some r -> r <> "" ->
   exists e',
     run (leaveRoom (Some d)) e = (Completed, e')
     /\ emitted e' = emitted e /\ inserts e' = inserts e
     /\ ~ In r (rooms e')
     /\ forall x, x <> r -> (In x (rooms e') <-> In x (rooms e)))
  /\ (truthy (room d) = false ->
      run (leaveRoom (Some d)) e = (Completed, e)).
Proof.
  unfold leaveRoom. handler_unfold. split.
  - intros Hr Hne. apply String.eqb_neq in Hne as Hb.
    cbn -[String.eqb]. rewrite Hr. cbn -[String.eqb]. rewrite Hb.
    cbn -[String.eqb]. eexists. split; [reflexivity |].
    cbn -[String.eqb]. repeat split.
    + intros Hin. apply filter_In in Hin as [_ Hx].
      rewrite String.eqb_refl in Hx. discriminate.
    + intros Hin. apply filter_In in Hin. tauto.
    + intros Hin. apply filter_In. split; [exact Hin |].
      apply negb_true_iff. apply String.eqb_neq. congruence.
  - intros Hf. cbn -[String.eqb]. rewrite Hf. reflexivity.
Qed.

(** X27. A quotation whose parent RFQ cannot be found: the quoting
    party still joins its room, and anyone else is answered with the
    TypeError of reading [requestedBy] of [null], surfaced as [Failed to
    join quotation room], rather than with [Access denied]. *)
Theorem joinQuotationRoom_parent_missing
  (w : World) (userId q : string) (d : EventData) (e : Effects)
  (quotation : Quotation) :
  dbReady w defaultRetries defaultDelay = true ->
  quotationId d = Some q -> q <> "" ->
  findQuotation w q = Ok (Some quotation) ->
  findRFQ w (q_rfq quotation) = Ok None ->
  (quotedBy quotation = userId ->
   run (joinQuotationRoom w userId (Some d)) e
   = (Completed, afterJoin e (quotationRoom q) KQuotation q))
  /\ (quotedBy quotation <> userId ->
      run (joinQuotationRoom w userId (Some d)) e
      = (Completed,
         afterError e
           ("Failed to join quotation room: "
            ++ "Cannot read properties of null (reading 'requestedBy')")
           (Some "Cannot read properties of null (reading 'requestedBy')"))).
Proof.
  intros Hready Hq Hne Hfq Hfr.
  apply String.eqb_neq in Hne.
  unfold joinQuotationRoom. handler_unfold.
  rewrite Hready. cbn -[String.eqb append].
  rewrite Hq. cbn -[String.eqb append].
  rewrite Hne. cbn -[String.eqb append].
  rewrite Hfq. cbn -[String.eqb append]. rewrite Hfr.
  split; intros H.
  - apply String.eqb_eq in H. rewrite H. reflexivity.
  - apply String.eqb_neq in H. rewrite H. reflexivity.
Qed.

Lemma joinQuotationRoom_parent_missing_witness :
  let d := payloadOf (Some Demo.Q1) None None None None None None in
  (Demo.U1 = Demo.U2 ->
   run (joinQuotationRoom Trial.orphaned Demo.U2 (Some d)) Demo.fresh
   = (Completed,
      afterJoin Demo.fresh (quotationRoom Demo.Q1) KQuotation Demo.Q1))
  /\ (Demo.U1 <> Demo.U2 ->
      run (joinQuotationRoom Trial.orphaned Demo.U2 (Some d)) Demo.fresh
      = (Completed,
         afterError Demo.fresh
           ("Failed to join quotation room: "
            ++ "Cannot read properties of null (reading 'requestedBy')")
           (Some "Cannot read properties of null (reading 'requestedBy')"))).
Proof.
  intros d.
  apply (joinQuotationRoom_parent_missing Trial.orphaned Demo.U2 Demo.Q1 d
           Demo.fresh {| quotedBy := Demo.U1; q_rfq := None |});
    try reflexivity; discriminate.
Defined.

(** X28. Typing and sending do not read a payload alike.  For a payload
    that carries a product id with a receiver id and a quotation id as
    well, the typing indicator goes to the three-part product room
    while a granted message goes to the quotation room; the two rooms
    differ. *)
Theorem typing_and_send_disagree
  (w : World) (userId p r q rcv : string) (d : EventData)
  (e e1 e2 : Effects) (room : option string) :
  productId d = Some p -> p <> "" ->
  receiverId d = Some r -> r <> "" ->
  quotationId d = Some q -> q <> "" ->
  sendAccess w userId d rcv e1 = (Normal room, e2) ->
  run (typing userId (Some d)) e
  = (Completed,
     {| emitted := emitted e
                   ++ [{| target := SocketTo (typingProductRoom p r);
                          event := "user-typing";
                          payload := PTyping userId true |}];
        rooms := rooms e;
        inserts := inserts e |})
  /\ room = Some (quotationRoom q)
  /\ typingProductRoom p r <> quotationRoom q.
Proof.
  intros Hp Hpne Hr Hrne Hq Hqne Hsend.
  split; [| split].
  - exact (typing_product userId p r d e true Hp Hpne Hr Hrne).
  - apply sendAccess_grants in Hsend as [-> _].
    unfold sendRoomOf. now rewrite Hq, (truthy_some q Hqne).
  - unfold typingProductRoom, quotationRoom. simpl. discriminate.
Qed.

Lemma typing_and_send_disagree_witness :
  let d := payloadOf (Some Demo.Q1) None (Some Demo.P1) (Some Demo.U2)
             (Some Demo.U2) (Some "hi") None in
  run (typing Demo.U1 (Some d)) Demo.fresh
  = (Completed,
     {| emitted := emitted Demo.fresh
                   ++ [{| target := SocketTo (typingProductRoom Demo.P1 Demo.U2);
                          event := "user-typing";
                          payload := PTyping Demo.U1 true |}];
        rooms := rooms Demo.fresh;
        inserts := inserts Demo.fresh |})
  /\ Some (quotationRoom Demo.Q1) = Some (quotationRoom Demo.Q1)
  /\ typingProductRoom Demo.P1 Demo.U2 <> quotationRoom Demo.Q1.
Proof.
  intros d.
  apply (typing_and_send_disagree Demo.world Demo.U1 Demo.P1 Demo.U2 Demo.Q1
           Demo.U2 d Demo.fresh Demo.fresh Demo.fresh);
    try reflexivity; discriminate.
Defined.

(** ** Who may send on a quotation or an RFQ thread *)

(** X29. On a quotation thread with both records resolved, send-message
    grants exactly when the sender is one of the two parties and the
    receiver is one of the two parties; the sender may name itself.  On
    an RFQ thread it grants exactly when the sender is the requester,
    whoever the receiver is. *)
Theorem sendAccess_thread_rules
  (w : World) (userId rcv q r : string) (dq dr : EventData) (e : Effects)
  (quotation : Quotation) (parent rfq : RFQ) :
  quotationId dq = Some q -> q <> "" ->
  findQuotation w q = Ok (Some quotation) ->
  findRFQ w (q_rfq quotation) = Ok (Some parent) ->
  truthy (quotationId dr) = false ->
  rfqId dr = Some r -> r <> "" ->
  findRFQ w (Some r) = Ok (Some rfq) ->
  (sendAccess w userId dq rcv e = (Normal (Some (quotationRoom q)), e)
   <-> (quotedBy quotation = userId \/ requestedBy parent = userId)
       /\ (rcv = quotedBy quotation \/ rcv = requestedBy parent))
  /\ (sendAccess w userId dr rcv e = (Normal (Some (rfqRoom r)), e)
      <-> requestedBy rfq = userId).
Proof.
  intros Hq Hqne Hfq Hfp Hnq Hr Hrne Hfr.
  split.
  - unfold sendAccess. rewrite Hq, (truthy_some q Hqne).
    handler_unfold. cbn -[String.eqb append].
    rewrite Hfq. cbn -[String.eqb append].
    rewrite Hfp. cbn -[String.eqb append].
    destruct (quotedBy quotation =? userId) eqn:H1;
      destruct (requestedBy parent =? userId) eqn:H2;
      destruct (rcv =? quotedBy quotation) eqn:H3;
      destruct (rcv =? requestedBy parent) eqn:H4;
      cbn -[String.eqb append];
      rewrite ?String.eqb_eq, ?String.eqb_neq in *;
      (split; [intros H; try discriminate; tauto
              | intros [[? | ?] [? | ?]]; try reflexivity; congruence]).
  - unfold sendAccess. rewrite Hnq, Hr, (truthy_some r Hrne).
    handler_unfold. cbn -[String.eqb append].
    rewrite Hfr. cbn -[String.eqb append].
    destruct (requestedBy rfq =? userId) eqn:H1; cbn -[String.eqb append];
      rewrite ?String.eqb_eq, ?String.eqb_neq in *;
      (split; [intros H; try discriminate; tauto
              | intros ?; try reflexivity; congruence]).
Qed.

Lemma sendAccess_thread_rules_witness :
  let dq := payloadOf (Some Demo.Q1) None None None (Some Demo.U1) (Some "hi")
              None in
  let dr := payloadOf None (Some Demo.R1) None None (Some Demo.U9) (Some "hi")
              None in
  (sendAccess Demo.world Demo.U1 dq Demo.U1 Demo.fresh
   = (Normal (Some (quotationRoom Demo.Q1)), Demo.fresh)
   <-> (Demo.U1 = Demo.U1 \/ Demo.U2 = Demo.U1)
       /\ (Demo.U1 = Demo.U1 \/ Demo.U1 = Demo.U2))
  /\ (sendAccess Demo.world Demo.U1 dr Demo.U1 Demo.fresh
      = (Normal (Some (rfqRoom Demo.R1)), Demo.fresh)
      <-> Demo.U1 = Demo.U1).
Proof.
  intros dq dr.
  apply (sendAccess_thread_rules Demo.world Demo.U1 Demo.U1 Demo.Q1 Demo.R1
           dq dr Demo.fresh {| quotedBy := Demo.U1; q_rfq := Some Demo.R2 |}
           {| requestedBy := Demo.U2 |} {| requestedBy := Demo.U1 |});
    try reflexivity; discriminate.
Defined.

(** ** Required fields *)

(** X30. A payload that lacks what the event needs is turned down before
    any record is looked up: join-quotation-room without a quotation id,
    join-rfq-room without an RFQ id, join-product-room without a product
    id or a receiver id, send-message without a message or a receiver,
    and, after that check, send-message without any thread id. *)
Theorem required_fields
  (w : World) (userId : string) (d : EventData) (e : Effects) :
  dbReady w 15 1000 = true ->
  connState w = 1%Z ->
  (truthy (quotationId d) = false ->
   run (joinQuotationRoom w userId (Some d)) e
   = (Completed, afterError e "Quotation ID is required" None))
  /\ (truthy (rfqId d) = false ->
      run (joinRfqRoom w userId (Some d)) e
      = (Completed, afterError e "RFQ ID is required" None))
  /\ (truthy (productId d) = false \/ truthy (receiverId d) = false ->
      run (joinProductRoom w userId (Some d)) e
      = (Completed, afterError e "Product ID and receiver ID are required" None))
  /\ (truthy (message d) = false \/ truthy (receiver d) = false ->
      run (sendMessage w userId (Some d)) e
      = (Completed, afterError e "Message and receiver are required" None))
  /\ (truthy (message d) = true -> truthy (receiver d) = true ->
      truthy (quotationId d) = false -> truthy (rfqId d) = false ->
      truthy (productId d) = false ->
      run (sendMessage w userId (Some d)) e
      = (Completed,
         afterError e "Either quotationId, rfqId, or productId is required"
           None)).
Proof.
  intros Hready Hconn.
  unfold joinQuotationRoom, joinRfqRoom, joinProductRoom, sendMessage.
  change defaultRetries with 15. change defaultDelay with 1000.
  handler_unfold. rewrite Hready, Hconn.
  cbn -[String.eqb Z.eqb append truthy].
  repeat split.
  - intros H. now rewrite H.
  - intros H. now rewrite H.
  - intros [H | H]; rewrite H; [reflexivity | now rewrite orb_true_r].
  - intros [H | H]; rewrite H; [reflexivity | now rewrite orb_true_r].
  - intros Hm Hr Hq Hf Hp. now rewrite Hm, Hr, Hq, Hf, Hp.
Qed.

Lemma required_fields_witness :
  let d := payloadOf None None None None (Some Demo.U2) (Some "hi") None in
  (truthy (quotationId d) = false ->
   run (joinQuotationRoom Demo.world Demo.U1 (Some d)) Demo.fresh
   = (Completed, afterError Demo.fresh "Quotation ID is required" None))
  /\ (truthy (rfqId d) = false ->
      run (joinRfqRoom Demo.world Demo.U1 (Some d)) Demo.fresh
      = (Completed, afterError Demo.fresh "RFQ ID is required" None))
  /\ (truthy (productId d) = false \/ truthy (receiverId d) = false ->
      run (joinProductRoom Demo.world Demo.U1 (Some d)) Demo.fresh
      = (Completed,
         afterError Demo.fresh "Product ID and receiver ID are required" None))
  /\ (truthy (message d) = false \/ truthy (receiver d) = false ->
      run (sendMessage Demo.world Demo.U1 (Some d)) Demo.fresh
      = (Completed,
         afterError Demo.fresh "Message and receiver are required" None))
  /\ (truthy (message d) = true -> truthy (receiver d) = true ->
      truthy (quotationId d) = false -> truthy (rfqId d) = false ->
      truthy (productId d) = false ->
      run (sendMessage Demo.world Demo.U1 (Some d)) Demo.fresh
      = (Completed,
         afterError Demo.fresh
           "Either quotationId, rfqId, or productId is required" None)).
Proof.
  intros d.
  apply (required_fields Demo.world Demo.U1 d Demo.fresh); reflexivity.
Defined.
